(** * antidote: the dependency container and its providers

    A shallow embedding of
      - [src/antidote/container/base.py]   (module [Base])
      - [src/antidote/container/proxy.py]  (module [Proxy])
      - [src/antidote/providers/tag/provider.py] (modules [TagProv], [TagIter])
      - [src/antidote/providers/lazy.py]   (module [Lazy])
      - [dependency_manager/injector.py]   (module [Injector])
    and the properties of the resolution core proved about it. *)

From Stdlib Require Import ZArith String List Bool Lia.
From stdpp Require Import base option list gmap strings.

Local Open Scope string_scope.
Local Open Scope list_scope.

(** ** Python values *)

(** The values that occur as dependency ids and as built items.
    [PyObject a] is a reference to the object living at address [a]: two
    references are the same object exactly when the addresses agree, and
    such objects keep the default identity based [__eq__] and [__hash__].
    [PyDependency i] is an instance of the class [Dependency] of base.py
    with [id = i]. *)
Inductive pyobj : Type :=
| PyNone
| PyStr (s : string)
| PyInt (n : Z)
| PyObject (addr : nat)
| PyDependency (id : pyobj).

#[global] Instance pyobj_eq_dec : EqDecision pyobj.
Proof. solve_decision. Defined.

(** Modelled from the spec: the exception classes of
    [antidote/exceptions.py], which is missing, as distinct classes derived
    from [Exception], each with what it carries.  [AttributeError],
    [AssertionError] and [ValueError] are the built-in ones;
    [RaisedException] stands for any other class derived from [Exception],
    [RaisedBaseException] for the classes that derive from [BaseException]
    only ([KeyboardInterrupt], [SystemExit], [GeneratorExit]).
    [DependencyInstantiationError d cause] is what
    [raise DependencyInstantiationError(d) from cause] raises. *)
Inductive exn : Type :=
| DependencyCycleError (path : list pyobj)
| DependencyInstantiationError (dependency : pyobj) (cause : exn)
| DependencyNotFoundError (dependency : pyobj)
| DependencyNotProvidableError (dependency : pyobj)
| DuplicateTagError (name : string)
| AttributeError (name : string)
| AssertionError
| ValueError (msg : string)
| RaisedException (cls : string)
| RaisedBaseException (cls : string).

#[global] Instance exn_eq_dec : EqDecision exn.
Proof. solve_decision. Defined.

(** [isinstance(e, Exception)] *)
Definition is_Exception (e : exn) : bool :=
  match e with
  | RaisedBaseException _ => false
  | _ => true
  end.

(** How a call ends: it returns, it raises, or the evaluation budget of the
    model is used up before it does either. *)
Inductive outcome (A : Type) : Type :=
| Ok (a : A)
| Err (e : exn)
| OutOfFuel.
Arguments Ok {A} a.
Arguments Err {A} e.
Arguments OutOfFuel {A}.

(** ** Hashing and equality of keys *)

(** [hash()] of the built-in values is left to the interpreter. *)
Class Hashing : Type := {
  hash_none : Z;
  hash_str : string -> Z;
  hash_int : Z -> Z;
  hash_object : nat -> Z
}.

Definition isinstance_Dependency (o : pyobj) : bool :=
  match o with
  | PyDependency _ => true
  | _ => false
  end.

(** [Dependency.__init__]: the assertion refuses a wrapped [Dependency]. *)
Definition Dependency (id : pyobj) : outcome pyobj :=
  if isinstance_Dependency id then Err AssertionError else Ok (PyDependency id).

(** A [dict] keyed by Python values: its entries in insertion order. *)
Abbreviation pydict V := (list (pyobj * V)) (only parsing).

Section Keys.
Context `{Hashing}.

(** [Dependency.__hash__] returns [hash(self.id)]. *)
Fixpoint py_hash (o : pyobj) : Z :=
  match o with
  | PyNone => hash_none
  | PyStr s => hash_str s
  | PyInt n => hash_int n
  | PyObject a => hash_object a
  | PyDependency i => py_hash i
  end.

(** [==] between two values none of which is a [Dependency]. *)
Definition builtin_eq (a b : pyobj) : bool :=
  match a, b with
  | PyNone, PyNone => true
  | PyStr s, PyStr t => bool_decide (s = t)
  | PyInt n, PyInt m => bool_decide (n = m)
  | PyObject x, PyObject y => bool_decide (x = y)
  | _, _ => false
  end.

(** [d == a] for a [Dependency] (or a bare value) [d] and a value [a] that
    is not a [Dependency]: [Dependency.__eq__] reduces to [self.id == a],
    the [isinstance] disjunct being false. *)
Fixpoint eq_unwrapped (d a : pyobj) : bool :=
  match d with
  | PyDependency i => eq_unwrapped i a
  | _ => builtin_eq d a
  end.

(** [a == b].  For a [Dependency] on the left this is [Dependency.__eq__];
    a built-in value on the left answers [NotImplemented] to a
    [Dependency], and Python then evaluates the reflected
    [Dependency.__eq__(b, a)]. *)
Fixpoint py_eq (a b : pyobj) : bool :=
  match a with
  | PyDependency i =>
      py_eq i b
      || match b with
         | PyDependency j => py_eq i j
         | _ => false
         end
  | _ =>
      match b with
      | PyDependency _ => eq_unwrapped b a
      | _ => builtin_eq a b
      end
  end.

(** A stored key answers a looked-up key when the hashes agree and the
    stored key compares equal (identity implies both here). *)
Definition key_match (stored key : pyobj) : bool :=
  (py_hash stored =? py_hash key)%Z && py_eq stored key.

(** [d[key]], [None] standing for [KeyError]. *)
Fixpoint dict_get {V} (d : pydict V) (key : pyobj) : option V :=
  match d with
  | [] => None
  | (k, v) :: d' => if key_match k key then Some v else dict_get d' key
  end.

(** [d[key] = v]: an entry whose key matches keeps its key and takes the
    new value, otherwise the entry is added last. *)
Fixpoint dict_set {V} (d : pydict V) (key : pyobj) (v : V) : pydict V :=
  match d with
  | [] => [(key, v)]
  | (k, v') :: d' =>
      if key_match k key then (k, v) :: d' else (k, v') :: dict_set d' key v
  end.

(** [key in d] *)
Definition dict_contains {V} (d : pydict V) (key : pyobj) : bool :=
  match dict_get d key with
  | Some _ => true
  | None => false
  end.

(** [d.update(other)] *)
Definition dict_update {V} (d other : pydict V) : pydict V :=
  fold_left (fun acc kv => dict_set acc (fst kv) (snd kv)) other d.

(** [key in xs] for a list or a set of values. *)
Definition py_in (key : pyobj) (xs : list pyobj) : bool :=
  existsb (fun x => key_match x key) xs.

(** [set(iterable)] *)
Definition py_set (xs : list pyobj) : list pyobj :=
  fold_left (fun acc x => if py_in x acc then acc else acc ++ [x]) xs [].

(** The value a (possibly wrapped) id stands for. *)
Fixpoint unwrap (o : pyobj) : pyobj :=
  match o with
  | PyDependency i => unwrap i
  | _ => o
  end.
End Keys.

(** * container/base.py *)

Module Base.
Section Container.
(** [PS] is the state owned by the providers: registries, the objects they
    have built so far, counters. *)
Context `{Hashing} {PS : Type}.

(** What [__antidote_provide__] hands back: an [Instance(item, singleton)],
    or [None] as [TagProvider.provide] does for a request it ignores. *)
Inductive provided : Type :=
| Instance_ (item : pyobj) (singleton : bool)
| NoneReturned.

(** The body of a provider's [__antidote_provide__], as far as the
    container can observe it: it returns, raises, looks a dependency up
    in the container (inside its own [try], so that it sees the value or
    the exception), or works on the providers' state. *)
Inductive prog : Type :=
| Return (r : provided)
| Raise (e : exn)
| Resolve (dependency : pyobj) (k : pyobj + exn -> prog)
| Effect (f : PS -> pyobj * PS) (k : pyobj -> prog).

(** A registered provider: its [__antidote_provide__] method. *)
Definition provider : Type := pyobj -> prog.

(** [DependencyContainer]: the [_singletons] dict, the number of times the
    running thread holds the re-entrant [_instantiation_lock], the ids on
    the [_instantiation_stack]; [providers_state] is the state behind
    [self.providers]. *)
Record world : Type := mkWorld {
  singletons : pydict pyobj;
  instantiation_lock : nat;
  instantiation_stack : list pyobj;
  providers_state : PS
}.

Definition M (A : Type) : Type := world -> outcome A * world.

Definition set_singletons (d : pydict pyobj) (w : world) : world :=
  mkWorld d (instantiation_lock w) (instantiation_stack w) (providers_state w).

Definition set_providers_state (s : PS) (w : world) : world :=
  mkWorld (singletons w) (instantiation_lock w) (instantiation_stack w) s.

Definition acquire (w : world) : world :=
  mkWorld (singletons w) (S (instantiation_lock w)) (instantiation_stack w)
          (providers_state w).

Definition release (w : world) : world :=
  mkWorld (singletons w) (pred (instantiation_lock w)) (instantiation_stack w)
          (providers_state w).

Definition push (dependency : pyobj) (w : world) : world :=
  mkWorld (singletons w) (instantiation_lock w)
          (instantiation_stack w ++ [dependency]) (providers_state w).

Definition pop (w : world) : world :=
  mkWorld (singletons w) (instantiation_lock w)
          (removelast (instantiation_stack w)) (providers_state w).

(** [with self._instantiation_lock: body] on the thread that runs the
    lookup: the lock is re-entrant, so acquiring never fails, and it is
    released however the body ends. *)
Definition with_lock {A} (body : M A) : M A := fun w =>
  let '(r, w') := body (acquire w) in (r, release w').

(** Modelled from the spec: [InstantiationStack.instantiating] (the module
    [container/stack.py] is missing).  Entering pushes the id on the stack
    of the running thread and fails at once with [DependencyCycleError],
    carrying the stack followed by the id, if the id is already present;
    leaving pops the entry, always, even on error. *)
Definition instantiating {A} (dependency : pyobj) (body : M A) : M A := fun w =>
  if py_in dependency (instantiation_stack w)
  then (Err (DependencyCycleError (instantiation_stack w ++ [dependency])), w)
  else let '(r, w') := body (push dependency w) in (r, pop w').

(** Running a provider; [get] answers its lookups in the container. *)
Fixpoint run (get : pyobj -> M pyobj) (p : prog) (w : world)
  : outcome provided * world :=
  match p with
  | Return r => (Ok r, w)
  | Raise e => (Err e, w)
  | Resolve dependency k =>
      match get dependency w with
      | (Ok v, w') => run get (k (inl v)) w'
      | (Err e, w') => run get (k (inr e)) w'
      | (OutOfFuel, w') => (OutOfFuel, w')
      end
  | Effect f k =>
      let '(v, s) := f (providers_state w) in
      run get (k v) (set_providers_state s w)
  end.

(** The request handed to the providers (lines 72-74). *)
Definition as_Dependency (dependency : pyobj) : pyobj :=
  if isinstance_Dependency dependency then dependency else PyDependency dependency.

(** The [for provider in self.providers.values()] loop (lines 69-82).
    [Ok (Some item)] is the [return instance.item] of line 82, [Ok None]
    the loop running to its end. *)
Fixpoint consult (get : pyobj -> M pyobj) (providers : list provider)
         (dependency : pyobj) (w : world) : outcome (option pyobj) * world :=
  match providers with
  | [] => (Ok None, w)
  | provider :: rest =>
      match run get (provider (as_Dependency dependency)) w with
      | (Err (DependencyNotProvidableError _), w') =>
          consult get rest dependency w'
      | (Err e, w') => (Err e, w')
      | (OutOfFuel, w') => (OutOfFuel, w')
      | (Ok NoneReturned, w') => (Err (AttributeError "singleton"), w')
      | (Ok (Instance_ item singleton), w') =>
          (Ok (Some item),
           if singleton
           then set_singletons (dict_set (singletons w') dependency item) w'
           else w')
      end
  end.

(** The [with] block of lines 62-82. *)
Definition locked_lookup (get : pyobj -> M pyobj) (providers : list provider)
           (dependency : pyobj) : M (option pyobj) :=
  with_lock (instantiating dependency (fun w =>
    match dict_get (singletons w) dependency with
    | Some v => (Ok (Some v), w)
    | None => consult get providers dependency w
    end)).

(** The [except] clauses of lines 84-88. *)
Definition except_clauses {A} (dependency : pyobj) (r : outcome A) : outcome A :=
  match r with
  | Err (DependencyCycleError path) => Err (DependencyCycleError path)
  | Err e =>
      if is_Exception e then Err (DependencyInstantiationError dependency e)
      else Err e
  | _ => r
  end.

(** [DependencyContainer.__getitem__], the lookups made by the providers
    being answered by [get]. *)
Definition getitem_body (get : pyobj -> M pyobj) (providers : list provider)
           (dependency : pyobj) : M pyobj := fun w =>
  match dict_get (singletons w) dependency with
  | Some v => (Ok v, w)
  | None =>
      let '(r, w') := locked_lookup get providers dependency w in
      match except_clauses dependency r with
      | Ok (Some item) => (Ok item, w')
      | Ok None => (Err (DependencyNotFoundError dependency), w')
      | Err e => (Err e, w')
      | OutOfFuel => (OutOfFuel, w')
      end
  end.

(** [container[dependency]]: providers call back into the same
    container; [fuel] bounds the depth of nested lookups. *)
Fixpoint __getitem__ (fuel : nat) (providers : list provider) (dependency : pyobj)
  : M pyobj :=
  match fuel with
  | 0 => fun w => (OutOfFuel, w)
  | S fuel' => getitem_body (__getitem__ fuel' providers) providers dependency
  end.

(** [DependencyContainer.__setitem__] *)
Definition __setitem__ (dependency_id dependency : pyobj) (w : world) : world :=
  release (set_singletons (dict_set (singletons (acquire w)) dependency_id dependency)
                          (acquire w)).

(** [DependencyContainer.update] *)
Definition update (other : pydict pyobj) (w : world) : world :=
  release (set_singletons (dict_update (singletons (acquire w)) other) (acquire w)).

(** The providers of a list decline one after the other, leaving [w']. *)
Fixpoint declined (get : pyobj -> M pyobj) (providers : list provider)
         (dependency : pyobj) (w : world) : option world :=
  match providers with
  | [] => Some w
  | provider :: rest =>
      match run get (provider (as_Dependency dependency)) w with
      | (Err (DependencyNotProvidableError _), w') =>
          declined get rest dependency w'
      | _ => None
      end
  end.

(** What a lookup leaves in place: the stack, the lock, and the absence
    from the cache of every id that is being resolved. *)
Definition preserved (w w' : world) : Prop :=
  instantiation_stack w' = instantiation_stack w
  /\ instantiation_lock w' = instantiation_lock w
  /\ forall k, py_in k (instantiation_stack w) = true ->
       dict_get (singletons w) k = None -> dict_get (singletons w') k = None.

(** [get'] answers as [get] does wherever [get] comes to an end. *)
Definition extends (get get' : pyobj -> M pyobj) : Prop :=
  forall d w r w', get d w = (r, w') -> r <> OutOfFuel -> get' d w = (r, w').
End Container.
End Base.

(** * container/proxy.py *)

Module Proxy.
Section ProxyContainer.
Context `{Hashing}.

(** proxy.py takes its base class from [.container]: [C] is the state of
    the [DependencyContainer] part of a proxy and [super_getitem] the
    [__getitem__] it inherits. *)
Context {C : Type}.
Variable super_getitem : pyobj -> C -> outcome pyobj * C.

(** An argument of [__init__] that has to be an iterable or [None]. *)
Inductive argument : Type :=
| ArgNone
| ArgIterable (xs : list pyobj)
| ArgOther.

Record ProxyContainer : Type := mkProxyContainer {
  base : C;
  _missing : list pyobj
}.

(** Lines 19-24 of [ProxyContainer.__init__]: the set [self._missing]. *)
Definition init_missing (missing : argument) : outcome (list pyobj) :=
  match missing with
  | ArgNone => Ok []
  | ArgIterable xs => Ok (py_set xs)
  | ArgOther => Err (ValueError "missing must be either an iterable or None")
  end.

(** [ProxyContainer.__getitem__] *)
Definition __getitem__ (dependency : pyobj) (self : ProxyContainer)
  : outcome pyobj * ProxyContainer :=
  if py_in dependency (_missing self)
  then (Err (DependencyNotFoundError dependency), self)
  else let '(r, c) := super_getitem dependency (base self) in
       (r, mkProxyContainer c (_missing self)).
End ProxyContainer.
End Proxy.

(** * providers/tag/provider.py *)

Module TagProv.
Section TagProvider.
Context `{Hashing}.

(** Modelled from the spec: [Tag] of [providers/tag/dependency.py], which
    is missing: a named marker plus optional attributes. *)
Record Tag : Type := mkTag {
  name : string;
  attrs : list (string * pyobj)
}.

(** Modelled from the spec: [Tagged] of [providers/tag/dependency.py], which
    is missing: the request that names a tag by its string name.  [Other]
    is a request of any other class. *)
Inductive request : Type :=
| Tagged (tag_name : string)
| Other (o : pyobj).

(** Modelled from the spec: [DependencyInstance] of [antidote.core], which
    is missing: the built item and the singleton flag. *)
Record DependencyInstance : Type := mkDependencyInstance {
  instance : pyobj;
  singleton : bool
}.

Record TaggedDependency : Type := mkTaggedDependency {
  dependency : pyobj;
  tag : Tag
}.

(** The three lists of a [TaggedDependencies]; they are created by
    [__init__] and belong to the collection alone.  (Its container and
    its lock serve [instances()] only.) *)
Record TaggedDependencies : Type := mkTaggedDependencies {
  _dependencies : list pyobj;
  _tags : list Tag;
  _instances : list pyobj
}.

(** [TaggedDependencies.__init__]: the loop of lines 36-38 appends to the
    empty lists of lines 32-34. *)
Definition TaggedDependencies_init (tagged_dependencies : list TaggedDependency)
  : TaggedDependencies :=
  fold_left
    (fun self tagged_dependency =>
       mkTaggedDependencies
         (_dependencies self ++ [dependency tagged_dependency])
         (_tags self ++ [tag tagged_dependency])
         (_instances self))
    tagged_dependencies
    (mkTaggedDependencies [] [] []).

(** [TaggedDependencies.__len__] *)
Definition __len__ (self : TaggedDependencies) : nat := length (_tags self).

(** [TaggedDependencies.dependencies] *)
Definition dependencies (self : TaggedDependencies) : list pyobj := _dependencies self.

(** [TaggedDependencies.tags] *)
Definition tags (self : TaggedDependencies) : list Tag := _tags self.

(** The objects a [TagProvider] works on: its own dict of dicts, and the
    [TaggedDependencies] built so far, each at its address. *)
Record store : Type := mkStore {
  _dependency_to_tag_by_tag_name : gmap string (pydict Tag);
  collections : list TaggedDependencies
}.

(** [TagProvider.provide]; the item handed back is the reference to the new
    collection. *)
Definition provide (dependency : request) (s : store)
  : option DependencyInstance * store :=
  match dependency with
  | Tagged tag_name =>
      let dependency_to_tag :=
        default [] (_dependency_to_tag_by_tag_name s !! tag_name) in
      let collection :=
        TaggedDependencies_init
          (map (fun '(dependency_, tag) => mkTaggedDependency dependency_ tag)
               dependency_to_tag) in
      (Some (mkDependencyInstance (PyObject (length (collections s))) false),
       mkStore (_dependency_to_tag_by_tag_name s) (collections s ++ [collection]))
  | Other _ => (None, s)
  end.

(** An element of the [tags] iterable: a [str], a [Tag], or an object of
    another type, given by the text of its type. *)
Inductive tag_argument : Type :=
| TagStr (s : string)
| TagObj (t : Tag)
| NotATag (type_repr : string).

(** Lines 144-148. *)
Definition as_Tag (t : tag_argument) : outcome Tag :=
  match t with
  | TagStr s => Ok (mkTag s [])
  | TagObj t => Ok t
  | NotATag type_repr =>
      Err (ValueError ("Expecting tag of type Tag, not " ++ type_repr))
  end.

(** [TagProvider.register] *)
Fixpoint register (dependency : pyobj) (tags : list tag_argument) (s : store)
  : outcome unit * store :=
  match tags with
  | [] => (Ok tt, s)
  | t :: rest =>
      match as_Tag t with
      | Ok tag =>
          match _dependency_to_tag_by_tag_name s !! name tag with
          | None =>
              register dependency rest
                (mkStore (<[name tag := [(dependency, tag)]]>
                            (_dependency_to_tag_by_tag_name s))
                         (collections s))
          | Some dependency_to_tag =>
              if negb (dict_contains dependency_to_tag dependency)
              then register dependency rest
                     (mkStore (<[name tag := dict_set dependency_to_tag dependency tag]>
                                 (_dependency_to_tag_by_tag_name s))
                              (collections s))
              else (Err (DuplicateTagError (name tag)), s)
          end
      | Err e => (Err e, s)
      | OutOfFuel => (OutOfFuel, s)
      end
  end.

(** The tag name is registered for the dependency. *)
Definition registered (s : store) (tag_name : string) (dependency : pyobj) : bool :=
  match _dependency_to_tag_by_tag_name s !! tag_name with
  | Some dependency_to_tag => dict_contains dependency_to_tag dependency
  | None => false
  end.

(** Calls of [register] one after the other, each on what the call before
    left, whether that call raised or not. *)
Definition register_all (calls : list (pyobj * list tag_argument)) (s : store) : store :=
  fold_left (fun s call => snd (register (fst call) (snd call) s)) calls s.

(** The entries registered under a tag name, in registration order. *)
Definition tagged (s : store) (tag_name : string) : pydict Tag :=
  default [] (_dependency_to_tag_by_tag_name s !! tag_name).

(** The name carried by an element of [tags]. *)
Definition name_of (t : tag_argument) : option string :=
  match t with
  | TagStr s => Some s
  | TagObj t => Some (name t)
  | NotATag _ => None
  end.
End TagProvider.
End TagProv.

(** * providers/lazy.py *)

Module Lazy.

(** The objects of the heap: a class with its [__dict__] in definition
    order and the classes that follow it in its [__mro__]; a
    [LazyMethodCall] with its five slots; a [LazyMethodCallDependency] with
    its two; any other object.  A reference [PyObject a] points to the
    object at address [a]. *)
Inductive object : Type :=
| ClassObject (__dict__ : list (string * pyobj)) (mro_tail : list nat)
| LazyMethodCall (_method_name : string) (_args : list pyobj)
                 (_kwargs : list (string * pyobj)) (_singleton : bool)
                 (_key : option string)
| LazyMethodCallDependency (lazy_method_call : nat) (owner : nat)
| PlainObject.

Abbreviation heap := (list object).

Section LazyMethodCall.

(** The call of the method [name] of [instance] with the captured
    positional and keyword arguments (line 47). *)
Variable invoke :
  pyobj -> string -> list pyobj -> list (string * pyobj) -> heap -> outcome pyobj * heap.

(** [LazyMethodCall.__init__], the method given by its name. *)
Definition LazyMethodCall_init (method_name : string) (singleton : bool) : object :=
  LazyMethodCall method_name [] [] singleton None.

(** [LazyMethodCall.__call__] *)
Definition __call__ (self : nat) (args : list pyobj) (kwargs : list (string * pyobj))
           (h : heap) : heap :=
  match h !! self with
  | Some (LazyMethodCall method_name _ _ singleton key) =>
      <[self := LazyMethodCall method_name args kwargs singleton key]> h
  | _ => h
  end.

Fixpoint attr_get (d : list (string * pyobj)) (key : string) : option pyobj :=
  match d with
  | [] => None
  | (k, v) :: d' => if String.eqb k key then Some v else attr_get d' key
  end.

Fixpoint attr_set (d : list (string * pyobj)) (key : string) (v : pyobj)
  : list (string * pyobj) :=
  match d with
  | [] => [(key, v)]
  | (k, v') :: d' =>
      if String.eqb k key then (k, v) :: d' else (k, v') :: attr_set d' key v
  end.

(** [LazyMethodCall._get_attribute_name]: the first name of
    [owner.__dict__] bound to [self], [None] when the loop ends. *)
Fixpoint _get_attribute_name (self : nat) (d : list (string * pyobj)) : option string :=
  match d with
  | [] => None
  | (k, v) :: d' =>
      if bool_decide (v = PyObject self) then Some k else _get_attribute_name self d'
  end.

(** ["{}_dependency".format(x)] *)
Definition format_dependency (x : option string) : string :=
  match x with
  | Some k => k ++ "_dependency"
  | None => "None_dependency"
  end.

(** [setattr(owner, key, v)] on a class. *)
Definition setattr (owner : nat) (key : string) (v : pyobj) (h : heap) : heap :=
  match h !! owner with
  | Some (ClassObject d tail) => <[owner := ClassObject (attr_set d key v) tail]> h
  | _ => h
  end.

(** [owner.__mro__] *)
Definition mro (h : heap) (owner : nat) : list nat :=
  owner :: match h !! owner with
           | Some (ClassObject _ tail) => tail
           | _ => []
           end.

(** The attribute as found along the classes of an [__mro__]. *)
Fixpoint find_in_mro (h : heap) (classes : list nat) (key : string) : option pyobj :=
  match classes with
  | [] => None
  | c :: rest =>
      match h !! c with
      | Some (ClassObject d _) =>
          match attr_get d key with
          | Some v => Some v
          | None => find_in_mro h rest key
          end
      | _ => find_in_mro h rest key
      end
  end.

(** [LazyMethodCall.__get__(self, instance, owner)]; [instance = None] is
    the access through the class.  [getattr(owner, key)] hands back the
    value found along [owner.__mro__], except that a [LazyMethodCall] found
    there is itself asked through its [__get__]; [fuel] bounds that
    nesting. *)
Fixpoint __get__ (fuel : nat) (self : nat) (instance : option pyobj) (owner : nat)
         (h : heap) : outcome pyobj * heap :=
  match fuel with
  | 0 => (OutOfFuel, h)
  | S fuel' =>
      match h !! self with
      | Some (LazyMethodCall method_name args kwargs singleton key) =>
          match instance with
          | None =>
              if singleton then
                let '(r, h') :=
                  match key with
                  | None =>
                      match h !! owner with
                      | Some (ClassObject d _) =>
                          let k := format_dependency (_get_attribute_name self d) in
                          let h1 :=
                            <[self := LazyMethodCall method_name args kwargs
                                                     singleton (Some k)]> h in
                          let h2 := h1 ++ [LazyMethodCallDependency self owner] in
                          (Ok k, setattr owner k (PyObject (length h1)) h2)
                      | _ => (Err (AttributeError "__dict__"), h)
                      end
                  | Some k => (Ok k, h)
                  end in
                match r with
                | Ok k =>
                    match find_in_mro h' (mro h' owner) k with
                    | Some (PyObject a) =>
                        match h' !! a with
                        | Some (LazyMethodCall _ _ _ _ _) => __get__ fuel' a None owner h'
                        | _ => (Ok (PyObject a), h')
                        end
                    | Some v => (Ok v, h')
                    | None => (Err (AttributeError k), h')
                    end
                | Err e => (Err e, h')
                | OutOfFuel => (OutOfFuel, h')
                end
              else
                (Ok (PyObject (length h)), h ++ [LazyMethodCallDependency self owner])
          | Some i => invoke i method_name args kwargs h
          end
      | _ => (Err (AttributeError "_singleton"), h)
      end
  end.

(** [n] accesses through the class, one after the other. *)
Fixpoint accesses (fuel : nat) (n : nat) (self owner : nat) (h : heap)
  : list (outcome pyobj) * heap :=
  match n with
  | 0 => ([], h)
  | S n' =>
      let '(r, h') := __get__ fuel self None owner h in
      let '(rs, h'') := accesses fuel n' self owner h' in
      (r :: rs, h'')
  end.
End LazyMethodCall.
End Lazy.

(** * Concrete containers and providers *)

Module Inputs.
Import Base.

(** One possible [hash()]. *)
Definition sample_hashing : Hashing :=
  {| hash_none := 0;
     hash_str := fun s => Z.of_nat (String.length s);
     hash_int := fun n => n;
     hash_object := fun a => Z.of_nat a |}.

(** A fresh container; the providers' state counts the objects built. *)
Definition empty_world : world (PS:=nat) := mkWorld [] 0 [] 0.

(** A provider that handles no id. *)
Definition decliner : provider (PS:=nat) :=
  fun d => Raise (DependencyNotProvidableError d).

(** A provider that builds a new object for every request. *)
Definition factory (singleton : bool) : provider (PS:=nat) :=
  fun _ => Effect (fun n => (PyObject n, S n)) (fun o => Return (Instance_ o singleton)).

(** A provider that answers every request with the same value. *)
Definition constant (v : pyobj) : provider (PS:=nat) :=
  fun _ => Return (Instance_ v false).

(** A provider whose [__antidote_provide__] returns [None]. *)
Definition returns_none : provider (PS:=nat) :=
  fun _ => Return NoneReturned.

(** A provider that raises. *)
Definition raises (e : exn) : provider (PS:=nat) :=
  fun _ => Raise e.

(** A tag provider in which ['a'] carries the tag ['t']. *)
Definition one_tagged : TagProv.store :=
  snd (@TagProv.register sample_hashing (PyStr "a") [TagProv.TagStr "t"]
         (TagProv.mkStore ∅ [])).

(** A heap with the class [A] at 0, whose attribute [x] is the singleton
    lazy method call at 1 and whose attribute [y] is the lazy method call
    at 2, not a singleton, and with a subclass [B] of [A] at 3. *)
Definition class_heap : Lazy.heap :=
  [Lazy.ClassObject [("x", PyObject 1); ("y", PyObject 2)] [];
   Lazy.LazyMethodCall_init "get" true;
   Lazy.LazyMethodCall_init "get" false;
   Lazy.ClassObject [] [0]].

(** No method is called by an access through the class. *)
Definition no_call (instance : pyobj) (method_name : string) (args : list pyobj)
           (kwargs : list (string * pyobj)) (h : Lazy.heap) : outcome pyobj * Lazy.heap :=
  (Ok PyNone, h).

Section Chains.
Context `{Hashing} {PS : Type}.

(** What a provider does with the outcome of a lookup it does not guard:
    the value is the singleton it provides, an exception passes through. *)
Definition forward (r : pyobj + exn) : prog (PS:=PS) :=
  match r with
  | inl v => Return (Instance_ v true)
  | inr e => Raise e
  end.

(** The id that follows [x] in the list, [first] following the last one. *)
Fixpoint successor (first : pyobj) (l : list pyobj) (x : pyobj) : option pyobj :=
  match l with
  | [] => None
  | a :: l' => if key_match a x then Some (hd first l') else successor first l' x
  end.

(** A provider that builds each id of the list from the id that follows
    it, and the last one from the first. *)
Definition cyclic (l : list pyobj) : provider (PS:=PS) :=
  fun request =>
    match successor (hd PyNone l) l request with
    | Some d' => Resolve d' forward
    | None => Raise (DependencyNotProvidableError request)
    end.

(** No two ids of the list are equal. *)
Fixpoint distinct (l : list pyobj) : bool :=
  match l with
  | [] => true
  | a :: l' => negb (py_in a l') && distinct l'
  end.

(** None of the ids is in the dict. *)
Definition all_missing {V} (c : pydict V) (l : list pyobj) : bool :=
  forallb (fun k => negb (dict_contains c k)) l.
End Chains.
End Inputs.

(** * Using the container *)

Module BaseUse.
Import Base.
Section Sequences.
Context `{Hashing} {PS : Type}.

(** Lookups made one after the other, each in the container the one
    before left, whatever it returned or raised. *)
Definition lookups (fuel : nat) (providers : list (provider (PS:=PS)))
           (ds : list pyobj) (w : world) : world :=
  fold_left (fun w d => snd (__getitem__ fuel providers d w)) ds w.

(** Every entry of the cache of [w] is in the cache of [w'], with its
    value. *)
Definition kept (w w' : world (PS:=PS)) : Prop :=
  forall k v, dict_get (singletons w) k = Some v -> dict_get (singletons w') k = Some v.
End Sequences.
End BaseUse.

(** * Using the tag provider *)

Module TagUse.
Import TagProv.
Section Registry.
Context `{Hashing}.

(** What [register] keeps true of the provider's dict: under a name it
    holds at least one entry, every tag found there carries the name, and
    no two entries are for the same dependency. *)
Definition well_formed (s : store) : Prop :=
  forall n (inner : pydict Tag),
    _dependency_to_tag_by_tag_name s !! n = Some inner ->
    inner <> []
    /\ Forall (fun entry => name (snd entry) = n) inner
    /\ Inputs.distinct (map fst inner) = true.

(** A call made on the provider. *)
Inductive call : Type :=
| CallRegister (dependency : pyobj) (tags : list tag_argument)
| CallProvide (dependency : request).

(** The provider after the calls, made one after the other, each on what
    the call before left, whether that call raised or not. *)
Definition after (calls : list call) (s : store) : store :=
  fold_left
    (fun s c =>
       match c with
       | CallRegister dependency tags => snd (register dependency tags s)
       | CallProvide dependency => snd (provide dependency s)
       end)
    calls s.

(** [TagProvider.__init__]: the dict is empty; no collection is built
    yet. *)
Definition TagProvider_init : store := mkStore ∅ [].
End Registry.
End TagUse.

(** * [TaggedDependencies.instances] *)

Module TagIter.
Import TagProv.
Section Instances.
Context {CS : Type}.

(** [self._container.provide], on the state [CS] of the container: it
    answers with the instance built, with the [SENTINEL] of the container,
    which is [None] here, or it raises. *)
Variable container_provide : pyobj -> CS -> outcome (option pyobj) * CS.

(** [IndexError] is one of the classes derived from [Exception]. *)
Definition IndexError : exn := RaisedException "IndexError".

(** Where a generator made by [instances()] is suspended: in the [for]
    loop of line 62, or before it, the iterator over [self._instances]
    being at [index]; at one of the [yield]s of the [while] loop, [i]
    being what it is there; or finished. *)
Inductive generator : Type :=
| InFor (index : nat)
| InWhile (i : nat)
| Finished.

(** Calling [instances()] runs nothing of its body. *)
Definition instances : generator := InFor 0.

(** [self._instances.append(instance)] *)
Definition append_instance (self : TaggedDependencies) (instance : pyobj)
  : TaggedDependencies :=
  mkTaggedDependencies (_dependencies self) (_tags self) (_instances self ++ [instance]).

(** Lines 66-79, from the test of the [while] on, up to the next [yield]:
    [Ok (Some v)] when [v] is yielded, [Ok None] when the body ends.  The
    lock of line 70 is free whenever the generator is suspended, all the
    [yield]s being outside the [with]. *)
Definition while_loop (i : nat) (self : TaggedDependencies) (c : CS)
  : outcome (option pyobj) * generator * TaggedDependencies * CS :=
  if (i <? __len__ self)%nat then
    match _instances self !! i with
    | Some instance => (Ok (Some instance), InWhile i, self, c)
    | None =>
        if (i =? length (_instances self))%nat then
          match _dependencies self !! i with
          | Some dependency =>
              match container_provide dependency c with
              | (Ok (Some instance), c') =>
                  let self' := append_instance self instance in
                  match _instances self' !! i with
                  | Some instance' => (Ok (Some instance'), InWhile i, self', c')
                  | None => (Err IndexError, Finished, self', c')
                  end
              | (Ok None, c') =>
                  (Err (DependencyNotFoundError dependency), Finished, self, c')
              | (Err e, c') => (Err e, Finished, self, c')
              | (OutOfFuel, c') => (OutOfFuel, Finished, self, c')
              end
          | None => (Err IndexError, Finished, self, c)
          end
        else (Err IndexError, Finished, self, c)
    end
  else (Ok None, Finished, self, c).

(** [next()] on the generator: what it yields ([Ok None] stands for
    [StopIteration]), where it is suspended then, and the collection and
    the container it leaves.  The iterator of the [for] loop reads the
    list as it is at the time; when it is at the end, [i] is the index it
    is at less one, and line 65 adds one. *)
Definition next (g : generator) (self : TaggedDependencies) (c : CS)
  : outcome (option pyobj) * generator * TaggedDependencies * CS :=
  match g with
  | InFor index =>
      match _instances self !! index with
      | Some instance => (Ok (Some instance), InFor (S index), self, c)
      | None => while_loop index self c
      end
  | InWhile i => while_loop (S i) self c
  | Finished => (Ok None, Finished, self, c)
  end.

(** How the consumer of a generator is left. *)
Inductive ending : Type :=
| Suspended (g : generator)
| Exhausted
| Failed (e : exn)
| Diverged.

(** At most [n] calls of [next()], as [islice(generator, n)] makes them,
    or a [for] loop when [n] is large: what was yielded, and how it
    ended. *)
Fixpoint consume (n : nat) (g : generator) (self : TaggedDependencies) (c : CS)
  : list pyobj * ending * TaggedDependencies * CS :=
  match n with
  | 0 => ([], Suspended g, self, c)
  | S n' =>
      match next g self c with
      | (Ok (Some v), g', self', c') =>
          let '(vs, e, self'', c'') := consume n' g' self' c' in
          (v :: vs, e, self'', c'')
      | (Ok None, _, self', c') => ([], Exhausted, self', c')
      | (Err e, _, self', c') => ([], Failed e, self', c')
      | (OutOfFuel, _, self', c') => ([], Diverged, self', c')
      end
  end.

(** The index of what the generator yields next. *)
Definition pending (g : generator) : nat :=
  match g with
  | InFor index => index
  | InWhile i => S i
  | Finished => 0
  end.

(** The dependencies provided by the container one after the other, up to
    the first one it has not: what they gave, and how it ended. *)
Fixpoint provide_each (ds : list pyobj) (c : CS) : list pyobj * outcome unit * CS :=
  match ds with
  | [] => ([], Ok tt, c)
  | d :: rest =>
      match container_provide d c with
      | (Ok (Some v), c') =>
          let '(vs, r, c'') := provide_each rest c' in (v :: vs, r, c'')
      | (Ok None, c') => ([], Err (DependencyNotFoundError d), c')
      | (Err e, c') => ([], Err e, c')
      | (OutOfFuel, c') => ([], OutOfFuel, c')
      end
  end.

(** The collection with more instances built. *)
Definition with_instances (self : TaggedDependencies) (more : list pyobj)
  : TaggedDependencies :=
  mkTaggedDependencies (_dependencies self) (_tags self) (_instances self ++ more).

(** What [__init__] and [instances()] keep: as many tags as dependencies,
    and no more instances than that. *)
Definition consistent (self : TaggedDependencies) : Prop :=
  length (_dependencies self) = length (_tags self)
  /\ length (_instances self) <= length (_tags self).
End Instances.
End TagIter.

(** * Using a proxy container *)

Module ProxyUse.
Import Proxy.
Section Sequences.
Context `{Hashing} {C : Type}.
Variable super_getitem : pyobj -> C -> outcome pyobj * C.

(** Lookups made through the proxy one after the other, whatever each
    returned or raised. *)
Definition lookups (ds : list pyobj) (self : ProxyContainer (C:=C))
  : ProxyContainer (C:=C) :=
  fold_left (fun self d => snd (__getitem__ super_getitem d self)) ds self.
End Sequences.
End ProxyUse.

(** * dependency_manager/injector.py *)

Module Injector.

(** A parameter of a signature: its name, and its default when it has
    one ([parameter.empty] is [None] here). *)
Record parameter : Type := mkParameter {
  parameter_name : string;
  parameter_default : option pyobj
}.

(** A function as the injector sees it: [__annotations__], when the
    attribute exists, and the parameters of [inspect.signature], in
    order. *)
Record func : Type := mkFunc {
  __annotations__ : option (gmap string pyobj);
  signature : list parameter
}.

(** An entry of an injection blueprint: the name of the argument, the
    dependency id ([_EMPTY_DEPENDENCY] is [None] here), and
    [has_default]. *)
Record entry : Type := mkEntry {
  arg_name : string;
  dependency_id : option pyobj;
  has_default : bool
}.

(** [_get_arguments_specification], as defined for Python 3. *)
Definition _get_arguments_specification (f : func) : list (string * bool) :=
  map (fun p => (parameter_name p,
                 match parameter_default p with Some _ => true | None => false end))
      (signature f).

(** What [inspect.getargspec] gives: the names of the arguments and, when
    there are any, the defaults of the last ones. *)
Record argspec : Type := mkArgspec {
  argspec_args : list string;
  argspec_defaults : option (list pyobj)
}.

(** [_get_arguments_specification], as defined for Python 2;
    [getargspec] raising [TypeError] is [None], and [ismethod] is what
    [inspect.ismethod(func)] says.  [first_default] may be negative. *)
Definition _get_arguments_specification_py2 (spec : option argspec) (ismethod : bool)
  : list (string * bool) :=
  match spec with
  | None => []
  | Some argspec =>
      let first_default :=
        (Z.of_nat (length (argspec_args argspec))
         - Z.of_nat (length (default [] (argspec_defaults argspec))))%Z in
      let '(args, first_default) :=
        if ismethod
        then (drop 1 (argspec_args argspec), (first_default - 1)%Z)
        else (argspec_args argspec, first_default) in
      imap (fun i name => (name, (first_default <=? Z.of_nat i)%Z)) args
  end.

(** [_generate_injection_blueprint] *)
Definition _generate_injection_blueprint (f : func) (use_arg_name : bool)
           (mapping : gmap string pyobj) : list entry :=
  let argument_mapping := default ∅ (__annotations__ f) in
  let argument_mapping := delete "return" argument_mapping in
  let argument_mapping := mapping ∪ argument_mapping in
  map (fun '(name, has_default) =>
         mkEntry name
                 (match argument_mapping !! name with
                  | Some d => Some d
                  | None => if use_arg_name then Some (PyStr name) else None
                  end)
                 has_default)
      (_get_arguments_specification f).

Section DependencyInjector.
Context {CS : Type}.

(** [self._container[dependency_id]], on the state [CS] of the
    container. *)
Variable container_getitem : pyobj -> CS -> outcome pyobj * CS.

(** The loop of lines 109-117 over the entries that are left. *)
Fixpoint inject_each (entries : list entry) (kwargs : gmap string pyobj) (c : CS)
  : outcome (gmap string pyobj) * CS :=
  match entries with
  | [] => (Ok kwargs, c)
  | e :: rest =>
      match dependency_id e, kwargs !! arg_name e with
      | Some d, None =>
          match container_getitem d c with
          | (Ok v, c') => inject_each rest (<[arg_name e := v]> kwargs) c'
          | (Err (DependencyNotFoundError x), c') =>
              if has_default e
              then inject_each rest kwargs c'
              else (Err (DependencyNotFoundError x), c')
          | (Err err, c') => (Err err, c')
          | (OutOfFuel, c') => (OutOfFuel, c')
          end
      | _, _ => inject_each rest kwargs c
      end
  end.

(** [_generate_args_kwargs] *)
Definition _generate_args_kwargs (args : list pyobj) (kwargs : gmap string pyobj)
           (injection_blueprint : list entry) (c : CS)
  : outcome (list pyobj * gmap string pyobj) * CS :=
  match inject_each (drop (length args) injection_blueprint) kwargs c with
  | (Ok kwargs', c') => (Ok (args, kwargs'), c')
  | (Err e, c') => (Err e, c')
  | (OutOfFuel, c') => (OutOfFuel, c')
  end.

(** What [functools.partial(func, *args, **keywords)] holds. *)
Record partial : Type := mkPartial {
  partial_func : func;
  partial_args : list pyobj;
  partial_keywords : gmap string pyobj
}.

(** [prepare]; an argument left out, or [None], is [None]. *)
Definition prepare (f : func) (use_arg_name : bool)
           (mapping : option (gmap string pyobj)) (args : option (list pyobj))
           (kwargs : option (gmap string pyobj)) (c : CS) : outcome partial * CS :=
  match _generate_args_kwargs
          (default [] args) (default ∅ kwargs)
          (_generate_injection_blueprint f use_arg_name (default ∅ mapping)) c with
  | (Ok (new_args, new_kwargs), c') => (Ok (mkPartial f new_args new_kwargs), c')
  | (Err e, c') => (Err e, c')
  | (OutOfFuel, c') => (OutOfFuel, c')
  end.

(** The call of a function with positional and keyword arguments. *)
Variable call : func -> list pyobj -> gmap string pyobj -> CS -> outcome pyobj * CS.

(** [fast_inject], the wrapper [inject] returns: [non_local_container] is
    the cell [non_local_container[0]], which belongs to the decorator. *)
Definition fast_inject (mapping : option (gmap string pyobj)) (use_arg_name : bool)
           (non_local_container : option (list entry))
           (wrapped : func) (args : list pyobj) (kwargs : gmap string pyobj) (c : CS)
  : outcome pyobj * option (list entry) * CS :=
  let non_local_container :=
    match non_local_container with
    | None => Some (_generate_injection_blueprint wrapped use_arg_name
                                                  (default ∅ mapping))
    | Some blueprint => Some blueprint
    end in
  match _generate_args_kwargs args kwargs (default [] non_local_container) c with
  | (Ok (args, kwargs), c') =>
      let '(r, c'') := call wrapped args kwargs c' in (r, non_local_container, c'')
  | (Err e, c') => (Err e, non_local_container, c')
  | (OutOfFuel, c') => (OutOfFuel, non_local_container, c')
  end.
End DependencyInjector.
End Injector.

(** * Using the injector *)

Module InjectorUse.
Import Injector.

(** The dependency id asked for the parameter named [n]: what the mapping
    says, else the annotation of the parameter, else the name itself when
    [use_arg_name] is set, else none. *)
Definition wanted (f : func) (use_arg_name : bool) (mapping : gmap string pyobj)
           (n : string) : option pyobj :=
  match mapping !! n with
  | Some d => Some d
  | None =>
      match (if String.eqb n "return" then None
             else default ∅ (__annotations__ f) !! n) with
      | Some d => Some d
      | None => if use_arg_name then Some (PyStr n) else None
      end
  end.

Section Decorator.
Context {CS : Type}.
Variable container_getitem : pyobj -> CS -> outcome pyobj * CS.
Variable call : func -> list pyobj -> gmap string pyobj -> CS -> outcome pyobj * CS.

(** Calls of functions wrapped by one decorator, which [inject] returned
    for the mapping and [use_arg_name] given, made one after the other:
    the cell of the decorator and the container they leave. *)
Definition decorated_calls (mapping : option (gmap string pyobj)) (use_arg_name : bool)
           (calls : list (func * list pyobj * gmap string pyobj))
           (non_local_container : option (list entry)) (c : CS)
  : option (list entry) * CS :=
  fold_left
    (fun state '(wrapped, args, kwargs) =>
       let '(_, cell, c') :=
         fast_inject container_getitem call mapping use_arg_name
                     (fst state) wrapped args kwargs (snd state) in
       (cell, c'))
    calls (non_local_container, c).
End Decorator.
End InjectorUse.

(** * Using lazy method calls *)

Module LazyUse.
Import Lazy.

(** What is done with the lazy method calls of a heap between two
    accesses: an access through a class, or a call. *)
Inductive operation : Type :=
| ClassAccess (self owner : nat)
| Call (self : nat) (args : list pyobj) (kwargs : list (string * pyobj)).

Section Operations.
Variable invoke :
  pyobj -> string -> list pyobj -> list (string * pyobj) -> heap -> outcome pyobj * heap.

Definition perform (fuel : nat) (op : operation) (h : heap) : heap :=
  match op with
  | ClassAccess self owner => snd (__get__ invoke fuel self None owner h)
  | Call self args kwargs => __call__ self args kwargs h
  end.

(** The operations made one after the other, whatever each returned or
    raised. *)
Definition performs (fuel : nat) (ops : list operation) (h : heap) : heap :=
  fold_left (fun h op => perform fuel op h) ops h.
End Operations.

(** The object at [i] is a [LazyMethodCall]. *)
Definition is_LazyMethodCall (h : heap) (i : nat) : Prop :=
  exists mn args kw sg key, h !! i = Some (LazyMethodCall mn args kw sg key).

(** The marker [m] of the singleton descriptor [self] is bound in the
    class [owner] under [a_dependency], the descriptor remembers that
    name, the [__dict__] of the class has each name once, and no other
    lazy method call is what the class holds under [a]. *)
Definition marker_bound (self owner : nat) (tail : list nat) (a : string) (m : nat)
           (h : heap) : Prop :=
  (exists mn args kw,
      h !! self
      = Some (LazyMethodCall mn args kw true (Some (a ++ "_dependency")%string)))
  /\ (exists d,
         h !! owner = Some (ClassObject d tail)
         /\ List.NoDup (map fst d)
         /\ attr_get d (a ++ "_dependency")%string = Some (PyObject m)
         /\ forall i, attr_get d a = Some (PyObject i) -> is_LazyMethodCall h i -> i = self)
  /\ h !! m = Some (LazyMethodCallDependency self owner).
End LazyUse.

(** * More sample inputs *)

Module MoreInputs.

(** The class [A] at 0 with two singleton lazy method calls, ['x'] at 1
    and ['z'] at 2, and a subclass [B] of [A] at 3. *)
Definition two_singletons : Lazy.heap :=
  [Lazy.ClassObject [("x", PyObject 1); ("z", PyObject 2)] [];
   Lazy.LazyMethodCall_init "get" true;
   Lazy.LazyMethodCall_init "other" true;
   Lazy.ClassObject [] [0]].

(** A container that has every [int], tenfold, and nothing else, and
    keeps the list of what it was asked for. *)
Definition counting (d : pyobj) (asked : list pyobj)
  : outcome (option pyobj) * list pyobj :=
  (Ok (match d with PyInt n => Some (PyInt (10 * n)) | _ => None end), asked ++ [d]).

(** Three dependencies under one tag, none built yet. *)
Definition three : TagProv.TaggedDependencies :=
  TagProv.mkTaggedDependencies
    [PyInt 1; PyInt 2; PyInt 3]
    [TagProv.mkTag "t" []; TagProv.mkTag "t" []; TagProv.mkTag "t" []]
    [].

(** The same with a dependency the container has not. *)
Definition broken : TagProv.TaggedDependencies :=
  TagProv.mkTaggedDependencies
    [PyInt 1; PyStr "b"; PyInt 3]
    [TagProv.mkTag "t" []; TagProv.mkTag "t" []; TagProv.mkTag "t" []]
    [].

(** A provider that builds [d] from [d'], and handles no other id. *)
Definition requiring (d d' : pyobj) : Base.provider (PS:=nat) :=
  fun request =>
    if @key_match Inputs.sample_hashing d request
    then Base.Resolve d' Inputs.forward
    else Base.Raise (DependencyNotProvidableError request).

(** The method called gives back its first argument. *)
Definition first_argument (instance : pyobj) (method_name : string) (args : list pyobj)
           (kwargs : list (string * pyobj)) (h : Lazy.heap) : outcome pyobj * Lazy.heap :=
  (Ok (hd PyNone args), h).

(** A container that is a dict: it raises [DependencyNotFoundError] for
    what it has not. *)
Definition lookup_in (d : gmap string pyobj) (dependency : pyobj) : outcome pyobj :=
  match dependency with
  | PyStr k => match d !! k with
               | Some v => Ok v
               | None => Err (DependencyNotFoundError dependency)
               end
  | _ => Err (DependencyNotFoundError dependency)
  end.

(** The same as a container with a state, which counts the lookups. *)
Definition counted_lookup (d : gmap string pyobj) (dependency : pyobj) (n : nat)
  : outcome pyobj * nat :=
  (lookup_in d dependency, S n).

(** [def f(a, b: 'service', c='x', d=None)] *)
Definition sample_func : Injector.func :=
  Injector.mkFunc
    (Some {[ "b" := PyStr "service"; "return" := PyStr "result" ]})
    [Injector.mkParameter "a" None;
     Injector.mkParameter "b" None;
     Injector.mkParameter "c" (Some (PyStr "x"));
     Injector.mkParameter "d" (Some PyNone)].

(** [def g(service)] *)
Definition other_func : Injector.func :=
  Injector.mkFunc None [Injector.mkParameter "service" None].

(** The call gives back the keyword argument ['service'], if any. *)
Definition returns_service {CS : Type} (f : Injector.func) (args : list pyobj)
           (kwargs : gmap string pyobj) (c : CS) : outcome pyobj * CS :=
  (Ok (default PyNone (kwargs !! "service")), c).
End MoreInputs.

(** * Keys *)

Section KeyFacts.
Context `{Hashing}.

Lemma builtin_eq_true (a b : pyobj) : builtin_eq a b = true -> a = b.
Proof.
  destruct a, b; simpl; try discriminate; try reflexivity;
    intros E; apply bool_decide_eq_true in E; congruence.
Qed.

Lemma builtin_eq_refl (a : pyobj) :
  isinstance_Dependency a = false -> builtin_eq a a = true.
Proof.
  destruct a; simpl; intros E; try reflexivity; try discriminate;
    apply bool_decide_eq_true; reflexivity.
Qed.

Lemma builtin_eq_sym (a b : pyobj) : builtin_eq a b = builtin_eq b a.
Proof.
  destruct a, b; simpl; try reflexivity;
    apply bool_decide_ext; split; congruence.
Qed.

Lemma eq_unwrapped_hash (d a : pyobj) :
  eq_unwrapped d a = true -> py_hash d = py_hash a.
Proof.
  induction d as [| s | n | x | i IH]; intros E.
  1-4: match goal with
       | |- py_hash ?d = _ => exact (f_equal py_hash (builtin_eq_true d a E))
       end.
  apply IH, E.
Qed.

Lemma py_eq_hash (a : pyobj) : forall b, py_eq a b = true -> py_hash a = py_hash b.
Proof.
  induction a as [| s | n | x | i IH]; intros b E.
  1-4: destruct b as [| t | m | y | j];
    match goal with
    | |- _ = py_hash (PyDependency _) =>
        symmetry; exact (eq_unwrapped_hash (PyDependency j) _ E)
    | |- py_hash ?a = py_hash ?b => exact (f_equal py_hash (builtin_eq_true a b E))
    end.
  simpl in E. apply orb_true_iff in E as [E | E].
  - simpl. apply IH, E.
  - destruct b; try discriminate. simpl. apply IH, E.
Qed.

Lemma py_eq_refl (a : pyobj) : py_eq a a = true.
Proof.
  induction a as [| s | n | x | i IH]; simpl;
    try (apply bool_decide_eq_true; reflexivity); try reflexivity.
  rewrite IH. apply orb_true_r.
Qed.

Lemma key_match_refl (k : pyobj) : key_match k k = true.
Proof.
  unfold key_match. rewrite py_eq_refl, Z.eqb_refl. reflexivity.
Qed.

(** The hash test of a lookup never rejects a key that compares equal. *)
Lemma key_match_py_eq (k k' : pyobj) : key_match k k' = py_eq k k'.
Proof.
  unfold key_match. destruct (py_eq k k') eqn:E.
  - apply py_eq_hash in E. rewrite E, Z.eqb_refl. reflexivity.
  - apply andb_false_r.
Qed.

(** Against any stored key, a [Dependency] wrapping a bare value compares
    as the bare value does. *)
Lemma py_eq_wrapped (x : pyobj) :
  isinstance_Dependency x = false ->
  forall k, py_eq k (PyDependency x) = py_eq k x.
Proof.
  intros Hx k. induction k as [| s | n | a | i IH].
  1-4: destruct x; try discriminate; simpl; try reflexivity;
    apply bool_decide_ext; split; congruence.
  simpl. rewrite IH.
  destruct x; try discriminate; simpl;
    rewrite orb_false_r, orb_diag; reflexivity.
Qed.

Lemma key_match_wrapped (x : pyobj) :
  isinstance_Dependency x = false ->
  forall k, key_match k (PyDependency x) = key_match k x.
Proof.
  intros Hx k. rewrite !key_match_py_eq. apply py_eq_wrapped, Hx.
Qed.

Lemma py_eq_wrapper_left (x : pyobj) :
  isinstance_Dependency x = false -> py_eq (PyDependency x) x = true.
Proof.
  intros Hx. simpl. rewrite py_eq_refl. reflexivity.
Qed.

Lemma py_eq_wrapper_right (x : pyobj) :
  isinstance_Dependency x = false -> py_eq x (PyDependency x) = true.
Proof.
  intros Hx. rewrite py_eq_wrapped by exact Hx. apply py_eq_refl.
Qed.

Lemma dict_get_wrapped {V} (x : pyobj) (d : pydict V) :
  isinstance_Dependency x = false ->
  dict_get d (PyDependency x) = dict_get d x.
Proof.
  intros Hx. induction d as [| [k v] d IH]; simpl; [reflexivity |].
  rewrite key_match_wrapped by exact Hx. rewrite IH. reflexivity.
Qed.

(** Reading back with any key that the stored keys cannot tell from the
    key written. *)
Lemma dict_get_set_alike {V} (d : pydict V) (k k' : pyobj) (v : V) :
  (forall s, key_match s k' = key_match s k) ->
  key_match k k' = true ->
  dict_get (dict_set d k v) k' = Some v.
Proof.
  intros Hall Hkk. induction d as [| [s v'] d IH]; simpl.
  - rewrite Hkk. reflexivity.
  - destruct (key_match s k) eqn:E; simpl.
    + rewrite Hall, E. reflexivity.
    + rewrite Hall, E. exact IH.
Qed.

Lemma dict_get_set_same {V} (d : pydict V) (k : pyobj) (v : V) :
  dict_get (dict_set d k v) k = Some v.
Proof.
  apply dict_get_set_alike; [reflexivity | apply key_match_refl].
Qed.

Lemma dict_set_wrapped_read {V} (d : pydict V) (x : pyobj) (v : V) :
  isinstance_Dependency x = false ->
  dict_get (dict_set d x v) (PyDependency x) = Some v
  /\ dict_get (dict_set d (PyDependency x) v) x = Some v.
Proof.
  intros Hx. split.
  - apply dict_get_set_alike.
    + intros s. apply key_match_wrapped, Hx.
    + rewrite key_match_py_eq. apply py_eq_wrapper_right, Hx.
  - apply dict_get_set_alike.
    + intros s. symmetry. apply key_match_wrapped, Hx.
    + rewrite key_match_py_eq. apply py_eq_wrapper_left, Hx.
Qed.

Lemma unwrap_bare (o : pyobj) : isinstance_Dependency (unwrap o) = false.
Proof. induction o; simpl; auto. Qed.

Lemma builtin_eq_decide (a b : pyobj) :
  isinstance_Dependency a = false ->
  builtin_eq a b = bool_decide (a = b).
Proof.
  intros Ha. destruct (builtin_eq a b) eqn:E; symmetry.
  - apply bool_decide_eq_true, builtin_eq_true, E.
  - apply bool_decide_eq_false. intros ->.
    rewrite (builtin_eq_refl _ Ha) in E. discriminate.
Qed.

Lemma eq_unwrapped_decide (d a : pyobj) :
  isinstance_Dependency a = false ->
  eq_unwrapped d a = bool_decide (unwrap d = a).
Proof.
  intros Ha. induction d as [| s | n | x | i IH]; [.. | exact IH].
  all: match goal with
       | |- eq_unwrapped ?d ?b = _ =>
           change (builtin_eq d b = bool_decide (d = b))
       end; apply builtin_eq_decide; reflexivity.
Qed.

(** [==] compares what the two sides stand for. *)
Lemma py_eq_unwrap (a : pyobj) :
  forall b, py_eq a b = bool_decide (unwrap a = unwrap b).
Proof.
  induction a as [| s | n | x | i IH]; intros b.
  1-4: destruct b as [| t | m | y | j];
    match goal with
    | |- py_eq ?a (PyDependency ?j) = _ =>
        change (py_eq a (PyDependency j)) with (eq_unwrapped j a);
        rewrite eq_unwrapped_decide by reflexivity;
        apply bool_decide_ext; simpl; split; congruence
    | |- py_eq ?a ?b = _ =>
        change (py_eq a b) with (builtin_eq a b);
        apply builtin_eq_decide; reflexivity
    end.
  simpl. rewrite IH. destruct b as [| t | m | y | j]; simpl;
    rewrite ?orb_false_r; try reflexivity.
  rewrite IH. apply orb_diag.
Qed.

Lemma key_match_unwrap (k k' : pyobj) :
  key_match k k' = bool_decide (unwrap k = unwrap k').
Proof. rewrite key_match_py_eq. apply py_eq_unwrap. Qed.

Lemma key_match_sym (k k' : pyobj) : key_match k k' = key_match k' k.
Proof.
  rewrite !key_match_unwrap. apply bool_decide_ext; split; congruence.
Qed.

Lemma dict_get_set_other {V} (d : pydict V) (k k' : pyobj) (v : V) :
  key_match k k' = false ->
  dict_get (dict_set d k v) k' = dict_get d k'.
Proof.
  intros Hkk. induction d as [| [s v'] d IH]; simpl.
  - rewrite Hkk. reflexivity.
  - destruct (key_match s k) eqn:E; simpl.
    + replace (key_match s k') with false; [reflexivity |].
      rewrite key_match_unwrap in *.
      apply bool_decide_eq_true in E. apply bool_decide_eq_false in Hkk.
      symmetry. apply bool_decide_eq_false. congruence.
    + rewrite IH. reflexivity.
Qed.

Lemma py_in_app (k : pyobj) (xs ys : list pyobj) :
  py_in k (xs ++ ys) = py_in k xs || py_in k ys.
Proof. unfold py_in. apply existsb_app. Qed.

(** Two keys one of which is found in a list where the other is not do
    not match. *)
Lemma py_in_separates (k k' : pyobj) (xs : list pyobj) :
  py_in k xs = true -> py_in k' xs = false -> key_match k' k = false.
Proof.
  unfold py_in. intros Hin Hout.
  apply existsb_exists in Hin as (s & Hs & Hm).
  destruct (key_match k' k) eqn:E; [| reflexivity].
  assert (existsb (fun x => key_match x k') xs = true) as Hc; [| congruence].
  apply existsb_exists. exists s. split; [exact Hs |].
  rewrite key_match_unwrap in *.
  apply bool_decide_eq_true in Hm, E. apply bool_decide_eq_true. congruence.
Qed.
End KeyFacts.

(** * The container *)

Module BaseFacts.
Import Base.

Section Resolution.
Context `{Hashing} {PS : Type}.
Implicit Types (w : world (PS:=PS)) (d k : pyobj) (get : pyobj -> M (PS:=PS) pyobj).
Implicit Types (p : provider (PS:=PS)) (providers : list (provider (PS:=PS))).

Lemma release_acquire w : release (acquire w) = w.
Proof. destruct w; reflexivity. Qed.

Lemma pop_push d w : pop (push d w) = w.
Proof.
  destruct w as [c l s ps]. unfold pop, push; simpl.
  rewrite removelast_last. reflexivity.
Qed.

Lemma leave_enter d w : release (pop (push d (acquire w))) = w.
Proof. destruct w as [c l s ps]. unfold pop, push, release, acquire; simpl.
  rewrite removelast_last. reflexivity.
Qed.

(** Line 57: a cached value is returned at once. *)
Lemma getitem_hit fuel providers d w v :
  dict_get (singletons w) d = Some v ->
  __getitem__ (S fuel) providers d w = (Ok v, w).
Proof. intros Hhit. simpl. unfold getitem_body. rewrite Hhit. reflexivity. Qed.


(** The [with] block on a miss: the providers are consulted with the id
    on the stack. *)
Lemma locked_lookup_miss get providers d w :
  dict_get (singletons w) d = None ->
  py_in d (instantiation_stack w) = false ->
  locked_lookup get providers d w =
  let '(r, w') := consult get providers d (push d (acquire w)) in
  (r, release (pop w')).
Proof.
  intros Hmiss Hout. unfold locked_lookup, with_lock, instantiating.
  cbn [instantiation_stack acquire]. rewrite Hout.
  cbn [singletons push acquire]. rewrite Hmiss.
  destruct (consult get providers d (push d (acquire w))) as [r w']. reflexivity.
Qed.

(** The [with] block entered for an id that is being resolved. *)
Lemma locked_lookup_cycle get providers d w :
  py_in d (instantiation_stack w) = true ->
  locked_lookup get providers d w =
  (Err (DependencyCycleError (instantiation_stack w ++ [d])), w).
Proof.
  intros Hin. unfold locked_lookup, with_lock, instantiating.
  cbn [instantiation_stack acquire]. rewrite Hin.
  rewrite release_acquire. reflexivity.
Qed.

Lemma getitem_miss fuel providers d w :
  dict_get (singletons w) d = None ->
  py_in d (instantiation_stack w) = false ->
  __getitem__ (S fuel) providers d w =
  let '(r, w') := consult (__getitem__ fuel providers) providers d (push d (acquire w)) in
  match except_clauses d r with
  | Ok (Some item) => (Ok item, release (pop w'))
  | Ok None => (Err (DependencyNotFoundError d), release (pop w'))
  | Err e => (Err e, release (pop w'))
  | OutOfFuel => (OutOfFuel, release (pop w'))
  end.
Proof.
  intros Hmiss Hout. cbn [__getitem__]. unfold getitem_body. rewrite Hmiss.
  rewrite (locked_lookup_miss _ _ _ _ Hmiss Hout).
  destruct (consult _ providers d (push d (acquire w))) as [r w']. reflexivity.
Qed.

(** Providers that decline are passed over. *)
Lemma consult_declined get before rest d w w1 :
  declined get before d w = Some w1 ->
  consult get (before ++ rest) d w = consult get rest d w1.
Proof.
  revert w. induction before as [| q before IH]; intros w Hd; simpl in *.
  - injection Hd as ->. reflexivity.
  - destruct (run get (q (as_Dependency d)) w) as [[r | e |] w'];
      try discriminate.
    destruct e; try discriminate. apply IH, Hd.
Qed.

(** ** What a lookup leaves in place *)

Lemma preserved_refl w : preserved w w.
Proof. repeat split; auto. Qed.

Lemma preserved_trans w1 w2 w3 : preserved w1 w2 -> preserved w2 w3 -> preserved w1 w3.
Proof.
  intros (Hs1 & Hl1 & Hm1) (Hs2 & Hl2 & Hm2). repeat split; try congruence.
  intros k Hin Hmiss. apply Hm2; [rewrite Hs1; exact Hin |]. apply Hm1; assumption.
Qed.

Lemma run_preserved get :
  (forall d w, preserved w (snd (get d w))) ->
  forall (q : prog (PS:=PS)) w, preserved w (snd (run get q w)).
Proof.
  intros Hget q. induction q as [r | e | d k IH | f k IH]; intros w; simpl.
  - apply preserved_refl.
  - apply preserved_refl.
  - specialize (Hget d w). destruct (get d w) as [[v | e |] w']; simpl in Hget.
    + eapply preserved_trans; [exact Hget | apply IH].
    + eapply preserved_trans; [exact Hget | apply IH].
    + exact Hget.
  - destruct (f (providers_state w)) as [v s].
    eapply preserved_trans; [| apply IH]. repeat split; auto.
Qed.


(** The loop over the providers stores under the requested id only. *)
Lemma consult_preserved get :
  (forall d w, preserved w (snd (get d w))) ->
  forall providers d w,
    let w' := snd (consult get providers d w) in
    instantiation_stack w' = instantiation_stack w
    /\ instantiation_lock w' = instantiation_lock w
    /\ forall k, py_in k (instantiation_stack w) = true ->
         key_match d k = false ->
         dict_get (singletons w) k = None -> dict_get (singletons w') k = None.
Proof.
  intros Hget providers d. induction providers as [| q providers IH]; intros w; simpl.
  - repeat split; auto.
  - pose proof (run_preserved get Hget (q (as_Dependency d)) w) as Hrun.
    destruct (run get (q (as_Dependency d)) w) as [[r | e |] w1]; simpl in Hrun.
    + destruct Hrun as (Hs & Hl & Hm).
      destruct r as [item [|] |]; simpl; repeat split; auto.
      intros k Hin Hne Hmiss. rewrite dict_get_set_other by exact Hne. auto.
    + destruct Hrun as (Hs & Hl & Hm).
      destruct e; simpl; try (repeat split; auto; fail).
      destruct (IH w1) as (Hs' & Hl' & Hm'). repeat split; try congruence.
      intros k Hin Hne Hmiss. apply Hm'; [rewrite Hs; exact Hin | exact Hne |].
      apply Hm; assumption.
    + destruct Hrun as (Hs & Hl & Hm). simpl. repeat split; auto.
Qed.

Lemma getitem_preserved fuel providers :
  forall d w, preserved w (snd (__getitem__ fuel providers d w)).
Proof.
  induction fuel as [| fuel IH]; intros d w.
  - apply preserved_refl.
  - destruct (dict_get (singletons w) d) as [v |] eqn:Hc.
    { rewrite (getitem_hit _ _ _ _ _ Hc). apply preserved_refl. }
    cbn [__getitem__]. unfold getitem_body. rewrite Hc.
    destruct (py_in d (instantiation_stack w)) eqn:Hin.
    { rewrite (locked_lookup_cycle _ _ _ _ Hin). simpl. apply preserved_refl. }
    rewrite (locked_lookup_miss _ _ _ _ Hc Hin).
    pose proof (consult_preserved _ IH providers d (push d (acquire w))) as Hcons.
    destruct (consult (__getitem__ fuel providers) providers d (push d (acquire w)))
      as [r w'].
    simpl in Hcons. destruct Hcons as (Hs & Hl & Hm).
    assert (preserved w (release (pop w'))) as Hp.
    { repeat split.
      - cbn [instantiation_stack release pop]. rewrite Hs. apply removelast_last.
      - cbn [instantiation_lock release pop]. rewrite Hl. reflexivity.
      - intros k Hk Hmiss. cbn [singletons release pop]. apply Hm.
        + rewrite py_in_app, Hk. reflexivity.
        + eapply py_in_separates; eassumption.
        + exact Hmiss. }
    destruct (except_clauses d r) as [[item |] | e |]; exact Hp.
Qed.

(** ** More fuel does not change a lookup that comes to an end *)

Lemma run_extends get get' :
  extends get get' ->
  forall (q : prog (PS:=PS)) w r w',
    run get q w = (r, w') -> r <> OutOfFuel -> run get' q w = (r, w').
Proof.
  intros Hext q. induction q as [a | e | d k IH | f k IH]; intros w r w' Hrun Hr;
    simpl in *; try exact Hrun.
  - destruct (get d w) as [[v | e |] w1] eqn:Hget.
    + rewrite (Hext _ _ _ _ Hget) by discriminate. eapply IH; eassumption.
    + rewrite (Hext _ _ _ _ Hget) by discriminate. eapply IH; eassumption.
    + injection Hrun as <- <-. congruence.
  - destruct (f (providers_state w)) as [v s]. eapply IH; eassumption.
Qed.

Lemma consult_extends get get' :
  extends get get' ->
  forall providers d w r w',
    consult get providers d w = (r, w') -> r <> OutOfFuel ->
    consult get' providers d w = (r, w').
Proof.
  intros Hext providers d.
  induction providers as [| q providers IH]; intros w r w' Hc Hr; simpl in *;
    [exact Hc |].
  destruct (run get (q (as_Dependency d)) w) as [[a | e |] w1] eqn:Hrun.
  - rewrite (run_extends _ _ Hext _ _ _ _ Hrun) by discriminate. exact Hc.
  - rewrite (run_extends _ _ Hext _ _ _ _ Hrun) by discriminate.
    destruct e; try exact Hc. eapply IH; eassumption.
  - injection Hc as <- <-. congruence.
Qed.

Lemma getitem_body_extends get get' providers :
  extends get get' ->
  extends (getitem_body get providers) (getitem_body get' providers).
Proof.
  intros Hext d w r w' Hget Hr. unfold getitem_body in *.
  destruct (dict_get (singletons w) d) as [v |] eqn:Hc; [exact Hget |].
  destruct (py_in d (instantiation_stack w)) eqn:Hin.
  { rewrite (locked_lookup_cycle get _ _ _ Hin) in Hget.
    rewrite (locked_lookup_cycle get' _ _ _ Hin). exact Hget. }
  rewrite (locked_lookup_miss get _ _ _ Hc Hin) in Hget.
  rewrite (locked_lookup_miss get' _ _ _ Hc Hin).
  destruct (consult get providers d (push d (acquire w))) as [r0 w0] eqn:Hcons.
  assert (r0 <> OutOfFuel) as Hr0.
  { intros ->. simpl in Hget. injection Hget as <- <-. congruence. }
  rewrite (consult_extends _ _ Hext _ _ _ _ _ Hcons Hr0). exact Hget.
Qed.

Lemma getitem_extends providers :
  forall fuel fuel', fuel <= fuel' ->
    extends (__getitem__ fuel providers) (__getitem__ fuel' providers).
Proof.
  induction fuel as [| fuel IH]; intros fuel' Hle.
  - intros d w r w' Hget Hr. simpl in Hget. injection Hget as <- <-. congruence.
  - destruct fuel' as [| fuel']; [lia |]. cbn [__getitem__].
    apply getitem_body_extends, IH. lia.
Qed.

(** ** Resolution through the providers *)

Lemma in_own_stack d w : py_in d (instantiation_stack (push d (acquire w))) = true.
Proof.
  cbn [instantiation_stack push acquire]. rewrite py_in_app. simpl.
  rewrite key_match_refl. rewrite orb_true_r. reflexivity.
Qed.


(** The first provider that does not decline raises. *)
Lemma getitem_raised fuel before p after d w w1 w2 e :
  let providers := before ++ p :: after in
  dict_get (singletons w) d = None ->
  py_in d (instantiation_stack w) = false ->
  declined (__getitem__ fuel providers) before d (push d (acquire w)) = Some w1 ->
  run (__getitem__ fuel providers) (p (as_Dependency d)) w1 = (Err e, w2) ->
  (forall d', e <> DependencyNotProvidableError d') ->
  __getitem__ (S fuel) providers d w
    = match except_clauses (A:=option pyobj) d (Err e) with
      | Err e' => (Err e', release (pop w2))
      | _ => (OutOfFuel, release (pop w2))
      end.
Proof.
  intros providers Hmiss Hout Hdecl Hrun Hne.
  rewrite (getitem_miss _ _ _ _ Hmiss Hout). subst providers.
  rewrite (consult_declined _ _ _ _ _ _ Hdecl). cbn [consult]. rewrite Hrun.
  destruct e; try reflexivity. exfalso. eapply Hne. reflexivity.
Qed.

(** With more fuel a lookup that came to an end ends the same way. *)
Lemma getitem_enough fuel fuel' providers d w r w' :
  __getitem__ fuel providers d w = (r, w') ->
  r <> OutOfFuel ->
  fuel <= fuel' ->
  __getitem__ fuel' providers d w = (r, w').
Proof. intros Hget Hr Hle. exact (getitem_extends providers fuel fuel' Hle d w r w' Hget Hr). Qed.


(** C4.  An id that is not in the cache, that is not being resolved, and
    that every registered provider declines, is not found: the lookup
    raises [DependencyNotFoundError] carrying the id. *)
Theorem getitem_not_found fuel providers d w w' :
  dict_get (singletons w) d = None ->
  py_in d (instantiation_stack w) = false ->
  declined (__getitem__ fuel providers) providers d (push d (acquire w)) = Some w' ->
  forall fuel', fuel <= fuel' ->
    __getitem__ (S fuel') providers d w
      = (Err (DependencyNotFoundError d), release (pop w')).
Proof.
  intros Hmiss Hout Hdecl fuel' Hle.
  apply (getitem_enough (S fuel)); [| discriminate | lia].
  rewrite (getitem_miss _ _ _ _ Hmiss Hout).
  rewrite <- (app_nil_r providers) at 2.
  rewrite (consult_declined _ _ [] _ _ _ Hdecl). reflexivity.
Qed.

(** C5, amended.  When a provider raises, the providers before it having
    declined, what the lookup does is told by the exception.  An
    exception derived from [Exception], other than
    [DependencyCycleError] and [DependencyNotProvidableError], is raised
    again as [DependencyInstantiationError] carrying the requested id,
    the exception being its cause.  A [DependencyCycleError] leaves the
    lookup as it is.  [DependencyNotProvidableError] is how a provider
    declines: it is swallowed and the loop goes on with the providers
    that follow, the lookup raising [DependencyNotFoundError] when there
    is none.  An exception that derives from [BaseException] only leaves
    the lookup as it is. *)
Theorem getitem_wraps_provider_exception fuel before p after d w w1 w2 e :
  let providers := before ++ p :: after in
  let get := __getitem__ fuel providers in
  dict_get (singletons w) d = None ->
  py_in d (instantiation_stack w) = false ->
  declined get before d (push d (acquire w)) = Some w1 ->
  run get (p (as_Dependency d)) w1 = (Err e, w2) ->
  (is_Exception e = true ->
   (forall d', e <> DependencyNotProvidableError d') ->
   (forall path, e <> DependencyCycleError path) ->
   forall fuel', fuel <= fuel' ->
     __getitem__ (S fuel') providers d w
       = (Err (DependencyInstantiationError d e), release (pop w2)))
  /\ (forall path, e = DependencyCycleError path ->
        forall fuel', fuel <= fuel' ->
          __getitem__ (S fuel') providers d w
            = (Err (DependencyCycleError path), release (pop w2)))
  /\ (forall d', e = DependencyNotProvidableError d' ->
        consult get providers d (push d (acquire w)) = consult get after d w2
        /\ (after = [] ->
            forall fuel', fuel <= fuel' ->
              __getitem__ (S fuel') providers d w
                = (Err (DependencyNotFoundError d), release (pop w2))))
  /\ (is_Exception e = false ->
      forall fuel', fuel <= fuel' ->
        __getitem__ (S fuel') providers d w = (Err e, release (pop w2))).
Proof.
  intros providers get Hmiss Hout Hdecl Hrun.
  assert ((forall d', e <> DependencyNotProvidableError d') ->
          __getitem__ (S fuel) providers d w
          = match except_clauses (A:=option pyobj) d (Err e) with
            | Err e' => (Err e', release (pop w2))
            | _ => (OutOfFuel, release (pop w2))
            end) as Hget.
  { intros Hne.
    exact (getitem_raised _ _ _ after _ _ _ _ _ Hmiss Hout Hdecl Hrun Hne). }
  split; [| split; [| split]].
  - intros Hexc Hne Hnc fuel' Hle.
    apply (getitem_enough (S fuel)); [| discriminate | lia].
    rewrite (Hget Hne). destruct e; simpl in *; try reflexivity; try discriminate.
    exfalso. eapply Hnc. reflexivity.
  - intros path -> fuel' Hle. apply (getitem_enough (S fuel)); [| discriminate | lia].
    rewrite Hget by (intros; discriminate). reflexivity.
  - intros d' ->.
    assert (consult get providers d (push d (acquire w)) = consult get after d w2) as Hgo.
    { unfold providers. rewrite (consult_declined _ _ _ _ _ _ Hdecl). cbn [consult].
      fold providers. fold get. rewrite Hrun. reflexivity. }
    split; [exact Hgo |]. intros Hnone fuel' Hle.
    apply (getitem_enough (S fuel)); [| discriminate | lia].
    rewrite (getitem_miss _ _ _ _ Hmiss Hout). fold get. rewrite Hgo, Hnone.
    reflexivity.
  - intros Hbase fuel' Hle. apply (getitem_enough (S fuel)); [| discriminate | lia].
    rewrite Hget by (intros d' ->; discriminate).
    destruct e; simpl in *; try discriminate. reflexivity.
Qed.

(** C3, amended.  A provider tells the container that a dependency is
    outside its domain by raising [DependencyNotProvidableError]: the
    container then goes on with the providers that follow.  A [None]
    handed to the container is not taken for a decline: the lookup ends
    with [DependencyInstantiationError].  No other exception raised by a
    provider is swallowed: the lookup raises it, or the
    [DependencyInstantiationError] that wraps it.  [TagProvider.provide]
    itself answers [None], without raising, to a request that is not a
    [Tagged]. *)
Theorem decline_is_signalled_by_exception fuel before p after d w w1 :
  let providers := before ++ p :: after in
  let get := __getitem__ fuel providers in
  dict_get (singletons w) d = None ->
  py_in d (instantiation_stack w) = false ->
  declined get before d (push d (acquire w)) = Some w1 ->
  (forall d' w2,
     run get (p (as_Dependency d)) w1 = (Err (DependencyNotProvidableError d'), w2) ->
     consult get providers d (push d (acquire w)) = consult get after d w2)
  /\ (forall w2,
        run get (p (as_Dependency d)) w1 = (Ok NoneReturned, w2) ->
        forall fuel', fuel <= fuel' ->
          __getitem__ (S fuel') providers d w
            = (Err (DependencyInstantiationError d (AttributeError "singleton")),
               release (pop w2)))
  /\ (forall e w2,
        run get (p (as_Dependency d)) w1 = (Err e, w2) ->
        (forall d', e <> DependencyNotProvidableError d') ->
        exists e',
          (e' = e \/ e' = DependencyInstantiationError d e)
          /\ forall fuel', fuel <= fuel' ->
               __getitem__ (S fuel') providers d w = (Err e', release (pop w2)))
  /\ (forall o s, TagProv.provide (TagProv.Other o) s = (None, s)).
Proof.
  intros providers get Hmiss Hout Hdecl. repeat split.
  - intros d' w2 Hrun. subst providers.
    rewrite (consult_declined _ _ _ _ _ _ Hdecl). cbn [consult].
    fold get. rewrite Hrun. reflexivity.
  - intros w2 Hrun fuel' Hle.
    apply (getitem_enough (S fuel)); [| discriminate | lia].
    rewrite (getitem_miss _ _ _ _ Hmiss Hout). subst providers.
    rewrite (consult_declined _ _ _ _ _ _ Hdecl). cbn [consult].
    fold get. rewrite Hrun. reflexivity.
  - intros e w2 Hrun Hne.
    pose proof (getitem_raised _ _ _ after _ _ _ _ _ Hmiss Hout Hdecl Hrun Hne) as Hget.
    fold providers in Hget.
    assert (exists e', (e' = e \/ e' = DependencyInstantiationError d e)
                       /\ __getitem__ (S fuel) providers d w = (Err e', release (pop w2)))
      as (e' & He' & Hres).
    { rewrite Hget. destruct e; simpl; eauto. }
    exists e'. split; [exact He' |]. intros fuel' Hle.
    apply (getitem_enough (S fuel)); [exact Hres | discriminate | lia].
Qed.

(** C6.  A [Dependency] built on an id equals the id, whichever side it
    stands on, and has its hash; in a dict the two find the same entries,
    and what the cache holds under one is returned by the lookup of the
    other. *)
Theorem dependency_interchangeable_with_id (x dx : pyobj) :
  Dependency x = Ok dx ->
  py_eq dx x = true
  /\ py_eq x dx = true
  /\ py_hash dx = py_hash x
  /\ (forall V (c : pydict V), dict_get c dx = dict_get c x)
  /\ (forall V (c : pydict V) (v : V),
        dict_get (dict_set c x v) dx = Some v
        /\ dict_get (dict_set c dx v) x = Some v)
  /\ (forall fuel providers w (v : pyobj),
        __getitem__ (S fuel) providers dx (__setitem__ x v w)
          = (Ok v, __setitem__ x v w)
        /\ __getitem__ (S fuel) providers x (__setitem__ dx v w)
          = (Ok v, __setitem__ dx v w)).
Proof.
  unfold Dependency. destruct (isinstance_Dependency x) eqn:Hx; [discriminate |].
  intros [= <-].
  split; [apply py_eq_wrapper_left, Hx |].
  split; [apply py_eq_wrapper_right, Hx |].
  split; [reflexivity |].
  split; [intros V c; apply dict_get_wrapped, Hx |].
  split; [intros V c v; apply dict_set_wrapped_read, Hx |].
  intros fuel providers w v.
  destruct (dict_set_wrapped_read (singletons w) x v Hx) as [Hl Hr].
  split; apply getitem_hit; assumption.
Qed.

(** ** Cycles *)

Lemma unwrap_as_Dependency d : unwrap (as_Dependency d) = unwrap d.
Proof. unfold as_Dependency. destruct d; reflexivity. Qed.

Lemma key_match_as_Dependency a d : key_match a (as_Dependency d) = key_match a d.
Proof. rewrite !key_match_unwrap, unwrap_as_Dependency. reflexivity. Qed.

Lemma distinct_not_before (front : list pyobj) d back :
  Inputs.distinct (front ++ d :: back) = true -> py_in d front = false.
Proof.
  induction front as [| a front IH]; simpl; [reflexivity |].
  intros Hd. apply andb_true_iff in Hd as [Ha Hd].
  apply negb_true_iff in Ha. rewrite py_in_app in Ha.
  apply orb_false_iff in Ha as [_ Ha]. simpl in Ha.
  apply orb_false_iff in Ha as [Ha _].
  rewrite key_match_sym, Ha. simpl. apply IH, Hd.
Qed.

Lemma successor_at first (front : list pyobj) d back :
  py_in d front = false ->
  Inputs.successor first (front ++ d :: back) (as_Dependency d) = Some (hd first back).
Proof.
  induction front as [| a front IH]; simpl.
  - intros _. rewrite key_match_as_Dependency, key_match_refl. reflexivity.
  - intros Hout. apply orb_false_iff in Hout as [Ha Hout].
    rewrite key_match_as_Dependency, Ha. apply IH, Hout.
Qed.

Lemma head_in_list (x : pyobj) (l : list pyobj) :
  l <> [] -> py_in (hd x l) l = true.
Proof.
  destruct l as [| a l]; [congruence |]. intros _. simpl.
  rewrite key_match_refl. reflexivity.
Qed.

Lemma all_missing_at {V} (c : pydict V) (front : list pyobj) d back :
  Inputs.all_missing c (front ++ d :: back) = true ->
  dict_get c d = None /\ dict_get c (hd d back) = None.
Proof.
  unfold Inputs.all_missing. rewrite forallb_app. simpl. intros Hall.
  apply andb_true_iff in Hall as [_ Hall].
  apply andb_true_iff in Hall as [Hd Hback].
  assert (dict_get c d = None) as Hmiss.
  { unfold dict_contains in Hd. destruct (dict_get c d); [discriminate | reflexivity]. }
  split; [exact Hmiss |].
  destruct back as [| b back]; simpl; [exact Hmiss |].
  simpl in Hback. apply andb_true_iff in Hback as [Hb _].
  unfold dict_contains in Hb. destruct (dict_get c b); [discriminate | reflexivity].
Qed.

Lemma cyclic_at (l front : list pyobj) d back :
  l = front ++ d :: back ->
  py_in d front = false ->
  Inputs.cyclic (PS:=PS) l (as_Dependency d)
    = Resolve (hd (hd PyNone l) back) Inputs.forward.
Proof.
  intros -> Hout. unfold Inputs.cyclic.
  rewrite (successor_at _ _ _ _ Hout). reflexivity.
Qed.

Lemma all_missing_head {V} (c : pydict V) (l : list pyobj) :
  Inputs.all_missing c l = true -> l <> [] -> dict_get c (hd PyNone l) = None.
Proof.
  destruct l as [| a l]; [congruence |]. intros Hall _.
  unfold Inputs.all_missing in Hall. simpl in Hall.
  apply andb_true_iff in Hall as [Ha _]. unfold dict_contains in Ha. simpl.
  destruct (dict_get c a); [discriminate | reflexivity].
Qed.

(** Inside a cycle of requirements: with the ids before [d] on the stack,
    the lookup of [d] runs into the first id again. *)
Lemma cyclic_reenters (back : list pyobj) :
  forall (front l : list pyobj) d w,
    l = front ++ d :: back ->
    Inputs.distinct l = true ->
    Inputs.all_missing (singletons w) l = true ->
    instantiation_stack w = front ->
    __getitem__ (S (S (length back))) [Inputs.cyclic l] d w
      = (Err (DependencyCycleError (l ++ [hd PyNone l])), w).
Proof.
  induction back as [| d' back IH]; intros front l d w Hl Hdist Hall Hstack.
  - assert (py_in d front = false) as Hout.
    { apply (distinct_not_before front d []). rewrite <- Hl. exact Hdist. }
    assert (dict_get (singletons w) d = None) as Hmiss.
    { apply (all_missing_at _ front d []). rewrite <- Hl. exact Hall. }
    assert (py_in d (instantiation_stack w) = false) as Hout' by (rewrite Hstack; exact Hout).
    rewrite (getitem_miss _ _ _ _ Hmiss Hout'). cbn [consult].
    rewrite (cyclic_at l front d [] Hl Hout). cbn [hd run].
    assert (py_in (hd PyNone l) (instantiation_stack (push d (acquire w))) = true)
      as Hin.
    { cbn [instantiation_stack push acquire]. rewrite Hstack, <- Hl.
      apply head_in_list. rewrite Hl. destruct front; discriminate. }
    assert (dict_get (singletons (push d (acquire w))) (hd PyNone l) = None) as Hmiss1.
    { cbn [singletons push acquire]. apply all_missing_head; [exact Hall |].
      rewrite Hl. destruct front; discriminate. }
    cbn [__getitem__]. unfold getitem_body at 1. rewrite Hmiss1.
    rewrite (locked_lookup_cycle _ _ _ _ Hin). cbn [except_clauses Inputs.forward run].
    cbn [instantiation_stack push acquire]. rewrite Hstack, <- Hl, leave_enter.
    reflexivity.
  - assert (py_in d front = false) as Hout.
    { apply (distinct_not_before front d (d' :: back)). rewrite <- Hl. exact Hdist. }
    assert (dict_get (singletons w) d = None) as Hmiss.
    { apply (all_missing_at _ front d (d' :: back)). rewrite <- Hl. exact Hall. }
    assert (py_in d (instantiation_stack w) = false) as Hout' by (rewrite Hstack; exact Hout).
    rewrite (getitem_miss _ _ _ _ Hmiss Hout'). cbn [consult].
    rewrite (cyclic_at l front d (d' :: back) Hl Hout). cbn [hd run].
    assert (l = (front ++ [d]) ++ d' :: back) as Hl'.
    { rewrite Hl, <- app_assoc. reflexivity. }
    cbn [length].
    rewrite (IH (front ++ [d]) l d' (push d (acquire w)) Hl' Hdist Hall).
    + cbn [Inputs.forward run except_clauses]. rewrite leave_enter. reflexivity.
    + cbn [instantiation_stack push acquire]. rewrite Hstack. reflexivity.
Qed.

(** C2.  The lookup of an id that is being resolved (and for which no
    value is cached) raises [DependencyCycleError] with the ids on the
    stack followed by the id.  Hence an id that needs itself to be built,
    directly or through any number of other ids, is not built: the lookup
    raises [DependencyCycleError] carrying the whole cycle, and a
    [DependencyCycleError] that reaches a provider's lookup and is not
    caught there leaves the enclosing lookup unwrapped.  When a lookup is
    over the stack is what it was before, so the next lookup of the same id
    is not refused. *)
Theorem cycle_detection fuel providers d w :
  (py_in d (instantiation_stack w) = true ->
   dict_get (singletons w) d = None ->
   __getitem__ (S fuel) providers d w
     = (Err (DependencyCycleError (instantiation_stack w ++ [d])), w))
  /\ (forall rest,
        Inputs.distinct (d :: rest) = true ->
        Inputs.all_missing (singletons w) (d :: rest) = true ->
        instantiation_stack w = [] ->
        forall fuel', S (S (length rest)) <= fuel' ->
          __getitem__ fuel' [Inputs.cyclic (d :: rest)] d w
            = (Err (DependencyCycleError (d :: rest ++ [d])), w))
  /\ (forall before p after w1 w2 path,
        providers = before ++ p :: after ->
        dict_get (singletons w) d = None ->
        py_in d (instantiation_stack w) = false ->
        declined (__getitem__ fuel providers) before d (push d (acquire w)) = Some w1 ->
        run (__getitem__ fuel providers) (p (as_Dependency d)) w1
          = (Err (DependencyCycleError path), w2) ->
        forall fuel', fuel <= fuel' ->
          __getitem__ (S fuel') providers d w
            = (Err (DependencyCycleError path), release (pop w2)))
  /\ (forall r w',
        __getitem__ fuel providers d w = (r, w') ->
        instantiation_stack w' = instantiation_stack w
        /\ (py_in d (instantiation_stack w) = false ->
            forall A (body : M A),
              instantiating d body w'
                = let '(r', w'') := body (push d w') in (r', pop w''))).
Proof.
  split; [| split; [| split]].
  - intros Hin Hmiss. cbn [__getitem__]. unfold getitem_body. rewrite Hmiss.
    rewrite (locked_lookup_cycle _ _ _ _ Hin). reflexivity.
  - intros rest Hdist Hall Hstack fuel' Hle.
    apply (getitem_enough (S (S (length rest)))); [| discriminate | exact Hle].
    apply (cyclic_reenters rest [] (d :: rest) d w eq_refl Hdist Hall Hstack).
  - intros before p after w1 w2 path -> Hmiss Hout Hdecl Hrun fuel' Hle.
    apply (getitem_enough (S fuel)); [| discriminate | lia].
    rewrite (getitem_raised _ _ _ after _ _ _ _ _ Hmiss Hout Hdecl Hrun)
      by (intros d'; discriminate).
    reflexivity.
  - intros r w' Hget.
    pose proof (getitem_preserved fuel providers d w) as (Hs & _ & _).
    rewrite Hget in Hs. simpl in Hs. split; [exact Hs |].
    intros Hout A body. unfold instantiating. rewrite Hs, Hout. reflexivity.
Qed.
End Resolution.
End BaseFacts.

(** ** The container on concrete providers *)

Module BaseExamples.
Import Base Inputs.
#[local] Existing Instance sample_hashing.


(** Two lookups in a row: the same object for a singleton, a new object
    each time otherwise. *)
Example singleton_built_once :
  let '(r1, w1) := __getitem__ 1 [factory true] (PyStr "a") empty_world in
  let '(r2, w2) := __getitem__ 1 [factory true] (PyStr "a") w1 in
  (r1, r2, providers_state w2) = (Ok (PyObject 0), Ok (PyObject 0), 1).
Proof. reflexivity. Qed.

Example non_singleton_rebuilt :
  let '(r1, w1) := __getitem__ 1 [factory false] (PyStr "a") empty_world in
  let '(r2, w2) := __getitem__ 1 [factory false] (PyStr "a") w1 in
  (r1, r2, providers_state w2) = (Ok (PyObject 0), Ok (PyObject 1), 2).
Proof. reflexivity. Qed.

(** The cycle x -> y -> x, an id that is on the stack, and two lookups in
    a row. *)
Lemma cycle_detection_witness :
  __getitem__ 1 [factory true] (PyStr "x") (mkWorld [] 2 [PyStr "x"; PyStr "y"] 0)
    = (Err (DependencyCycleError [PyStr "x"; PyStr "y"; PyStr "x"]),
       mkWorld [] 2 [PyStr "x"; PyStr "y"] 0)
  /\ __getitem__ 3 [cyclic [PyStr "x"; PyStr "y"]] (PyStr "x") empty_world
     = (Err (DependencyCycleError [PyStr "x"; PyStr "y"; PyStr "x"]), empty_world)
  /\ instantiation_stack (snd (__getitem__ 1 [factory false] (PyStr "x") empty_world)) = [].
Proof.
  destruct (BaseFacts.cycle_detection 0 [factory true] (PyStr "x")
              (mkWorld [] 2 [PyStr "x"; PyStr "y"] 0)) as (Hre & _ & _ & _).
  destruct (BaseFacts.cycle_detection (PS:=nat) 0 [] (PyStr "x") empty_world)
    as (_ & Hcycle & _ & _).
  destruct (BaseFacts.cycle_detection 1 [factory false] (PyStr "x") empty_world)
    as (_ & _ & _ & Hseq).
  split; [exact (Hre eq_refl eq_refl) |].
  split; [exact (Hcycle [PyStr "y"] eq_refl eq_refl eq_refl 3 (le_n 3)) |].
  exact (proj1 (Hseq _ _ eq_refl)).
Defined.

Example direct_cycle :
  __getitem__ 2 [cyclic [PyStr "x"]] (PyStr "x") empty_world
    = (Err (DependencyCycleError [PyStr "x"; PyStr "x"]), empty_world).
Proof. reflexivity. Qed.

Example twice_in_a_row :
  let '(r1, w1) := __getitem__ 1 [factory false] (PyStr "x") empty_world in
  let '(r2, w2) := __getitem__ 1 [factory false] (PyStr "x") w1 in
  (r1, r2, instantiation_stack w2) = (Ok (PyObject 0), Ok (PyObject 1), []).
Proof. reflexivity. Qed.

(** Declining by a returned value fails: a provider that returns [None]
    ends the lookup although the next provider has an answer, and the
    exception [DependencyNotProvidableError] is swallowed. *)
Lemma none_is_not_a_decline :
  run (__getitem__ 0 [returns_none; constant (PyInt 1)])
      (returns_none (as_Dependency (PyStr "x"))) (push (PyStr "x") (acquire empty_world))
    = (Ok NoneReturned, push (PyStr "x") (acquire empty_world))
  /\ __getitem__ 1 [constant (PyInt 1)] (PyStr "x") empty_world
     = (Ok (PyInt 1), empty_world)
  /\ __getitem__ 1 [returns_none; constant (PyInt 1)] (PyStr "x") empty_world
     = (Err (DependencyInstantiationError (PyStr "x") (AttributeError "singleton")),
        empty_world)
  /\ fst (__getitem__ 1 [returns_none; constant (PyInt 1)] (PyStr "x") empty_world)
     <> fst (__getitem__ 1 [constant (PyInt 1)] (PyStr "x") empty_world)
  /\ run (__getitem__ 0 [decliner; constant (PyInt 1)])
         (decliner (as_Dependency (PyStr "x"))) (push (PyStr "x") (acquire empty_world))
     = (Err (DependencyNotProvidableError (PyDependency (PyStr "x"))),
        push (PyStr "x") (acquire empty_world))
  /\ __getitem__ 1 [decliner; constant (PyInt 1)] (PyStr "x") empty_world
     = (Ok (PyInt 1), empty_world).
Proof. repeat split. discriminate. Qed.

Lemma decline_is_signalled_by_exception_witness :
  consult (__getitem__ 0 [decliner; constant (PyInt 1)]) [decliner; constant (PyInt 1)]
          (PyStr "x") (push (PyStr "x") (acquire empty_world))
    = (Ok (Some (PyInt 1)), push (PyStr "x") (acquire empty_world))
  /\ __getitem__ 1 [returns_none; constant (PyInt 1)] (PyStr "x") empty_world
     = (Err (DependencyInstantiationError (PyStr "x") (AttributeError "singleton")),
        empty_world)
  /\ exists e',
       (e' = RaisedException "KeyError"
        \/ e' = DependencyInstantiationError (PyStr "x") (RaisedException "KeyError"))
       /\ forall fuel', 0 <= fuel' ->
            __getitem__ (S fuel') [raises (RaisedException "KeyError")] (PyStr "x")
              empty_world
            = (Err e', empty_world).
Proof.
  destruct (BaseFacts.decline_is_signalled_by_exception 0 [] decliner [constant (PyInt 1)]
              (PyStr "x") empty_world _ eq_refl eq_refl eq_refl) as (Hnext & _ & _ & _).
  destruct (BaseFacts.decline_is_signalled_by_exception 0 [] returns_none
              [constant (PyInt 1)] (PyStr "x") empty_world _ eq_refl eq_refl eq_refl)
    as (_ & Hnone & _ & _).
  destruct (BaseFacts.decline_is_signalled_by_exception 0 []
              (raises (RaisedException "KeyError")) []
              (PyStr "x") empty_world _ eq_refl eq_refl eq_refl)
    as (_ & _ & Hexn & _).
  split; [exact (Hnext _ _ eq_refl) |].
  split; [exact (Hnone _ eq_refl 0 (le_n 0)) |].
  apply (Hexn (RaisedException "KeyError") _ eq_refl). intros d'. discriminate.
Defined.

(** A container whose providers all decline. *)
Lemma getitem_not_found_witness :
  dict_get (singletons empty_world) (PyStr "zz") = None
  /\ py_in (PyStr "zz") (instantiation_stack empty_world) = false
  /\ declined (__getitem__ 0 [decliner; decliner]) [decliner; decliner] (PyStr "zz")
       (push (PyStr "zz") (acquire empty_world))
     = Some (push (PyStr "zz") (acquire empty_world))
  /\ __getitem__ 1 [decliner; decliner] (PyStr "zz") empty_world
     = (Err (DependencyNotFoundError (PyStr "zz")), empty_world).
Proof.
  split; [reflexivity | split; [reflexivity | split; [reflexivity |]]].
  exact (BaseFacts.getitem_not_found 0 [decliner; decliner] (PyStr "zz") empty_world
           _ eq_refl eq_refl eq_refl 0 (le_n 0)).
Defined.

(** Wrapping every exception fails on the exception by which a provider
    declines, and on an exception that does not derive from [Exception]. *)
Lemma not_every_exception_is_wrapped :
  run (__getitem__ 0 [decliner]) (decliner (as_Dependency (PyStr "x")))
      (push (PyStr "x") (acquire empty_world))
    = (Err (DependencyNotProvidableError (PyDependency (PyStr "x"))),
       push (PyStr "x") (acquire empty_world))
  /\ __getitem__ 1 [decliner] (PyStr "x") empty_world
     = (Err (DependencyNotFoundError (PyStr "x")), empty_world)
  /\ fst (__getitem__ 1 [decliner] (PyStr "x") empty_world)
     <> Err (DependencyInstantiationError (PyStr "x")
               (DependencyNotProvidableError (PyDependency (PyStr "x"))))
  /\ __getitem__ 1 [raises (RaisedBaseException "KeyboardInterrupt")] (PyStr "x")
       empty_world
     = (Err (RaisedBaseException "KeyboardInterrupt"), empty_world).
Proof. repeat split. discriminate. Qed.

(** A provider that raises [KeyError], one that raises a cycle error, one
    that declines and is the last, and one that raises
    [KeyboardInterrupt]. *)
Lemma getitem_wraps_provider_exception_witness :
  __getitem__ 1 [decliner; raises (RaisedException "KeyError")] (PyStr "x") empty_world
    = (Err (DependencyInstantiationError (PyStr "x") (RaisedException "KeyError")),
       empty_world)
  /\ __getitem__ 1 [raises (DependencyCycleError [PyStr "y"; PyStr "y"])] (PyStr "x")
       empty_world
     = (Err (DependencyCycleError [PyStr "y"; PyStr "y"]), empty_world)
  /\ __getitem__ 1 [decliner] (PyStr "x") empty_world
     = (Err (DependencyNotFoundError (PyStr "x")), empty_world)
  /\ __getitem__ 1 [decliner; raises (RaisedBaseException "KeyboardInterrupt")]
       (PyStr "x") empty_world
     = (Err (RaisedBaseException "KeyboardInterrupt"), empty_world).
Proof.
  destruct (BaseFacts.getitem_wraps_provider_exception 0 [decliner]
              (raises (RaisedException "KeyError")) [] (PyStr "x") empty_world
              _ _ (RaisedException "KeyError") eq_refl eq_refl eq_refl eq_refl)
    as (Hwrap & _).
  destruct (BaseFacts.getitem_wraps_provider_exception 0 []
              (raises (DependencyCycleError [PyStr "y"; PyStr "y"])) []
              (PyStr "x") empty_world _ _
              (DependencyCycleError [PyStr "y"; PyStr "y"])
              eq_refl eq_refl eq_refl eq_refl)
    as (_ & Hcycle & _).
  destruct (BaseFacts.getitem_wraps_provider_exception 0 [] decliner []
              (PyStr "x") empty_world _ _
              (DependencyNotProvidableError (PyDependency (PyStr "x")))
              eq_refl eq_refl eq_refl eq_refl)
    as (_ & _ & Hdecline & _).
  destruct (BaseFacts.getitem_wraps_provider_exception 0 [decliner]
              (raises (RaisedBaseException "KeyboardInterrupt")) []
              (PyStr "x") empty_world _ _ (RaisedBaseException "KeyboardInterrupt")
              eq_refl eq_refl eq_refl eq_refl)
    as (_ & _ & _ & Hbase).
  split; [| split; [| split]].
  - refine (Hwrap eq_refl _ _ 0 (le_n 0)); intros; discriminate.
  - exact (Hcycle _ eq_refl 0 (le_n 0)).
  - exact (proj2 (Hdecline _ eq_refl) eq_refl 0 (le_n 0)).
  - exact (Hbase eq_refl 0 (le_n 0)).
Defined.

(** The id ['name'] of the docstring of [Dependency]. *)
Lemma dependency_interchangeable_with_id_witness :
  Dependency (PyStr "name") = Ok (PyDependency (PyStr "name"))
  /\ py_eq (PyDependency (PyStr "name")) (PyStr "name") = true
  /\ py_hash (PyDependency (PyStr "name")) = py_hash (PyStr "name")
  /\ __getitem__ (PS:=nat) 1 [] (PyDependency (PyStr "name"))
       (__setitem__ (PyStr "name") (PyStr "Antidote") empty_world)
     = (Ok (PyStr "Antidote"), __setitem__ (PyStr "name") (PyStr "Antidote") empty_world).
Proof.
  destruct (BaseFacts.dependency_interchangeable_with_id (PS:=nat) (PyStr "name")
              (PyDependency (PyStr "name")) eq_refl)
    as (Hl & _ & Hh & _ & _ & Hc).
  split; [reflexivity |]. split; [exact Hl |]. split; [exact Hh |].
  exact (proj1 (Hc 0 [] empty_world (PyStr "Antidote"))).
Defined.
End BaseExamples.

(** * The proxy container *)

Module ProxyFacts.
Import Proxy.

Section Missing.
Context `{Hashing} {C : Type}.
Variable super_getitem : pyobj -> C -> outcome pyobj * C.

Lemma py_in_true (k : pyobj) (xs : list pyobj) :
  py_in k xs = true <-> exists s, In s xs /\ unwrap s = unwrap k.
Proof.
  unfold py_in. rewrite existsb_exists. split; intros (s & Hs & Hm); exists s.
  - rewrite key_match_unwrap in Hm. apply bool_decide_eq_true in Hm. auto.
  - rewrite key_match_unwrap. split; [exact Hs | apply bool_decide_eq_true, Hm].
Qed.

(** Building the set keeps exactly the ids of the iterable. *)
Lemma py_in_fold (k : pyobj) (xs : list pyobj) :
  forall acc,
    py_in k (fold_left (fun acc x => if py_in x acc then acc else acc ++ [x]) xs acc)
    = py_in k acc || py_in k xs.
Proof.
  induction xs as [| x xs IH]; intros acc; simpl.
  - rewrite orb_false_r. reflexivity.
  - rewrite IH. destruct (py_in x acc) eqn:Hx.
    + destruct (py_in k acc) eqn:Hk; simpl; [reflexivity |].
      destruct (key_match x k) eqn:Hm; simpl; [| reflexivity].
      exfalso. apply py_in_true in Hx as (s & Hs & Hsx).
      rewrite key_match_unwrap in Hm. apply bool_decide_eq_true in Hm.
      assert (py_in k acc = true) as Hc; [| congruence].
      apply py_in_true. exists s. split; [exact Hs | congruence].
    + rewrite py_in_app. simpl. rewrite orb_false_r, orb_assoc. reflexivity.
Qed.

Lemma py_in_py_set (k : pyobj) (xs : list pyobj) : py_in k (py_set xs) = py_in k xs.
Proof. unfold py_set. rewrite py_in_fold. reflexivity. Qed.

(** C10.  The lookup of an id of the missing set of a proxy raises
    [DependencyNotFoundError] carrying the id and leaves the proxy as it
    is, whatever its cache holds and whatever the inherited lookup, with
    the providers taken over from the parent, would answer; the set holds
    every id of the iterable given as [missing]. *)
Theorem missing_is_not_found (d : pyobj) :
  (forall self : ProxyContainer (C:=C),
     py_in d (_missing self) = true ->
     __getitem__ super_getitem d self = (Err (DependencyNotFoundError d), self))
  /\ (forall (xs m : list pyobj) (c : C),
        init_missing (ArgIterable xs) = Ok m ->
        py_in d xs = true ->
        __getitem__ super_getitem d (mkProxyContainer c m)
          = (Err (DependencyNotFoundError d), mkProxyContainer c m)).
Proof.
  assert (forall self : ProxyContainer (C:=C),
            py_in d (_missing self) = true ->
            __getitem__ super_getitem d self = (Err (DependencyNotFoundError d), self))
    as Hgen.
  { intros self Hin. unfold __getitem__. rewrite Hin. reflexivity. }
  split; [exact Hgen |].
  intros xs m c Hinit Hin. apply Hgen. simpl in *.
  injection Hinit as <-. rewrite py_in_py_set. exact Hin.
Qed.
End Missing.
End ProxyFacts.

Module ProxyExamples.
Import Inputs.
#[local] Existing Instance sample_hashing.

(** A proxy whose inherited lookup finds ['x'], in the cache and
    through a provider as well. *)
Lemma missing_is_not_found_witness :
  Base.__getitem__ 1 [constant (PyInt 1)] (PyStr "x")
      (Base.mkWorld [(PyStr "x", PyInt 2)] 0 [] 0)
    = (Ok (PyInt 2), Base.mkWorld [(PyStr "x", PyInt 2)] 0 [] 0)
  /\ Base.__getitem__ 1 [constant (PyInt 1)] (PyStr "x") empty_world
     = (Ok (PyInt 1), empty_world)
  /\ Proxy.init_missing (Proxy.ArgIterable [PyStr "x"]) = Ok [PyStr "x"]
  /\ Proxy.__getitem__ (Base.__getitem__ 1 [constant (PyInt 1)]) (PyStr "x")
       (Proxy.mkProxyContainer (Base.mkWorld [(PyStr "x", PyInt 2)] 0 [] 0) [PyStr "x"])
     = (Err (DependencyNotFoundError (PyStr "x")),
        Proxy.mkProxyContainer (Base.mkWorld [(PyStr "x", PyInt 2)] 0 [] 0) [PyStr "x"]).
Proof.
  split; [reflexivity | split; [reflexivity | split; [reflexivity |]]].
  exact (proj2 (ProxyFacts.missing_is_not_found
                  (Base.__getitem__ 1 [constant (PyInt 1)]) (PyStr "x"))
               [PyStr "x"] [PyStr "x"] _ eq_refl eq_refl).
Defined.

Example other_ids_are_looked_up :
  Proxy.__getitem__ (Base.__getitem__ 1 [constant (PyInt 1)]) (PyStr "y")
    (Proxy.mkProxyContainer empty_world [PyStr "x"])
  = (Ok (PyInt 1), Proxy.mkProxyContainer empty_world [PyStr "x"]).
Proof. reflexivity. Qed.
End ProxyExamples.

(** * The tag provider *)

Module TagFacts.
Import TagProv.

Section Tags.
Context `{Hashing}.
Implicit Types (s : store) (d dep : pyobj) (n m : string) (t : tag_argument).

Lemma init_from (l : list TaggedDependency) :
  forall acc,
    let self :=
      fold_left
        (fun self tagged_dependency =>
           mkTaggedDependencies
             (_dependencies self ++ [dependency tagged_dependency])
             (_tags self ++ [tag tagged_dependency])
             (_instances self)) l acc in
    _dependencies self = _dependencies acc ++ map dependency l
    /\ _tags self = _tags acc ++ map tag l
    /\ _instances self = _instances acc.
Proof.
  induction l as [| x l IH]; intros acc; simpl.
  - rewrite !app_nil_r. auto.
  - destruct (IH (mkTaggedDependencies (_dependencies acc ++ [dependency x])
                    (_tags acc ++ [tag x]) (_instances acc))) as (Hd & Ht & Hi).
    simpl in *. rewrite Hd, Ht, Hi, <- !app_assoc. auto.
Qed.

(** The collection lists the pairs it was built from, and has built no
    instance yet. *)
Lemma init_lists (l : list TaggedDependency) :
  dependencies (TaggedDependencies_init l) = map dependency l
  /\ tags (TaggedDependencies_init l) = map tag l
  /\ _instances (TaggedDependencies_init l) = [].
Proof. apply (init_from l (mkTaggedDependencies [] [] [])). Qed.

(** [register] works on the provider's own dict only. *)
Lemma register_collections dep (ts : list tag_argument) :
  forall s, collections (snd (register dep ts s)) = collections s.
Proof.
  induction ts as [| t ts IH]; intros s; simpl; [reflexivity |].
  destruct (as_Tag t) as [tg | e |]; simpl; try reflexivity.
  destruct (_dependency_to_tag_by_tag_name s !! name tg) as [inner |].
  - destruct (dict_contains inner dep); simpl; [reflexivity |].
    rewrite IH. reflexivity.
  - rewrite IH. reflexivity.
Qed.

Lemma register_all_collections (calls : list (pyobj * list tag_argument)) :
  forall s, collections (register_all calls s) = collections s.
Proof.
  induction calls as [| [dep ts] calls IH]; intros s; simpl; [reflexivity |].
  unfold register_all in *. simpl. rewrite IH. apply register_collections.
Qed.

(** What [provide] answers to a [Tagged]. *)
Lemma provide_tagged n s :
  exists collection,
    provide (Tagged n) s
      = (Some (mkDependencyInstance (PyObject (length (collections s))) false),
         mkStore (_dependency_to_tag_by_tag_name s) (collections s ++ [collection]))
    /\ dependencies collection = map fst (tagged s n)
    /\ tags collection = map snd (tagged s n)
    /\ _instances collection = [].
Proof.
  eexists. split; [reflexivity |].
  destruct (init_lists
              (map (fun '(dependency_, tag) => mkTaggedDependency dependency_ tag)
                   (tagged s n))) as (Hd & Ht & Hi).
  unfold tagged in *. rewrite Hd, Ht, Hi.
  split; [| split; [| reflexivity]].
  - rewrite map_map. apply map_ext. intros [a b]. reflexivity.
  - rewrite map_map. apply map_ext. intros [a b]. reflexivity.
Qed.

(** C7.  [TagProvider.provide] answers [None] to every request that is
    not a [Tagged].  To a [Tagged] it answers with a new collection that
    is not a singleton and that lists the dependencies and tags registered
    under the name when the request is made; whatever is registered
    afterwards, the collection stays what it was. *)
Theorem provide_is_a_snapshot :
  (forall o s, provide (Other o) s = (None, s))
  /\ (forall n s,
        exists collection,
          provide (Tagged n) s
            = (Some (mkDependencyInstance (PyObject (length (collections s))) false),
               mkStore (_dependency_to_tag_by_tag_name s) (collections s ++ [collection]))
          /\ dependencies collection = map fst (tagged s n)
          /\ tags collection = map snd (tagged s n)
          /\ _instances collection = []
          /\ forall calls,
               collections
                 (register_all calls
                    (mkStore (_dependency_to_tag_by_tag_name s)
                             (collections s ++ [collection])))
                 !! length (collections s)
               = Some collection).
Proof.
  split; [reflexivity |].
  intros n s. destruct (provide_tagged n s) as (collection & Hp & Hd & Ht & Hi).
  exists collection. repeat (split; [assumption |]).
  intros calls. rewrite register_all_collections. simpl.
  rewrite lookup_app_r by lia. rewrite Nat.sub_diag. reflexivity.
Qed.

(** ** Registration *)

Lemma dict_contains_set {V} (c : pydict V) (k k' : pyobj) (v : V) :
  dict_contains (dict_set c k v) k' = dict_contains c k' || key_match k k'.
Proof.
  unfold dict_contains. destruct (key_match k k') eqn:Hm.
  - rewrite dict_get_set_alike; [rewrite orb_true_r; reflexivity | | exact Hm].
    intros x. rewrite !key_match_unwrap in *. apply bool_decide_eq_true in Hm.
    apply bool_decide_ext. split; congruence.
  - rewrite dict_get_set_other by exact Hm. rewrite orb_false_r. reflexivity.
Qed.

(** A key the dict does not hold is added last. *)
Lemma dict_set_fresh {V} (c : pydict V) (k : pyobj) (v : V) :
  dict_contains c k = false -> dict_set c k v = c ++ [(k, v)].
Proof.
  unfold dict_contains. induction c as [| [a b] c IH]; simpl; [reflexivity |].
  destruct (key_match a k); [discriminate |]. intros Hc. rewrite IH by exact Hc.
  reflexivity.
Qed.

Lemma as_Tag_name t n :
  name_of t = Some n -> exists tg, as_Tag t = Ok tg /\ name tg = n.
Proof.
  destruct t; simpl; intros [= <-]; eauto.
Qed.

(** A tag whose name the dependency already has is refused. *)
Lemma register_duplicate dep t ts s n :
  name_of t = Some n ->
  registered s n dep = true ->
  register dep (t :: ts) s = (Err (DuplicateTagError n), s).
Proof.
  intros Hn Hreg. destruct (as_Tag_name _ _ Hn) as (tg & Htg & <-).
  unfold registered in Hreg. cbn [register]. rewrite Htg.
  destruct (_dependency_to_tag_by_tag_name s !! name tg) as [inner |];
    [| discriminate].
  rewrite Hreg. reflexivity.
Qed.

(** A tag whose name the dependency does not have yet is recorded, after
    the entries the name already has. *)
Lemma register_fresh dep t ts s n :
  name_of t = Some n ->
  registered s n dep = false ->
  exists tg s1,
    as_Tag t = Ok tg
    /\ register dep (t :: ts) s = register dep ts s1
    /\ collections s1 = collections s
    /\ tagged s1 n = tagged s n ++ [(dep, tg)]
    /\ (forall m, m <> n -> tagged s1 m = tagged s m)
    /\ (forall m d, registered s1 m d
                    = registered s m d || (bool_decide (m = n) && key_match dep d)).
Proof.
  intros Hn Hreg. destruct (as_Tag_name _ _ Hn) as (tg & Htg & <-).
  unfold registered in Hreg. cbn [register]. rewrite Htg.
  destruct (_dependency_to_tag_by_tag_name s !! name tg) as [inner |] eqn:Hlook.
  - rewrite Hreg. cbn [negb].
    exists tg. eexists. split; [reflexivity |]. split; [reflexivity |].
    split; [reflexivity |]. unfold tagged, registered. cbn [_dependency_to_tag_by_tag_name].
    split; [| split].
    + rewrite lookup_insert_eq, Hlook. simpl. apply dict_set_fresh, Hreg.
    + intros m Hm. rewrite lookup_insert_ne by congruence. reflexivity.
    + intros m d. destruct (decide (m = name tg)) as [-> | Hm].
      * rewrite lookup_insert_eq, Hlook, bool_decide_eq_true_2 by reflexivity.
        apply dict_contains_set.
      * rewrite lookup_insert_ne by congruence.
        rewrite bool_decide_eq_false_2 by exact Hm. rewrite orb_false_r. reflexivity.
  - exists tg. eexists. split; [reflexivity |]. split; [reflexivity |].
    split; [reflexivity |]. unfold tagged, registered. cbn [_dependency_to_tag_by_tag_name].
    split; [| split].
    + rewrite lookup_insert_eq, Hlook. reflexivity.
    + intros m Hm. rewrite lookup_insert_ne by congruence. reflexivity.
    + intros m d. destruct (decide (m = name tg)) as [-> | Hm].
      * rewrite lookup_insert_eq, Hlook, bool_decide_eq_true_2 by reflexivity.
        unfold dict_contains. simpl. destruct (key_match dep d); reflexivity.
      * rewrite lookup_insert_ne by congruence.
        rewrite bool_decide_eq_false_2 by exact Hm. rewrite orb_false_r. reflexivity.
Qed.

(** A call with tags and names only ends well or with
    [DuplicateTagError] for one of the names. *)
Lemma register_outcome dep (names : list string) :
  forall (ts : list tag_argument) s,
    map name_of ts = map Some names ->
    fst (register dep ts s) = Ok tt
    \/ exists n, In n names /\ fst (register dep ts s) = Err (DuplicateTagError n).
Proof.
  induction names as [| n names IH]; intros [| t ts] s Hnames; try discriminate.
  - left. reflexivity.
  - injection Hnames as Hn Hrest.
    destruct (registered s n dep) eqn:Hreg.
    + right. exists n. split; [left; reflexivity |].
      rewrite (register_duplicate _ _ _ _ _ Hn Hreg). reflexivity.
    + destruct (register_fresh dep t ts s n Hn Hreg) as (tg & s1 & _ & Hstep & _).
      rewrite Hstep. destruct (IH ts s1 Hrest) as [Hok | (m & Hm & Herr)].
      * left. exact Hok.
      * right. exists m. split; [right; exact Hm | exact Herr].
Qed.

(** It ends well exactly when the names differ from one another and none
    of them is registered for the dependency. *)
Lemma register_ok_iff dep (names : list string) :
  forall (ts : list tag_argument) s,
    map name_of ts = map Some names ->
    fst (register dep ts s) = Ok tt
    <-> List.NoDup names /\ Forall (fun n => registered s n dep = false) names.
Proof.
  induction names as [| n names IH]; intros [| t ts] s Hnames; try discriminate.
  - simpl. split; [intros _; split; constructor | reflexivity].
  - injection Hnames as Hn Hrest.
    destruct (registered s n dep) eqn:Hreg.
    + rewrite (register_duplicate _ _ _ _ _ Hn Hreg). simpl. split; [discriminate |].
      intros [_ Hall]. apply Forall_cons in Hall as [Hc _]. congruence.
    + destruct (register_fresh dep t ts s n Hn Hreg)
        as (tg & s1 & _ & Hstep & _ & _ & _ & Hreg1).
      rewrite Hstep, (IH ts s1 Hrest). rewrite List.NoDup_cons_iff.
      assert (Forall (fun m => registered s1 m dep = false) names
              <-> ~ In n names /\ Forall (fun m => registered s m dep = false) names)
        as ->.
      { rewrite !List.Forall_forall. split.
        - intros Hall. split.
          + intros Hin. specialize (Hall n Hin). rewrite Hreg1 in Hall.
            rewrite bool_decide_eq_true_2, key_match_refl, orb_true_r in Hall
              by reflexivity. discriminate.
          + intros m Hm. specialize (Hall m Hm). rewrite Hreg1 in Hall.
            apply orb_false_iff in Hall as [Hall _]. exact Hall.
        - intros [Hnotin Hall] m Hm. rewrite Hreg1, (Hall m Hm).
          rewrite bool_decide_eq_false_2; [reflexivity |]. intros ->. auto. }
      rewrite Forall_cons. tauto.
Qed.

(** C8.  [register] raises [DuplicateTagError] for a tag exactly when the
    name of the tag is registered for the dependency already, by an
    earlier call or earlier in the same call.  The same name given to two
    different dependencies is accepted, and the collection provided for
    the name then lists both. *)
Theorem register_refuses_duplicates_only :
  (forall dep t s n,
     fst (register dep [t] s) = Err (DuplicateTagError n)
     <-> name_of t = Some n /\ registered s n dep = true)
  /\ (forall dep ts names s,
        map name_of ts = map Some names ->
        (fst (register dep ts s) = Ok tt
         <-> List.NoDup names /\ Forall (fun n => registered s n dep = false) names)
        /\ (fst (register dep ts s) <> Ok tt ->
            exists n, In n names
                      /\ fst (register dep ts s) = Err (DuplicateTagError n)))
  /\ (forall d1 d2 t1 t2 n s,
        name_of t1 = Some n ->
        name_of t2 = Some n ->
        key_match d1 d2 = false ->
        registered s n d1 = false ->
        registered s n d2 = false ->
        exists s1 s2 collection,
          register d1 [t1] s = (Ok tt, s1)
          /\ register d2 [t2] s1 = (Ok tt, s2)
          /\ provide (Tagged n) s2
             = (Some (mkDependencyInstance (PyObject (length (collections s2))) false),
                mkStore (_dependency_to_tag_by_tag_name s2)
                        (collections s2 ++ [collection]))
          /\ dependencies collection = map fst (tagged s n) ++ [d1; d2]).
Proof.
  split; [| split].
  - intros dep t s n. split.
    + intros Herr. destruct (name_of t) as [m |] eqn:Hm.
      * destruct (registered s m dep) eqn:Hreg.
        -- rewrite (register_duplicate _ _ _ _ _ Hm Hreg) in Herr. simpl in Herr.
           injection Herr as ->. auto.
        -- destruct (register_fresh dep t [] s m Hm Hreg) as (tg & s1 & _ & Hstep & _).
           rewrite Hstep in Herr. discriminate.
      * destruct t; discriminate.
    + intros [Hn Hreg]. rewrite (register_duplicate _ _ _ _ _ Hn Hreg). reflexivity.
  - intros dep ts names s Hnames. split; [apply register_ok_iff, Hnames |].
    intros Hnot. destruct (register_outcome dep names ts s Hnames) as [Hok | Herr];
      [contradiction | exact Herr].
  - intros d1 d2 t1 t2 n s Hn1 Hn2 Hdiff Hr1 Hr2.
    destruct (register_fresh d1 t1 [] s n Hn1 Hr1)
      as (tg1 & s1 & _ & Hstep1 & _ & Htag1 & _ & Hreg1).
    assert (registered s1 n d2 = false) as Hr2'.
    { rewrite Hreg1, Hr2, Hdiff, andb_false_r. reflexivity. }
    destruct (register_fresh d2 t2 [] s1 n Hn2 Hr2')
      as (tg2 & s2 & _ & Hstep2 & _ & Htag2 & _ & _).
    destruct (provide_tagged n s2) as (collection & Hp & Hdeps & _).
    exists s1, s2, collection.
    split; [exact Hstep1 | split; [exact Hstep2 | split; [exact Hp |]]].
    rewrite Hdeps, Htag2, Htag1, !map_app, <- app_assoc. reflexivity.
Qed.
End Tags.
End TagFacts.

Module TagExamples.
Import TagProv Inputs.
#[local] Existing Instance sample_hashing.

(** The tag ['t']: refused a second time for ['a'], accepted for
    ['b'], and both are listed. *)
Lemma register_refuses_duplicates_only_witness :
  fst (register (PyStr "a") [TagStr "t"] one_tagged) = Err (DuplicateTagError "t")
  /\ fst (register (PyStr "a") [TagStr "u"; TagStr "u"] one_tagged) <> Ok tt
  /\ exists s1 s2 collection,
       register (PyStr "a") [TagStr "t"] (mkStore ∅ []) = (Ok tt, s1)
       /\ register (PyStr "b") [TagObj (mkTag "t" [])] s1 = (Ok tt, s2)
       /\ provide (Tagged "t") s2
          = (Some (mkDependencyInstance (PyObject (length (collections s2))) false),
             mkStore (_dependency_to_tag_by_tag_name s2) (collections s2 ++ [collection]))
       /\ dependencies collection = map fst (tagged (mkStore ∅ []) "t") ++ [PyStr "a"; PyStr "b"].
Proof.
  destruct TagFacts.register_refuses_duplicates_only as (Hone & Hmany & Htwo).
  split; [| split].
  - apply Hone. split; reflexivity.
  - intros Hok.
    apply (proj1 (Hmany (PyStr "a") [TagStr "u"; TagStr "u"] ["u"; "u"] one_tagged eq_refl))
      in Hok.
    destruct Hok as [Hnodup _]. apply List.NoDup_cons_iff in Hnodup as [Hnotin _].
    apply Hnotin. left. reflexivity.
  - apply (Htwo (PyStr "a") (PyStr "b") (TagStr "t") (TagObj (mkTag "t" [])) "t"
             (mkStore ∅ [])); reflexivity.
Defined.

(** What is registered after the collection was provided does not show in
    it; it shows in the collection provided next. *)
Example later_tags_do_not_appear :
  let '(_, s1) := provide (Tagged "t") one_tagged in
  let s2 := register_all [(PyStr "b", [TagStr "t"]); (PyStr "c", [TagStr "t"])] s1 in
  let '(_, s3) := provide (Tagged "t") s2 in
  (dependencies <$> collections s3 !! 0, dependencies <$> collections s3 !! 1)
  = (Some [PyStr "a"], Some [PyStr "a"; PyStr "b"; PyStr "c"]).
Proof. vm_compute. reflexivity. Qed.

Example provide_is_not_a_singleton :
  fst (provide (Tagged "t") one_tagged)
  = Some (mkDependencyInstance (PyObject 0) false)
  /\ fst (provide (Other (PyStr "t")) one_tagged) = None.
Proof. split; reflexivity. Qed.
End TagExamples.

(** * Lazy method calls *)

Module LazyFacts.
Import Lazy.

Section Markers.
Variable invoke :
  pyobj -> string -> list pyobj -> list (string * pyobj) -> heap -> outcome pyobj * heap.
Implicit Types (h : heap) (self owner : nat).

Lemma attr_get_set_same (d : list (string * pyobj)) (k : string) (v : pyobj) :
  attr_get (attr_set d k v) k = Some v.
Proof.
  induction d as [| [a b] d IH]; simpl.
  - rewrite String.eqb_refl. reflexivity.
  - destruct (String.eqb a k) eqn:E; simpl; rewrite E; [reflexivity | exact IH].
Qed.

(** Once the marker is bound, [getattr] hands it back through every class
    that sees the attribute. *)
Lemma get_cached fuel self owner h mn args kw k m marker_owner :
  h !! self = Some (LazyMethodCall mn args kw true (Some k)) ->
  find_in_mro h (mro h owner) k = Some (PyObject m) ->
  h !! m = Some (LazyMethodCallDependency self marker_owner) ->
  __get__ invoke (S fuel) self None owner h = (Ok (PyObject m), h).
Proof.
  intros Hself Hfind Hm. cbn [__get__]. rewrite Hself, Hfind, Hm. reflexivity.
Qed.

Lemma find_in_own_dict h owner d tail k v :
  h !! owner = Some (ClassObject d tail) ->
  attr_get d k = Some v ->
  find_in_mro h (mro h owner) k = Some v.
Proof.
  intros Howner Hattr. unfold mro. rewrite Howner. cbn [find_in_mro].
  rewrite Howner, Hattr. reflexivity.
Qed.

(** The first access through the class binds a new marker in the owner. *)
Lemma get_first fuel self owner h mn args kw d tail :
  h !! self = Some (LazyMethodCall mn args kw true None) ->
  h !! owner = Some (ClassObject d tail) ->
  let k := format_dependency (_get_attribute_name self d) in
  let h' :=
    <[owner := ClassObject (attr_set d k (PyObject (length h))) tail]>
      (<[self := LazyMethodCall mn args kw true (Some k)]> h
       ++ [LazyMethodCallDependency self owner]) in
  __get__ invoke (S fuel) self None owner h = (Ok (PyObject (length h)), h')
  /\ h' !! self = Some (LazyMethodCall mn args kw true (Some k))
  /\ h' !! owner = Some (ClassObject (attr_set d k (PyObject (length h))) tail)
  /\ h' !! length h = Some (LazyMethodCallDependency self owner).
Proof.
  intros Hself Howner k h'.
  assert (self < length h) as Hls by (eapply lookup_lt_Some; eassumption).
  assert (owner < length h) as Hlo by (eapply lookup_lt_Some; eassumption).
  assert (self <> owner) as Hne by (intros ->; congruence).
  set (h1 := <[self := LazyMethodCall mn args kw true (Some k)]> h) in *.
  assert (length h1 = length h) as Hlen by apply length_insert.
  assert ((h1 ++ [LazyMethodCallDependency self owner]) !! owner
          = Some (ClassObject d tail)) as Howner2.
  { rewrite lookup_app_l by lia. unfold h1.
    rewrite list_lookup_insert_ne by exact Hne. exact Howner. }
  assert (h' !! owner = Some (ClassObject (attr_set d k (PyObject (length h))) tail))
    as Howner'.
  { unfold h'. apply list_lookup_insert_eq. rewrite length_app, Hlen. simpl. lia. }
  assert (h' !! self = Some (LazyMethodCall mn args kw true (Some k))) as Hself'.
  { unfold h'. rewrite list_lookup_insert_ne by auto.
    rewrite lookup_app_l by lia. unfold h1. apply list_lookup_insert_eq. exact Hls. }
  assert (h' !! length h = Some (LazyMethodCallDependency self owner)) as Hmarker.
  { unfold h'. rewrite list_lookup_insert_ne by lia.
    rewrite lookup_app_r by lia. rewrite Hlen, Nat.sub_diag. reflexivity. }
  split; [| auto].
  cbn [__get__]. rewrite Hself, Howner. fold k. fold h1. rewrite Hlen.
  unfold setattr. rewrite Howner2. fold h'.
  rewrite (find_in_own_dict _ _ _ _ _ _ Howner' (attr_get_set_same _ _ _)).
  rewrite Hmarker. reflexivity.
Qed.

(** Without [singleton], every access through the class builds a marker. *)
Lemma get_fresh fuel self owner h mn args kw key :
  h !! self = Some (LazyMethodCall mn args kw false key) ->
  __get__ invoke (S fuel) self None owner h
    = (Ok (PyObject (length h)), h ++ [LazyMethodCallDependency self owner]).
Proof. intros Hself. cbn [__get__]. rewrite Hself. reflexivity. Qed.

Lemma accesses_cached fuel self owner h mn args kw k m marker_owner :
  h !! self = Some (LazyMethodCall mn args kw true (Some k)) ->
  find_in_mro h (mro h owner) k = Some (PyObject m) ->
  h !! m = Some (LazyMethodCallDependency self marker_owner) ->
  forall n, accesses invoke (S fuel) n self owner h = (repeat (Ok (PyObject m)) n, h).
Proof.
  intros Hself Hfind Hm n. induction n as [| n IH]; [reflexivity |].
  cbn [accesses]. rewrite (get_cached _ _ _ _ _ _ _ _ _ _ Hself Hfind Hm).
  rewrite IH. reflexivity.
Qed.

Lemma accesses_fresh fuel self owner mn args kw key :
  forall n h,
    h !! self = Some (LazyMethodCall mn args kw false key) ->
    accesses invoke (S fuel) n self owner h
      = (map (fun i => Ok (PyObject (length h + i))) (seq 0 n),
         h ++ repeat (LazyMethodCallDependency self owner) n).
Proof.
  induction n as [| n IH]; intros h Hself.
  - simpl. rewrite app_nil_r. reflexivity.
  - cbn [accesses]. rewrite (get_fresh _ _ _ _ _ _ _ _ Hself).
    rewrite IH by (rewrite lookup_app_l; [exact Hself | eapply lookup_lt_Some; eassumption]).
    cbn [seq map repeat]. rewrite Nat.add_0_r, <- app_assoc. cbn [app].
    f_equal. f_equal. rewrite <- seq_shift, map_map. apply map_ext.
    intros i. rewrite length_app. simpl. do 2 f_equal. lia.
Qed.

End Markers.
End LazyFacts.

Module LazyExamples.
Import Lazy Inputs.

(** The class [A] of [class_heap]: [A.x] is a singleton lazy method
    call, [A.y] is not.  Three accesses in a row, through [A] and through
    its subclass [B]. *)
Example singleton_marker_is_shared :
  let '(r1, h1) := __get__ no_call 1 1 None 0 class_heap in
  let '(r2, h2) := __get__ no_call 1 1 None 0 h1 in
  let '(r3, h3) := __get__ no_call 1 1 None 3 h2 in
  (r1, r2, r3) = (Ok (PyObject 4), Ok (PyObject 4), Ok (PyObject 4)) /\ h3 = h1.
Proof. split; reflexivity. Qed.

Example plain_marker_is_new :
  fst (accesses no_call 1 3 2 0 class_heap)
  = [Ok (PyObject 4); Ok (PyObject 5); Ok (PyObject 6)].
Proof. reflexivity. Qed.

Example marker_name :
  snd (__get__ no_call 1 1 None 0 class_heap) !! 0
  = Some (ClassObject [("x", PyObject 1); ("y", PyObject 2); ("x_dependency", PyObject 4)]
                      []).
Proof. reflexivity. Qed.
End LazyExamples.

(** * More on the container *)

Module ContainerFacts.
Import Base BaseUse.

Section Cache.
Context `{Hashing} {PS : Type}.
Implicit Types (w : world (PS:=PS)) (d k : pyobj) (get : pyobj -> M (PS:=PS) pyobj).
Implicit Types (p : provider (PS:=PS)) (providers : list (provider (PS:=PS))).

(** What a dict holds under a key after an assignment. *)
Lemma dict_get_set {V} (c : pydict V) (k k' : pyobj) (v : V) :
  dict_get (dict_set c k v) k' = if key_match k k' then Some v else dict_get c k'.
Proof.
  destruct (key_match k k') eqn:Hm.
  - apply dict_get_set_alike; [| exact Hm].
    intros x. rewrite !key_match_unwrap in *. apply bool_decide_eq_true in Hm.
    apply bool_decide_ext. split; congruence.
  - apply dict_get_set_other, Hm.
Qed.

(** Keys that match find the same entry. *)
Lemma dict_get_alike {V} (c : pydict V) (k k' : pyobj) :
  key_match k k' = true -> dict_get c k = dict_get c k'.
Proof.
  intros Hm. induction c as [| [a b] c IH]; simpl; [reflexivity |].
  replace (key_match a k') with (key_match a k); [rewrite IH; reflexivity |].
  rewrite !key_match_unwrap in *. apply bool_decide_eq_true in Hm.
  apply bool_decide_ext. split; congruence.
Qed.

Lemma dict_get_app {V} (c c' : pydict V) (k : pyobj) :
  dict_get (c ++ c') k
  = match dict_get c k with
    | Some v => Some v
    | None => dict_get c' k
    end.
Proof.
  induction c as [| [a b] c IH]; simpl; [reflexivity |].
  destruct (key_match a k); [reflexivity | exact IH].
Qed.

Lemma dict_update_get {V} (other : pydict V) :
  forall (c : pydict V) k,
    dict_get (dict_update c other) k
    = match dict_get (rev other) k with
      | Some v => Some v
      | None => dict_get c k
      end.
Proof.
  unfold dict_update. induction other as [| [a b] other IH]; intros c k; simpl.
  - reflexivity.
  - rewrite IH, dict_get_app, dict_get_set. simpl.
    destruct (dict_get (rev other) k); [reflexivity |].
    destruct (key_match a k); reflexivity.
Qed.

(** X2.  After [update] the cache answers a key with the last value the
    argument gives for it, and as before for a key the argument does not
    hold; the lookup of a key of the argument returns that value without
    running a provider. *)
Theorem update_overrides_and_keeps fuel providers (other : pydict pyobj) w :
  (forall k,
     dict_get (singletons (update other w)) k
     = match dict_get (rev other) k with
       | Some v => Some v
       | None => dict_get (singletons w) k
       end)
  /\ (forall k v,
        dict_get (rev other) k = Some v ->
        __getitem__ (S fuel) providers k (update other w) = (Ok v, update other w))
  /\ instantiation_lock (update other w) = instantiation_lock w
  /\ instantiation_stack (update other w) = instantiation_stack w.
Proof.
  assert (forall k,
            dict_get (singletons (update other w)) k
            = match dict_get (rev other) k with
              | Some v => Some v
              | None => dict_get (singletons w) k
              end) as Hget.
  { intros k. unfold update. cbn [singletons release set_singletons acquire].
    apply dict_update_get. }
  split; [exact Hget | split; [| split; reflexivity]].
  intros k v Hk. apply BaseFacts.getitem_hit. rewrite Hget, Hk. reflexivity.
Qed.

(** ** What the cache keeps *)

Lemma kept_refl w : kept w w.
Proof. intros k v Hk. exact Hk. Qed.

Lemma kept_trans w1 w2 w3 : kept w1 w2 -> kept w2 w3 -> kept w1 w3.
Proof. intros H12 H23 k v Hk. apply H23, H12, Hk. Qed.

Lemma run_kept get :
  (forall d w, kept w (snd (get d w))) ->
  forall (q : prog (PS:=PS)) w, kept w (snd (run get q w)).
Proof.
  intros Hget q. induction q as [r | e | d k IH | f k IH]; intros w; simpl.
  - apply kept_refl.
  - apply kept_refl.
  - specialize (Hget d w). destruct (get d w) as [[v | e |] w']; simpl in Hget.
    + eapply kept_trans; [exact Hget | apply IH].
    + eapply kept_trans; [exact Hget | apply IH].
    + exact Hget.
  - destruct (f (providers_state w)) as [v s].
    eapply kept_trans; [| apply IH]. intros k' v' Hk. exact Hk.
Qed.

(** Storing under an id that the cache does not hold leaves the entries
    it holds as they are. *)
Lemma store_keeps w d item :
  dict_get (singletons w) d = None ->
  kept w (set_singletons (dict_set (singletons w) d item) w).
Proof.
  intros Hmiss k v Hk. cbn [singletons set_singletons]. rewrite dict_get_set.
  destruct (key_match d k) eqn:Hm; [| exact Hk].
  rewrite (dict_get_alike _ _ _ Hm) in Hmiss. congruence.
Qed.

(** The loop over the providers, for an id that is on the stack and not
    in the cache: it keeps the entries, and it stores under the id only
    when a provider answers. *)
Lemma consult_kept get :
  (forall d w, kept w (snd (get d w))) ->
  (forall d w, preserved w (snd (get d w))) ->
  forall providers d w,
    py_in d (instantiation_stack w) = true ->
    dict_get (singletons w) d = None ->
    kept w (snd (consult get providers d w))
    /\ ((exists item, fst (consult get providers d w) = Ok (Some item))
        \/ dict_get (singletons (snd (consult get providers d w))) d = None).
Proof.
  intros Hk Hp providers d.
  induction providers as [| q providers IH]; intros w Hin Hmiss; simpl.
  - split; [apply kept_refl | right; exact Hmiss].
  - pose proof (run_kept get Hk (q (as_Dependency d)) w) as Hrk.
    pose proof (BaseFacts.run_preserved get Hp (q (as_Dependency d)) w) as Hrp.
    destruct (run get (q (as_Dependency d)) w) as [[r | e |] w1]; simpl in Hrk, Hrp.
    + destruct Hrp as (Hs & _ & Hm).
      assert (dict_get (singletons w1) d = None) as Hmiss1 by (apply Hm; assumption).
      destruct r as [item [|] |]; simpl.
      * split; [| left; eauto].
        eapply kept_trans; [exact Hrk | apply store_keeps, Hmiss1].
      * split; [exact Hrk | left; eauto].
      * split; [exact Hrk | right; exact Hmiss1].
    + destruct Hrp as (Hs & _ & Hm).
      assert (dict_get (singletons w1) d = None) as Hmiss1 by (apply Hm; assumption).
      destruct e; simpl; try (split; [exact Hrk | right; exact Hmiss1]).
      destruct (IH w1) as (Hk1 & Hcase); [rewrite Hs; exact Hin | exact Hmiss1 |].
      split; [eapply kept_trans; eassumption | exact Hcase].
    + destruct Hrp as (Hs & _ & Hm). simpl.
      split; [exact Hrk | right; apply Hm; assumption].
Qed.

Lemma getitem_kept fuel providers :
  forall d w, kept w (snd (__getitem__ fuel providers d w)).
Proof.
  induction fuel as [| fuel IH]; intros d w.
  - apply kept_refl.
  - destruct (dict_get (singletons w) d) as [v |] eqn:Hc.
    { rewrite (BaseFacts.getitem_hit _ _ _ _ _ Hc). apply kept_refl. }
    destruct (py_in d (instantiation_stack w)) eqn:Hin.
    { cbn [__getitem__]. unfold getitem_body. rewrite Hc.
      rewrite (BaseFacts.locked_lookup_cycle _ _ _ _ Hin). apply kept_refl. }
    rewrite (BaseFacts.getitem_miss _ _ _ _ Hc Hin).
    destruct (consult_kept _ IH (BaseFacts.getitem_preserved fuel providers)
                providers d (push d (acquire w))) as (Hk & _);
      [apply BaseFacts.in_own_stack | exact Hc |].
    destruct (consult (__getitem__ fuel providers) providers d (push d (acquire w)))
      as [r w'].
    simpl in Hk.
    assert (kept w (release (pop w'))) as Hres by exact Hk.
    destruct (except_clauses d r) as [[item |] | e |]; exact Hres.
Qed.

Lemma lookups_kept fuel providers (ds : list pyobj) :
  forall w, kept w (lookups fuel providers ds w).
Proof.
  unfold lookups. induction ds as [| d ds IH]; intros w; simpl.
  - apply kept_refl.
  - eapply kept_trans; [apply getitem_kept | apply IH].
Qed.

(** X3.  A lookup never removes an entry of the cache and never changes
    its value.  So an id that is cached, by a singleton answer or by
    hand, is answered with the same object by every later lookup,
    whatever lookups are made in between and however they end. *)
Theorem cache_entries_persist fuel providers k v w :
  dict_get (singletons w) k = Some v ->
  (forall d, dict_get (singletons (snd (__getitem__ fuel providers d w))) k = Some v)
  /\ (forall ds fuel',
        __getitem__ (S fuel') providers k (lookups fuel providers ds w)
        = (Ok v, lookups fuel providers ds w)).
Proof.
  intros Hk. split.
  - intros d. apply getitem_kept, Hk.
  - intros ds fuel'. apply BaseFacts.getitem_hit. apply lookups_kept, Hk.
Qed.

(** X1.  A value assigned to an id is what every lookup of the id that
    starts after the assignment returns, at once and whatever lookups
    are made in between, however they end: no provider is run for it,
    and these lookups do not replace it.  The assignment changes nothing
    else: not the lock, not the stack, not the providers, not the entry
    of any other id.  A lookup of the id that was in its loop over the
    providers when the assignment was made does replace the value: when
    the provider it asks next answers with a singleton, line 80 stores
    that answer over the value assigned, and the lookup returns it. *)
Theorem assigned_value_is_returned fuel providers k v w :
  (forall ds fuel',
     __getitem__ (S fuel') providers k (lookups fuel providers ds (__setitem__ k v w))
     = (Ok v, lookups fuel providers ds (__setitem__ k v w)))
  /\ instantiation_lock (__setitem__ k v w) = instantiation_lock w
  /\ instantiation_stack (__setitem__ k v w) = instantiation_stack w
  /\ providers_state (__setitem__ k v w) = providers_state w
  /\ (forall k', dict_get (singletons (__setitem__ k v w)) k'
                 = if key_match k k' then Some v else dict_get (singletons w) k')
  /\ (forall get p rest item w',
        run get (p (as_Dependency k)) (__setitem__ k v w)
        = (Ok (Instance_ item true), w') ->
        fst (consult get (p :: rest) k (__setitem__ k v w)) = Ok (Some item)
        /\ dict_get (singletons (snd (consult get (p :: rest) k (__setitem__ k v w)))) k
           = Some item).
Proof.
  assert (dict_get (singletons (__setitem__ k v w)) k = Some v) as Hset.
  { unfold __setitem__. cbn [singletons release set_singletons acquire].
    apply dict_get_set_same. }
  split; [| split; [| split; [| split; [| split]]]]; try reflexivity.
  - intros ds fuel'. apply BaseFacts.getitem_hit. apply lookups_kept, Hset.
  - intros k'. unfold __setitem__. cbn [singletons release set_singletons acquire].
    apply dict_get_set.
  - intros get p rest item w' Hrun. cbn [consult]. rewrite Hrun. cbn [fst snd].
    split; [reflexivity |]. cbn [singletons set_singletons]. apply dict_get_set_same.
Qed.

(** X4.  However a lookup ends, it leaves the lock held as many times as
    before and the stack as it was, and an id that is being resolved and
    has no value in the cache has none afterwards: nothing is cached for
    it by the lookups made on the way. *)
Theorem lookup_is_balanced fuel providers d w :
  instantiation_lock (snd (__getitem__ fuel providers d w)) = instantiation_lock w
  /\ instantiation_stack (snd (__getitem__ fuel providers d w)) = instantiation_stack w
  /\ forall k,
       py_in k (instantiation_stack w) = true ->
       dict_get (singletons w) k = None ->
       dict_get (singletons (snd (__getitem__ fuel providers d w))) k = None.
Proof.
  destruct (BaseFacts.getitem_preserved fuel providers d w) as (Hs & Hl & Hm).
  split; [exact Hl | split; [exact Hs | exact Hm]].
Qed.

(** X5.  A lookup that raises stores nothing for the id it was asked:
    the id is as absent from the cache as before, so the next lookup asks
    the providers again. *)
Theorem failed_lookup_caches_nothing fuel providers d w e w' :
  dict_get (singletons w) d = None ->
  __getitem__ fuel providers d w = (Err e, w') ->
  dict_get (singletons w') d = None.
Proof.
  intros Hmiss Hget. destruct fuel as [| fuel]; [discriminate |].
  destruct (py_in d (instantiation_stack w)) eqn:Hin.
  { cbn [__getitem__] in Hget. unfold getitem_body in Hget. rewrite Hmiss in Hget.
    rewrite (BaseFacts.locked_lookup_cycle _ _ _ _ Hin) in Hget.
    simpl in Hget. injection Hget as _ <-. exact Hmiss. }
  rewrite (BaseFacts.getitem_miss _ _ _ _ Hmiss Hin) in Hget.
  destruct (consult_kept _ (getitem_kept fuel providers)
              (BaseFacts.getitem_preserved fuel providers)
              providers d (push d (acquire w))) as (_ & Hcase);
    [apply BaseFacts.in_own_stack | exact Hmiss |].
  destruct (consult (__getitem__ fuel providers) providers d (push d (acquire w)))
    as [r w1].
  simpl in Hcase. destruct Hcase as [(item & ->) | Hnone].
  - simpl in Hget. discriminate.
  - destruct (except_clauses d r) as [[item |] | e' |]; try discriminate;
      injection Hget as _ <-; exact Hnone.
Qed.

(** ** What a lookup raises *)

(** X6.  A lookup raises [DependencyCycleError], or
    [DependencyInstantiationError] for the id it was asked, or
    [DependencyNotFoundError] for that id, or an exception that does not
    derive from [Exception]; nothing else, and never the
    [DependencyNotProvidableError] of a provider. *)
Theorem lookup_raises_its_own_errors fuel providers d w e w' :
  __getitem__ fuel providers d w = (Err e, w') ->
  (exists path, e = DependencyCycleError path)
  \/ (exists cause, e = DependencyInstantiationError d cause)
  \/ e = DependencyNotFoundError d
  \/ is_Exception e = false.
Proof.
  intros Hget. destruct fuel as [| fuel]; [discriminate |].
  cbn [__getitem__] in Hget. unfold getitem_body in Hget.
  destruct (dict_get (singletons w) d); [discriminate |].
  destruct (locked_lookup (__getitem__ fuel providers) providers d w) as [r w1].
  destruct r as [[item |] | e0 |]; simpl in Hget; try discriminate.
  - injection Hget as <- _. auto.
  - destruct e0; simpl in Hget; injection Hget as <- _; eauto 6.
Qed.

(** X7.  When the provider that answers for [d] needs [d'] and lets the
    failure of that lookup pass, the lookup of [d] raises
    [DependencyInstantiationError] for [d] with the failure as its cause:
    a needed id that is not found does not surface as
    [DependencyNotFoundError]. *)
Theorem nested_failure_is_wrapped fuel before p after d d' w w1 w2 e :
  let providers := before ++ p :: after in
  dict_get (singletons w) d = None ->
  py_in d (instantiation_stack w) = false ->
  declined (__getitem__ fuel providers) before d (push d (acquire w)) = Some w1 ->
  p (as_Dependency d) = Resolve d' Inputs.forward ->
  __getitem__ fuel providers d' w1 = (Err e, w2) ->
  (e = DependencyNotFoundError d' \/ exists cause, e = DependencyInstantiationError d' cause) ->
  forall fuel', fuel <= fuel' ->
    __getitem__ (S fuel') providers d w
      = (Err (DependencyInstantiationError d e), release (pop w2)).
Proof.
  intros providers Hmiss Hout Hdecl Hp Hnested He fuel' Hle.
  assert (run (__getitem__ fuel providers) (p (as_Dependency d)) w1 = (Err e, w2))
    as Hrun.
  { rewrite Hp. cbn [run]. rewrite Hnested. reflexivity. }
  apply (BaseFacts.getitem_enough (S fuel)); [| discriminate | lia].
  subst providers.
  rewrite (BaseFacts.getitem_raised _ _ _ after _ _ _ _ _ Hmiss Hout Hdecl Hrun).
  - destruct He as [-> | (cause & ->)]; reflexivity.
  - intros d0 ->. destruct He as [He | (cause & He)]; discriminate.
Qed.

(** ** Keys *)

(** X8.  [==] on ids and [Dependency] wrappers is reflexive, symmetric
    and transitive, two values that are equal have the same hash, and two
    [Dependency] are equal exactly when their ids are. *)
Theorem key_equality_contract :
  (forall a, py_eq a a = true)
  /\ (forall a b, py_eq a b = py_eq b a)
  /\ (forall a b c, py_eq a b = true -> py_eq b c = true -> py_eq a c = true)
  /\ (forall a b, py_eq a b = true -> py_hash a = py_hash b)
  /\ (forall x y, py_eq (PyDependency x) (PyDependency y) = py_eq x y).
Proof.
  split; [exact py_eq_refl |].
  split; [intros a b; rewrite !py_eq_unwrap; apply bool_decide_ext; split; congruence |].
  split.
  { intros a b c. rewrite !py_eq_unwrap. intros Hab Hbc.
    apply bool_decide_eq_true in Hab, Hbc. apply bool_decide_eq_true. congruence. }
  split; [exact py_eq_hash |].
  intros x y. rewrite !py_eq_unwrap. reflexivity.
Qed.
End Cache.
End ContainerFacts.

(** * More on the tag provider *)

Module TagMoreFacts.
Import TagProv TagUse.

Section Registry.
Context `{Hashing}.
Implicit Types (s : store) (d dep : pyobj) (n m : string) (t : tag_argument).

Lemma as_Tag_ok t tg : as_Tag t = Ok tg -> name_of t = Some (name tg).
Proof. destruct t; simpl; intros [= <-]; reflexivity. Qed.

Lemma as_Tag_err t e :
  as_Tag t = Err e -> name_of t = None /\ exists msg, e = ValueError msg.
Proof. destruct t; simpl; intros [= <-]; eauto. Qed.

Lemma as_Tag_returns t : as_Tag t <> OutOfFuel.
Proof. destruct t; discriminate. Qed.

(** X9.  [register] is not undone when it raises: the call stops at the
    first tag it refuses, a tag whose name the dependency has already or
    an object that is no tag, and what it leaves is what registering the
    tags before that one leaves. *)
Theorem register_keeps_what_it_did dep (ts : list tag_argument) :
  forall s e s',
    register dep ts s = (Err e, s') ->
    exists ts1 t ts2,
      ts = ts1 ++ t :: ts2
      /\ register dep ts1 s = (Ok tt, s')
      /\ ((exists n, name_of t = Some n
                     /\ registered s' n dep = true
                     /\ e = DuplicateTagError n)
          \/ (name_of t = None /\ exists msg, e = ValueError msg)).
Proof.
  induction ts as [| t ts IH]; intros s e s' Hreg; [discriminate |].
  cbn [register] in Hreg. destruct (as_Tag t) as [tg | e0 |] eqn:Ht.
  - destruct (_dependency_to_tag_by_tag_name s !! name tg) as [inner |] eqn:Hl.
    + destruct (dict_contains inner dep) eqn:Hc; cbn [negb] in Hreg.
      * injection Hreg as <- <-. exists [], t, ts.
        split; [reflexivity |]. split; [reflexivity |]. left. exists (name tg).
        split; [exact (as_Tag_ok _ _ Ht) |]. split; [| reflexivity].
        unfold registered. rewrite Hl. exact Hc.
      * destruct (IH _ e s' Hreg) as (ts1 & t' & ts2 & -> & Hpre & Hwhy).
        exists (t :: ts1), t', ts2. split; [reflexivity |]. split; [| exact Hwhy].
        cbn [register]. rewrite Ht, Hl, Hc. exact Hpre.
    + destruct (IH _ e s' Hreg) as (ts1 & t' & ts2 & -> & Hpre & Hwhy).
      exists (t :: ts1), t', ts2. split; [reflexivity |]. split; [| exact Hwhy].
      cbn [register]. rewrite Ht, Hl. exact Hpre.
  - injection Hreg as <- <-. exists [], t, ts.
    split; [reflexivity |]. split; [reflexivity |]. right.
    exact (as_Tag_err _ _ Ht).
  - destruct (as_Tag_returns _ Ht).
Qed.

(** What one accepted tag adds. *)
Lemma register_step dep t ts s tg :
  as_Tag t = Ok tg ->
  registered s (name tg) dep = false ->
  exists s1,
    register dep (t :: ts) s = register dep ts s1
    /\ tagged s1 (name tg) = tagged s (name tg) ++ [(dep, tg)]
    /\ (forall m, m <> name tg ->
                  _dependency_to_tag_by_tag_name s1 !! m
                  = _dependency_to_tag_by_tag_name s !! m)
    /\ _dependency_to_tag_by_tag_name s1 !! name tg
       = Some (tagged s (name tg) ++ [(dep, tg)])
    /\ registered s1 (name tg) dep = true.
Proof.
  intros Ht Hreg. unfold registered in Hreg. cbn [register]. rewrite Ht.
  destruct (_dependency_to_tag_by_tag_name s !! name tg) as [inner |] eqn:Hl.
  - rewrite Hreg. cbn [negb]. eexists. split; [reflexivity |].
    unfold tagged, registered. cbn [_dependency_to_tag_by_tag_name].
    rewrite lookup_insert_eq, Hl. cbn [default].
    rewrite (TagFacts.dict_set_fresh _ _ tg Hreg).
    split; [reflexivity |]. split; [| split; [reflexivity |]].
    + intros m Hm. rewrite lookup_insert_ne by congruence. reflexivity.
    + unfold dict_contains. rewrite <- (TagFacts.dict_set_fresh _ _ tg Hreg).
      rewrite dict_get_set_same. reflexivity.
  - eexists. split; [reflexivity |].
    unfold tagged, registered. cbn [_dependency_to_tag_by_tag_name].
    rewrite lookup_insert_eq, Hl. cbn [default app].
    split; [reflexivity |]. split; [| split; [reflexivity |]].
    + intros m Hm. rewrite lookup_insert_ne by congruence. reflexivity.
    + unfold dict_contains. cbn [dict_get]. rewrite key_match_refl. reflexivity.
Qed.

(** X10.  [register] only appends.  Under every name, what was registered
    before the call is still listed first and in the same order; the call
    adds at most one entry, for the dependency given and with a tag of
    that name, and none under a name the dependency had already or that
    no tag of the call carries. *)
Theorem register_only_appends dep (ts : list tag_argument) :
  forall s n,
    exists more,
      tagged (snd (register dep ts s)) n = tagged s n ++ more
      /\ length more <= 1
      /\ Forall (fun entry => fst entry = dep /\ name (snd entry) = n) more
      /\ (registered s n dep = true -> more = [])
      /\ ((forall t, In t ts -> name_of t <> Some n) -> more = []).
Proof.
  induction ts as [| t ts IH]; intros s n.
  - exists []. cbn [register snd]. rewrite app_nil_r. repeat split; auto.
  - destruct (as_Tag t) as [tg | e |] eqn:Ht.
    + destruct (registered s (name tg) dep) eqn:Hreg.
      * rewrite (TagFacts.register_duplicate _ _ _ _ _ (as_Tag_ok _ _ Ht) Hreg).
        exists []. cbn [snd]. rewrite app_nil_r. repeat split; auto.
      * destruct (register_step dep t ts s tg Ht Hreg)
          as (s1 & -> & Hadd & Hothers & _ & Hnow).
        destruct (IH s1 n) as (more & Heq & Hlen & Hall & Hhad & Hnone).
        destruct (decide (n = name tg)) as [-> | Hn].
        -- rewrite (Hhad Hnow), app_nil_r in Heq.
           exists [(dep, tg)]. rewrite Heq, Hadd.
           split; [reflexivity |]. split; [simpl; lia |].
           split; [repeat constructor |]. split; [congruence |].
           intros Hno. destruct (Hno t (or_introl eq_refl) (as_Tag_ok _ _ Ht)).
        -- assert (tagged s1 n = tagged s n) as Hsame.
           { unfold tagged. rewrite (Hothers n Hn). reflexivity. }
           assert (registered s1 n dep = registered s n dep) as Hsame'.
           { unfold registered. rewrite (Hothers n Hn). reflexivity. }
           exists more. rewrite Heq, Hsame.
           split; [reflexivity |]. split; [exact Hlen |]. split; [exact Hall |].
           split; [rewrite <- Hsame'; exact Hhad |].
           intros Hno. apply Hnone. intros t' Hin. apply Hno. right. exact Hin.
    + exists []. cbn [register]. rewrite Ht. cbn [snd]. rewrite app_nil_r.
      repeat split; auto.
    + destruct (as_Tag_returns _ Ht).
Qed.

(** ** What the dict of the provider always looks like *)

Lemma py_in_app_single (a b : pyobj) (l : list pyobj) :
  py_in a (l ++ [b]) = py_in a l || key_match b a.
Proof.
  induction l as [| x l IH]; simpl.
  - rewrite orb_false_r. reflexivity.
  - rewrite IH, orb_assoc. reflexivity.
Qed.

Lemma distinct_app_single {V} (inner : pydict V) (dep : pyobj) :
  Inputs.distinct (map fst inner) = true ->
  dict_contains inner dep = false ->
  Inputs.distinct (map fst inner ++ [dep]) = true.
Proof.
  unfold dict_contains. induction inner as [| [a b] inner IH]; simpl; [reflexivity |].
  intros Hd Hc. apply andb_true_iff in Hd as [Ha Hd].
  destruct (key_match a dep) eqn:Hm; [discriminate |].
  rewrite (IH Hd Hc), andb_true_r, py_in_app_single.
  apply negb_true_iff in Ha. rewrite Ha. cbn [orb].
  rewrite key_match_sym, Hm. reflexivity.
Qed.

Lemma well_formed_init (cs : list TaggedDependencies) : well_formed (mkStore ∅ cs).
Proof. intros n inner Hl. cbn in Hl. rewrite lookup_empty in Hl. discriminate. Qed.

Lemma register_well_formed dep (ts : list tag_argument) :
  forall s, well_formed s -> well_formed (snd (register dep ts s)).
Proof.
  induction ts as [| t ts IH]; intros s Hwf; [exact Hwf |].
  destruct (as_Tag t) as [tg | e |] eqn:Ht.
  - destruct (registered s (name tg) dep) eqn:Hreg.
    + rewrite (TagFacts.register_duplicate _ _ _ _ _ (as_Tag_ok _ _ Ht) Hreg).
      exact Hwf.
    + destruct (register_step dep t ts s tg Ht Hreg)
        as (s1 & -> & _ & Hothers & Hthis & _).
      apply IH. intros m inner Hl. destruct (decide (m = name tg)) as [-> | Hm].
      * rewrite Hthis in Hl. injection Hl as <-.
        split; [intros Hnil; apply app_eq_nil in Hnil as [_ Hnil]; discriminate |].
        unfold tagged, registered in *.
        destruct (_dependency_to_tag_by_tag_name s !! name tg) as [old |] eqn:Hold;
          cbn [default].
        -- destruct (Hwf _ _ Hold) as (_ & Hnames & Hdist).
           split.
           ++ apply Forall_app. split; [exact Hnames |]. repeat constructor.
           ++ rewrite map_app. apply distinct_app_single; assumption.
        -- split; [repeat constructor | reflexivity].
      * rewrite (Hothers m Hm) in Hl. exact (Hwf _ _ Hl).
  - cbn [register]. rewrite Ht. exact Hwf.
  - destruct (as_Tag_returns _ Ht).
Qed.

Lemma provide_registry (r : request) s :
  _dependency_to_tag_by_tag_name (snd (provide r s))
  = _dependency_to_tag_by_tag_name s.
Proof. destruct r; reflexivity. Qed.

Lemma after_well_formed (calls : list call) :
  forall s, well_formed s -> well_formed (after calls s).
Proof.
  induction calls as [| c calls IH]; intros s Hwf; [exact Hwf |].
  unfold after in *. cbn [fold_left]. apply IH. destruct c as [dep ts | r].
  - apply register_well_formed, Hwf.
  - intros n inner Hl. rewrite provide_registry in Hl. exact (Hwf _ _ Hl).
Qed.

(** X11.  Whatever calls of [register] and [provide] were made on a new
    provider, and whichever of them raised, the collection provided next
    for a name is consistent: its [len()] is the number of its
    dependencies, every tag in it carries the name asked for, and no
    dependency is listed twice. *)
Theorem provided_collection_is_consistent (calls : list call) n :
  let s := after calls TagProvider_init in
  exists collection,
    collections (snd (provide (Tagged n) s)) !! length (collections s)
    = Some collection
    /\ __len__ collection = length (dependencies collection)
    /\ Forall (fun tg => name tg = n) (tags collection)
    /\ Inputs.distinct (dependencies collection) = true.
Proof.
  intros s.
  assert (well_formed s) as Hwf by apply after_well_formed, well_formed_init.
  destruct (TagFacts.provide_tagged n s) as (collection & Hp & Hd & Ht & _).
  exists collection. rewrite Hp. cbn [snd collections].
  split; [rewrite lookup_app_r, Nat.sub_diag by lia; reflexivity |].
  unfold __len__. change (_tags collection) with (tags collection).
  rewrite Hd, Ht, !length_map. split; [reflexivity |].
  unfold tagged. destruct (_dependency_to_tag_by_tag_name s !! n) as [inner |] eqn:Hl;
    cbn [default].
  - destruct (Hwf _ _ Hl) as (_ & Hnames & Hdist). split; [| exact Hdist].
    apply Forall_map. eapply Forall_impl; [exact Hnames |]. auto.
  - split; [constructor | reflexivity].
Qed.

(** X12.  [provide] reads the dict of the provider and does not write to
    it: a request leaves everything registered as it was, and the
    collections built before are not touched, so that two requests for
    the same name made in a row give two objects that list the same. *)
Theorem provide_leaves_the_provider (r : request) s :
  _dependency_to_tag_by_tag_name (snd (provide r s))
  = _dependency_to_tag_by_tag_name s
  /\ (forall a c, collections s !! a = Some c ->
                  collections (snd (provide r s)) !! a = Some c)
  /\ (forall n,
        let '(i1, s1) := provide (Tagged n) s in
        let '(i2, s2) := provide (Tagged n) s1 in
        exists a1 a2 c,
          i1 = Some (mkDependencyInstance (PyObject a1) false)
          /\ i2 = Some (mkDependencyInstance (PyObject a2) false)
          /\ a1 <> a2
          /\ collections s2 !! a1 = Some c
          /\ collections s2 !! a2 = Some c).
Proof.
  split; [apply provide_registry |]. split.
  - intros a c Hc. destruct r; [| exact Hc]. cbn [provide snd collections].
    apply lookup_app_l_Some. exact Hc.
  - intros n. cbn [provide]. 
    eexists _, _, _. split; [reflexivity |]. split; [reflexivity |].
    cbn [collections _dependency_to_tag_by_tag_name].
    split; [| split].
    + rewrite length_app. simpl. lia.
    + rewrite lookup_app_l by (rewrite length_app; simpl; lia).
      rewrite lookup_app_r, Nat.sub_diag by lia. reflexivity.
    + rewrite lookup_app_r, Nat.sub_diag by lia. reflexivity.
Qed.
End Registry.
End TagMoreFacts.

(** * Iterating over the instances of a collection *)

Module TagIterFacts.
Import TagProv TagIter.

Section Iteration.
Context {CS : Type}.
Variable container_provide : pyobj -> CS -> outcome (option pyobj) * CS.

#[local] Abbreviation next := (next container_provide).
#[local] Abbreviation consume := (consume container_provide).
#[local] Abbreviation provide_each := (provide_each container_provide).
#[local] Abbreviation while_loop := (while_loop container_provide).

Implicit Types (self : TaggedDependencies) (g : generator) (c : CS).

Lemma with_instances_nil self : with_instances self [] = self.
Proof. destruct self. unfold with_instances. simpl. rewrite app_nil_r. reflexivity. Qed.

Lemma with_instances_cons self v vs :
  with_instances (append_instance self v) vs = with_instances self (v :: vs).
Proof. unfold with_instances, append_instance. simpl. rewrite <- app_assoc. reflexivity. Qed.

Lemma append_consistent self v :
  consistent self ->
  length (_instances self) < length (_tags self) ->
  consistent (append_instance self v).
Proof.
  intros [Hd Hi] Hlt. split; simpl; [exact Hd |]. rewrite length_app. simpl. lia.
Qed.

(** A cached instance is yielded as it is. *)
Lemma next_cached g self c v :
  consistent self ->
  g <> Finished ->
  _instances self !! pending g = Some v ->
  exists g', next g self c = (Ok (Some v), g', self, c)
             /\ pending g' = S (pending g) /\ g' <> Finished.
Proof.
  intros [Hd Hi] Hg Hv. destruct g as [index | i |]; [| | contradiction]; simpl in *.
  - rewrite Hv. eexists. split; [reflexivity |]. split; [reflexivity | discriminate].
  - unfold TagIter.while_loop. apply lookup_lt_Some in Hv as Hlt.
    unfold __len__. destruct (Nat.ltb_spec (S i) (length (_tags self))); [| lia].
    rewrite Hv. eexists. split; [reflexivity |]. split; [reflexivity | discriminate].
Qed.

(** At the end of what is cached, the loop of line 66 is run with [i]
    the number of instances. *)
Lemma next_at_end g self c :
  g <> Finished ->
  pending g = length (_instances self) ->
  next g self c = while_loop (length (_instances self)) self c.
Proof.
  intros Hg Hp. destruct g as [index | i |]; [| | contradiction]; simpl in *.
  - subst index. rewrite lookup_ge_None_2 by lia. reflexivity.
  - rewrite Hp. reflexivity.
Qed.

Lemma while_loop_at_end self c :
  consistent self ->
  while_loop (length (_instances self)) self c
  = match _dependencies self !! length (_instances self) with
    | Some dependency =>
        match container_provide dependency c with
        | (Ok (Some instance), c') =>
            (Ok (Some instance), InWhile (length (_instances self)),
             append_instance self instance, c')
        | (Ok None, c') =>
            (Err (DependencyNotFoundError dependency), Finished, self, c')
        | (Err e, c') => (Err e, Finished, self, c')
        | (OutOfFuel, c') => (OutOfFuel, Finished, self, c')
        end
    | None => (Ok None, Finished, self, c)
    end.
Proof.
  intros [Hd Hi]. unfold TagIter.while_loop, __len__.
  destruct (Nat.ltb_spec (length (_instances self)) (length (_tags self))) as [Hlt | Hge].
  - rewrite (lookup_ge_None_2 (_instances self)) by lia. rewrite Nat.eqb_refl.
    destruct (lookup_lt_is_Some_2 (_dependencies self) (length (_instances self)))
      as [d Hdep]; [lia |].
    rewrite Hdep. destruct (container_provide d c) as [[[v |] | e |] c']; try reflexivity.
    simpl. rewrite lookup_app_r, Nat.sub_diag by lia. reflexivity.
  - rewrite (lookup_ge_None_2 (_dependencies self)) by lia. reflexivity.
Qed.

Lemma provide_each_length (ds : list pyobj) :
  forall c vs u c', provide_each ds c = (vs, Ok u, c') -> length vs = length ds.
Proof.
  induction ds as [| d ds IH]; intros c vs u c'; simpl.
  - intros [= <- _ _]. reflexivity.
  - destruct (container_provide d c) as [[[v |] | e |] c1]; try discriminate.
    destruct (provide_each ds c1) as [[vs1 r1] c2] eqn:Hrest.
    intros [= <- -> <-]. simpl. rewrite (IH _ _ _ _ Hrest). reflexivity.
Qed.

(** [m] calls of [next()] on a generator that is not ahead of the cache:
    the dependencies needed for them are provided in order, and what is
    yielded is read in the list the collection keeps. *)
Lemma consume_spec (m : nat) :
  forall g self c,
    consistent self ->
    g <> Finished ->
    pending g <= length (_instances self) ->
    let j := pending g in
    let k := length (_instances self) in
    match provide_each (take (j + m - k) (drop k (_dependencies self))) c with
    | (vs, r, c') =>
        let all := _instances self ++ vs in
        match r with
        | Ok _ =>
            if (j + m <=? __len__ self)%nat
            then exists g',
                consume m g self c
                = (take m (drop j all), Suspended g', with_instances self vs, c')
                /\ pending g' = j + m /\ g' <> Finished
            else consume m g self c
                 = (drop j all, Exhausted, with_instances self vs, c')
        | Err e =>
            consume m g self c = (drop j all, Failed e, with_instances self vs, c')
        | OutOfFuel =>
            consume m g self c = (drop j all, Diverged, with_instances self vs, c')
        end
    end.
Proof.
  induction m as [| m IH]; intros g self c Hc Hg Hp; cbn zeta.
  - replace (pending g + 0 - length (_instances self)) with 0 by lia.
    cbn [take provide_each]. destruct Hc as [Hd Hi]. unfold __len__.
    destruct (Nat.leb_spec (pending g + 0) (length (_tags self))); [| lia].
    exists g. rewrite with_instances_nil. cbn [consume take].
    split; [reflexivity |]. split; [lia | exact Hg].
  - destruct (decide (pending g < length (_instances self))) as [Hlt | Hge].
    + destruct (lookup_lt_is_Some_2 _ _ Hlt) as [v Hv].
      destruct (next_cached g self c v Hc Hg Hv) as (g1 & Hnext & Hp1 & Hg1).
      specialize (IH g1 self c Hc Hg1 ltac:(lia)). cbn zeta in IH.
      rewrite Hp1 in IH.
      replace (S (pending g) + m - length (_instances self))
        with (pending g + S m - length (_instances self)) in IH by lia.
      replace (S (pending g) + m) with (pending g + S m) in IH by lia.
      destruct (provide_each _ c) as [[vs r] c'].
      assert (forall rest e s' c'',
                 consume m g1 self c = (rest, e, s', c'') ->
                 consume (S m) g self c = (v :: rest, e, s', c'')) as Hstep.
      { intros rest e s' c'' Hrest. cbn [consume]. rewrite Hnext, Hrest. reflexivity. }
      assert (drop (pending g) (_instances self ++ vs)
              = v :: drop (S (pending g)) (_instances self ++ vs)) as Hdrop.
      { apply drop_S. rewrite lookup_app_l by lia. exact Hv. }
      rewrite Hdrop. cbn [take].
      destruct r as [u | e |].
      * destruct (pending g + S m <=? __len__ self)%nat.
        -- destruct IH as (g' & Hrest & Hp' & Hg'). exists g'.
           split; [apply Hstep, Hrest |]. split; assumption.
        -- apply Hstep, IH.
      * apply Hstep, IH.
      * apply Hstep, IH.
    + assert (pending g = length (_instances self)) as Heq by lia.
      rewrite Heq.
      replace (length (_instances self) + S m - length (_instances self))
        with (S m) by lia.
      assert (forall all, drop (length (_instances self)) (_instances self ++ all) = all)
        as Hdropall.
      { intros all. rewrite drop_app_length. reflexivity. }
      pose proof (next_at_end g self c Hg Heq) as Hnext.
      rewrite (while_loop_at_end self c Hc) in Hnext.
      destruct (_dependencies self !! length (_instances self)) as [d |] eqn:Hdep.
      * rewrite (drop_S _ _ _ Hdep). cbn [take provide_each].
        apply lookup_lt_Some in Hdep as Hlen.
        destruct (container_provide d c) as [[[v |] | e |] c1] eqn:Hprov.
        -- assert (consistent (append_instance self v)) as Hc1.
           { apply append_consistent; [exact Hc |]. destruct Hc. lia. }
           specialize (IH (InWhile (length (_instances self)))
                          (append_instance self v) c1 Hc1 ltac:(discriminate)).
           cbn [pending append_instance _instances _dependencies] in IH.
           rewrite length_app in IH. cbn [length] in IH.
           specialize (IH ltac:(lia)). cbn zeta in IH.
           replace (S (length (_instances self)) + m - (length (_instances self) + 1))
             with m in IH by lia.
           replace (length (_instances self) + 1) with (S (length (_instances self)))
             in IH by lia.
           destruct (provide_each (take m (drop (S (length (_instances self)))
                                             (_dependencies self))) c1)
             as [[vs r] c'].
           change (__len__ (append_instance self v)) with (__len__ self) in IH.
           fold (append_instance self v) in IH.
           rewrite with_instances_cons in IH.
           rewrite <- app_assoc in IH. cbn [app] in IH.
           rewrite Hdropall.
           assert (drop (S (length (_instances self))) (_instances self ++ v :: vs) = vs)
             as Hdrop1.
           { change (v :: vs) with ([v] ++ vs). rewrite app_assoc.
             replace (S (length (_instances self))) with (length (_instances self ++ [v]))
               by (rewrite length_app; simpl; lia).
             apply drop_app_length. }
           rewrite Hdrop1 in IH.
           assert (forall rest e s' c'',
                      consume m (InWhile (length (_instances self)))
                              (append_instance self v) c1 = (rest, e, s', c'') ->
                      consume (S m) g self c = (v :: rest, e, s', c'')) as Hstep.
           { intros rest e s' c'' Hrest. cbn [consume]. rewrite Hnext, Hrest.
             reflexivity. }
           replace (S (length (_instances self)) + m)
             with (length (_instances self) + S m) in IH by lia.
           destruct r as [u | e |].
           ++ destruct (length (_instances self) + S m <=? __len__ self)%nat.
              ** destruct IH as (g' & Hrest & Hp' & Hg'). exists g'.
                 split; [apply Hstep, Hrest |]. split; assumption.
              ** apply Hstep, IH.
           ++ apply Hstep, IH.
           ++ apply Hstep, IH.
        -- rewrite Hdropall, with_instances_nil. cbn [consume]. rewrite Hnext.
           reflexivity.
        -- rewrite Hdropall, with_instances_nil. cbn [consume]. rewrite Hnext.
           reflexivity.
        -- rewrite Hdropall, with_instances_nil. cbn [consume]. rewrite Hnext.
           reflexivity.
      * apply lookup_ge_None in Hdep. rewrite drop_ge by lia.
        cbn [take provide_each].
        destruct Hc as [Hd Hi]. unfold __len__.
        destruct (Nat.leb_spec (length (_instances self) + S m) (length (_tags self)));
          [lia |].
        rewrite Hdropall, with_instances_nil. cbn [consume]. rewrite Hnext.
        reflexivity.
Qed.

(** A [for] loop over the generator. *)
Lemma consume_all self c n :
  consistent self ->
  __len__ self < n ->
  match provide_each (drop (length (_instances self)) (_dependencies self)) c with
  | (vs, r, c') =>
      consume n instances self c
      = (_instances self ++ vs,
         match r with Ok _ => Exhausted | Err e => Failed e | OutOfFuel => Diverged end,
         with_instances self vs, c')
  end.
Proof.
  intros Hc Hn.
  pose proof (consume_spec n instances self c Hc ltac:(discriminate) ltac:(simpl; lia))
    as Hspec.
  change (pending instances) with 0 in Hspec. cbn zeta in Hspec.
  cbn [Nat.add] in Hspec. destruct Hc as [Hd Hi].
  unfold __len__ in *.
  rewrite take_ge in Hspec by (rewrite length_drop; lia).
  destruct (provide_each _ c) as [[vs r] c']. rewrite drop_0 in Hspec.
  destruct r as [u | e |]; try exact Hspec.
  destruct (Nat.leb_spec n (length (_tags self))); [lia | exact Hspec].
Qed.

(** The first [m] instances. *)
Lemma consume_some self c m :
  consistent self ->
  m <= __len__ self ->
  forall vs u c',
    provide_each (take (m - length (_instances self))
                       (drop (length (_instances self)) (_dependencies self))) c
    = (vs, Ok u, c') ->
    exists g',
      consume m instances self c
      = (take m (_instances self ++ vs), Suspended g', with_instances self vs, c')
      /\ pending g' = m /\ g' <> Finished
      /\ length (_instances self ++ vs) = length (_instances self) `max` m.
Proof.
  intros Hc Hm vs u c' Hprov.
  pose proof (consume_spec m instances self c Hc ltac:(discriminate) ltac:(simpl; lia))
    as Hspec.
  change (pending instances) with 0 in Hspec. cbn zeta in Hspec.
  cbn [Nat.add] in Hspec.
  rewrite Hprov in Hspec.
  destruct (Nat.leb_spec m (__len__ self)); [| lia].
  destruct Hspec as (g' & Hrun & Hp & Hg). rewrite drop_0 in Hrun.
  exists g'. split; [exact Hrun |]. split; [exact Hp |]. split; [exact Hg |].
  apply provide_each_length in Hprov. destruct Hc as [Hd Hi]. unfold __len__ in *.
  rewrite length_app, Hprov, length_take, length_drop. lia.
Qed.

(** X13.  A [for] loop over [instances()] yields what the collection has
    built already, then asks the container for each dependency that is
    left, once and in the order of registration, and yields and keeps what
    it gets.  It stops at the first one the container raises for, or has
    not ([DependencyNotFoundError] with that dependency), and keeps what
    was built before.  When every instance is built it yields them and
    asks the container nothing. *)
Theorem iteration_builds_what_is_left self c n :
  consistent self ->
  __len__ self < n ->
  (match provide_each (drop (length (_instances self)) (_dependencies self)) c with
   | (vs, r, c') =>
       consume n instances self c
       = (_instances self ++ vs,
          match r with Ok _ => Exhausted | Err e => Failed e | OutOfFuel => Diverged end,
          with_instances self vs, c')
   end)
  /\ (length (_instances self) = __len__ self ->
      consume n instances self c = (_instances self, Exhausted, self, c)).
Proof.
  intros Hc Hn. split; [exact (consume_all self c n Hc Hn) |].
  intros Hfull. pose proof (consume_all self c n Hc Hn) as Hall.
  destruct Hc as [Hd Hi]. unfold __len__ in *.
  rewrite drop_ge in Hall by lia. cbn [TagIter.provide_each] in Hall.
  rewrite app_nil_r, with_instances_nil in Hall. exact Hall.
Qed.

(** X14.  Instances are built when they are asked for: taking the first
    [m] instances asks the container for the dependencies up to the
    [m]-th that are not built yet, in order, and for no other; when they
    are all built the container is not asked and the collection is left as
    it is. *)
Theorem instances_are_built_on_demand self c m :
  consistent self ->
  m <= __len__ self ->
  (forall vs u c',
     provide_each (take (m - length (_instances self))
                        (drop (length (_instances self)) (_dependencies self))) c
     = (vs, Ok u, c') ->
     exists g',
       consume m instances self c
       = (take m (_instances self ++ vs), Suspended g', with_instances self vs, c')
       /\ length (_instances self ++ vs) = length (_instances self) `max` m)
  /\ (m <= length (_instances self) ->
      exists g',
        consume m instances self c = (take m (_instances self), Suspended g', self, c)).
Proof.
  intros Hc Hm. split.
  - intros vs u c' Hprov.
    destruct (consume_some self c m Hc Hm vs u c' Hprov) as (g' & Hrun & _ & _ & Hlen).
    exists g'. split; assumption.
  - intros Hcached.
    destruct (consume_some self c m Hc Hm [] tt c) as (g' & Hrun & _).
    { replace (m - length (_instances self)) with 0 by lia. reflexivity. }
    exists g'. rewrite app_nil_r, with_instances_nil in Hrun. exact Hrun.
Qed.

(** X15.  The generators of one collection share what is built.  When one
    is left after [m] instances and another one is run to its end, the
    first one goes on with what the other has built: together they yield
    the same list, in the same order, and the container is not asked
    again. *)
Theorem generators_share_the_instances self c m n ys g1 self1 c1 all self2 c2 :
  consistent self ->
  __len__ self < n ->
  consume m instances self c = (ys, Suspended g1, self1, c1) ->
  consume n instances self1 c1 = (all, Exhausted, self2, c2) ->
  consume n g1 self2 c2 = (drop m all, Exhausted, self2, c2)
  /\ ys = take m all
  /\ _instances self2 = all.
Proof.
  intros Hc Hn Hfirst Hsecond.
  pose proof (consume_spec m instances self c Hc ltac:(discriminate) ltac:(simpl; lia))
    as Hspec.
  change (pending instances) with 0 in Hspec. cbn zeta in Hspec.
  cbn [Nat.add] in Hspec.
  destruct (provide_each _ c) as [[vs r] c'] eqn:Hprov.
  destruct r as [u | e |]; [| rewrite Hfirst in Hspec; discriminate
                             | rewrite Hfirst in Hspec; discriminate].
  destruct (Nat.leb_spec m (__len__ self)) as [Hm |];
    [| rewrite Hfirst in Hspec; discriminate].
  destruct Hspec as (g' & Hrun & Hp & Hg). rewrite Hfirst, drop_0 in Hrun.
  injection Hrun as -> <- -> ->.
  apply provide_each_length in Hprov.
  pose proof Hc as [Hd Hi]. unfold __len__ in *.
  rewrite length_take, length_drop in Hprov.
  assert (consistent (with_instances self vs)) as Hc1.
  { split; simpl; [exact Hd |]. rewrite length_app. lia. }
  pose proof (consume_all (with_instances self vs) c' n Hc1 Hn) as Hall.
  destruct (provide_each _ c') as [[vs2 r2] c2'] eqn:Hprov2.
  rewrite Hsecond in Hall.
  destruct r2 as [u2 | e2 |]; try discriminate.
  injection Hall as -> -> ->.
  apply provide_each_length in Hprov2. cbn [with_instances _instances _dependencies] in *.
  rewrite length_drop, length_app in Hprov2.
  set (self2 := with_instances (with_instances self vs) vs2).
  assert (consistent self2) as Hc2.
  { split; simpl; [exact Hd |]. rewrite !length_app. lia. }
  assert (length (_instances self2) = length (_tags self)) as Hfull.
  { simpl. rewrite !length_app. lia. }
  pose proof (consume_spec n g1 self2 c2' Hc2 Hg) as Hlast.
  rewrite Hp, Hfull in Hlast. specialize (Hlast ltac:(lia)). cbn zeta in Hlast.
  rewrite (drop_ge (_dependencies self2)) in Hlast by (simpl; lia).
  rewrite take_nil in Hlast. cbn [TagIter.provide_each] in Hlast.
  change (__len__ self2) with (length (_tags self)) in Hlast.
  destruct (Nat.leb_spec (m + n) (length (_tags self))); [lia |].
  rewrite app_nil_r, with_instances_nil in Hlast.
  split; [exact Hlast |]. split; [| reflexivity].
  symmetry. apply take_app_le. rewrite length_app. lia.
Qed.
End Iteration.
End TagIterFacts.

(** * More on lazy method calls *)

Module LazyMoreFacts.
Import Lazy.

Section Descriptor.
Variable invoke :
  pyobj -> string -> list pyobj -> list (string * pyobj) -> heap -> outcome pyobj * heap.
Implicit Types (h : heap) (self owner : nat).

Lemma attr_get_set_other (d : list (string * pyobj)) (k k' : string) (v : pyobj) :
  k' <> k -> attr_get (attr_set d k v) k' = attr_get d k'.
Proof.
  intros Hne. induction d as [| [a b] d IH]; simpl.
  - destruct (String.eqb_spec k k'); [congruence | reflexivity].
  - destruct (String.eqb_spec a k) as [-> | Hak]; simpl.
    + destruct (String.eqb_spec k k'); [congruence | reflexivity].
    + destruct (String.eqb a k'); [reflexivity | exact IH].
Qed.

Lemma length_append (a b : string) :
  String.length (a ++ b)%string = String.length a + String.length b.
Proof. induction a as [| c a IH]; simpl; [reflexivity | rewrite IH; reflexivity]. Qed.

Lemma suffixed_differs (a : string) : a <> (a ++ "_dependency")%string.
Proof.
  intros Heq. apply (f_equal String.length) in Heq. rewrite length_append in Heq.
  simpl in Heq. lia.
Qed.

(** X16.  The first access through the class that holds a singleton
    lazy method call under the name [a] binds the marker in that class
    under [a_dependency]: the access returns it, the descriptor remembers
    the name, every other attribute of the class keeps its value, [a]
    itself among them, and every other object is left as it is. *)
Theorem marker_is_bound_beside_the_descriptor fuel self owner h mn args kw d tail a :
  h !! self = Some (LazyMethodCall mn args kw true None) ->
  h !! owner = Some (ClassObject d tail) ->
  _get_attribute_name self d = Some a ->
  exists h' d',
    __get__ invoke (S fuel) self None owner h = (Ok (PyObject (length h)), h')
    /\ h' !! owner = Some (ClassObject d' tail)
    /\ attr_get d' (a ++ "_dependency")%string = Some (PyObject (length h))
    /\ (forall k, k <> (a ++ "_dependency")%string -> attr_get d' k = attr_get d k)
    /\ attr_get d' a = attr_get d a
    /\ h' !! self
       = Some (LazyMethodCall mn args kw true (Some (a ++ "_dependency")%string))
    /\ h' !! length h = Some (LazyMethodCallDependency self owner)
    /\ length h' = S (length h)
    /\ forall x, x <> self -> x <> owner -> x < length h -> h' !! x = h !! x.
Proof.
  intros Hself Howner Hname.
  destruct (LazyFacts.get_first invoke fuel _ _ _ _ _ _ _ _ Hself Howner)
    as (Hget & Hs & Ho & Hm).
  rewrite Hname in Hget, Hs, Ho, Hm. cbn [format_dependency] in Hget, Hs, Ho, Hm.
  eexists. eexists. split; [exact Hget |]. split; [exact Ho |].
  split; [apply LazyFacts.attr_get_set_same |].
  split; [intros k Hk; apply attr_get_set_other, Hk |].
  split; [apply attr_get_set_other, suffixed_differs |].
  split; [exact Hs |]. split; [exact Hm |]. split.
  - rewrite length_insert, length_app, length_insert. simpl. lia.
  - intros x Hxs Hxo Hx. rewrite list_lookup_insert_ne by auto.
    rewrite lookup_app_l by (rewrite length_insert; exact Hx).
    rewrite list_lookup_insert_ne by auto. reflexivity.
Qed.


(** X18.  Calling a lazy method call replaces the arguments it holds and
    nothing else: the access through an instance calls the method named
    at construction with the arguments of the last call, the ones of the
    call before being dropped, and the marker an access through the class
    returns is the one bound before. *)
Theorem call_replaces_the_arguments fuel self owner h mn args0 kw0 singleton key
        args1 kw1 args2 kw2 :
  h !! self = Some (LazyMethodCall mn args0 kw0 singleton key) ->
  let h2 := __call__ self args2 kw2 (__call__ self args1 kw1 h) in
  h2 = __call__ self args2 kw2 h
  /\ h2 !! self = Some (LazyMethodCall mn args2 kw2 singleton key)
  /\ (forall x, x <> self -> h2 !! x = h !! x)
  /\ (forall i, __get__ invoke (S fuel) self (Some i) owner h2 = invoke i mn args2 kw2 h2)
  /\ (forall k m marker_owner,
        singleton = true ->
        key = Some k ->
        find_in_mro h (mro h owner) k = Some (PyObject m) ->
        h !! m = Some (LazyMethodCallDependency self marker_owner) ->
        __get__ invoke (S fuel) self None owner h = (Ok (PyObject m), h)
        /\ __get__ invoke (S fuel) self None owner h2 = (Ok (PyObject m), h2)).
Proof.
  intros Hself h2.
  assert (self < length h) as Hlt by (eapply lookup_lt_Some; eassumption).
  assert (__call__ self args1 kw1 h
          = <[self := LazyMethodCall mn args1 kw1 singleton key]> h) as H1.
  { unfold __call__. rewrite Hself. reflexivity. }
  assert (h2 = <[self := LazyMethodCall mn args2 kw2 singleton key]> h) as H2.
  { unfold h2. rewrite H1. unfold __call__ at 1.
    rewrite list_lookup_insert_eq by exact Hlt. apply list_insert_insert_eq. }
  assert (h2 !! self = Some (LazyMethodCall mn args2 kw2 singleton key)) as Hself2.
  { rewrite H2. apply list_lookup_insert_eq, Hlt. }
  assert (forall x, x <> self -> h2 !! x = h !! x) as Hothers.
  { intros x Hx. rewrite H2. apply list_lookup_insert_ne. auto. }
  split; [| split; [exact Hself2 | split; [exact Hothers | split]]].
  - rewrite H2. unfold __call__. rewrite Hself. reflexivity.
  - intros i. cbn [__get__]. rewrite Hself2. reflexivity.
  - intros k m marker_owner -> -> Hfind Hm.
    split; [exact (LazyFacts.get_cached invoke fuel _ _ _ _ _ _ _ _ _ Hself Hfind Hm) |].
    assert (m <> self) as Hms by (intros ->; congruence).
    assert (forall classes, find_in_mro h2 classes k = find_in_mro h classes k) as Hsame.
    { induction classes as [| c classes IH]; [reflexivity |]. cbn [find_in_mro].
      rewrite IH. destruct (decide (c = self)) as [-> | Hc].
      - rewrite Hself2, Hself. reflexivity.
      - rewrite (Hothers c Hc). reflexivity. }
    assert (mro h2 owner = mro h owner) as Hmro.
    { unfold mro. destruct (decide (owner = self)) as [-> | Ho].
      - rewrite Hself2, Hself. reflexivity.
      - rewrite (Hothers owner Ho). reflexivity. }
    eapply LazyFacts.get_cached; [exact Hself2 | | ].
    + rewrite Hmro, Hsame. exact Hfind.
    + rewrite (Hothers m Hms). exact Hm.
Qed.
End Descriptor.
End LazyMoreFacts.

(** * The marker of a class over other accesses *)

Module LazyOrderFacts.
Import Lazy LazyUse.

Section Order.
Variable invoke :
  pyobj -> string -> list pyobj -> list (string * pyobj) -> heap -> outcome pyobj * heap.
Implicit Types (h : heap) (self owner s o m : nat) (d : list (string * pyobj)).

(** ** Names *)

Lemma append_cancel (suffix : string) (c : string) :
  forall a : string, (c ++ suffix)%string = (a ++ suffix)%string -> c = a.
Proof.
  induction c as [| x c IH]; intros [| y a] Heq.
  - reflexivity.
  - apply (f_equal String.length) in Heq.
    rewrite !LazyMoreFacts.length_append in Heq. cbn [String.length] in Heq. lia.
  - apply (f_equal String.length) in Heq.
    rewrite !LazyMoreFacts.length_append in Heq. cbn [String.length] in Heq. lia.
  - cbn [append] in Heq. injection Heq as -> Heq. f_equal. apply IH, Heq.
Qed.

(** A name of the form the markers are given comes from one attribute
    name only, and not from [None] unless the attribute is called so. *)
Lemma format_dependency_same (x : option string) (a : string) :
  a <> "None" ->
  format_dependency x = (a ++ "_dependency")%string -> x = Some a.
Proof.
  intros Ha Heq. destruct x as [c |]; simpl in Heq.
  - f_equal. exact (append_cancel _ _ _ Heq).
  - destruct Ha. symmetry. apply (append_cancel "_dependency"). exact Heq.
Qed.

(** ** The dict of a class *)

Lemma get_attribute_name_in self d (a : string) :
  _get_attribute_name self d = Some a -> In (a, PyObject self) d.
Proof.
  induction d as [| [k v] d IH]; simpl; [discriminate |].
  case_bool_decide as Hv.
  - intros [= ->]. left. rewrite Hv. reflexivity.
  - intros Hrest. right. apply IH, Hrest.
Qed.

Lemma attr_get_in d (k : string) (v : pyobj) :
  List.NoDup (map fst d) -> In (k, v) d -> attr_get d k = Some v.
Proof.
  induction d as [| [k' v'] d IH]; simpl; [intros _ [] |].
  intros Hnd [Hhere | Hin].
  - injection Hhere as -> ->. rewrite String.eqb_refl. reflexivity.
  - apply List.NoDup_cons_iff in Hnd as [Hnot Hnd].
    destruct (String.eqb_spec k' k) as [-> | Hne].
    + destruct Hnot. apply (in_map fst) in Hin. exact Hin.
    + apply IH; assumption.
Qed.

Lemma attr_set_keys d (k x : string) (v : pyobj) :
  In x (map fst (attr_set d k v)) -> x = k \/ In x (map fst d).
Proof.
  induction d as [| [k' v'] d IH]; simpl.
  - intros [<- | []]. left. reflexivity.
  - destruct (String.eqb k' k); simpl.
    + intros [<- | Hin]; auto.
    + intros [<- | Hin]; [auto |]. destruct (IH Hin); auto.
Qed.

Lemma attr_set_NoDup d (k : string) (v : pyobj) :
  List.NoDup (map fst d) -> List.NoDup (map fst (attr_set d k v)).
Proof.
  induction d as [| [k' v'] d IH]; simpl; intros Hnd.
  - constructor; [intros [] | constructor].
  - apply List.NoDup_cons_iff in Hnd as [Hnot Hnd].
    destruct (String.eqb_spec k' k) as [-> | Hne]; simpl.
    + apply List.NoDup_cons_iff. split; assumption.
    + apply List.NoDup_cons_iff. split; [| apply IH, Hnd].
      intros Hin. apply attr_set_keys in Hin as [-> | Hin]; [congruence | auto].
Qed.

(** ** What an operation keeps *)

Section Kept.
Context (self owner : nat) (tail : list nat) (a : string) (m : nat).
Context (Ha : a <> "None").

#[local] Abbreviation bound := (marker_bound self owner tail a m).

(** A marker is added at the end of the heap. *)
Lemma bound_app h (x y : nat) :
  bound h -> bound (h ++ [LazyMethodCallDependency x y]).
Proof.
  intros ((mn & args & kw & Hself) & (d & Howner & Hnd & Hkey & Hname) & Hm).
  split; [| split].
  - exists mn, args, kw. apply lookup_app_l_Some, Hself.
  - exists d. split; [apply lookup_app_l_Some, Howner |].
    split; [exact Hnd |]. split; [exact Hkey |].
    intros i Hi (mn' & args' & kw' & sg' & key' & Hlmc). apply (Hname i Hi).
    destruct (decide (i < length h)) as [Hlt | Hge].
    + rewrite lookup_app_l in Hlmc by exact Hlt. repeat eexists. exact Hlmc.
    + rewrite lookup_app_r in Hlmc by lia.
      destruct (i - length h) as [| n]; simpl in Hlmc; discriminate.
  - apply lookup_app_l_Some, Hm.
Qed.

(** The arguments of a lazy method call are replaced. *)
Lemma bound_call h s (args : list pyobj) (kwargs : list (string * pyobj)) :
  bound h -> bound (__call__ s args kwargs h).
Proof.
  intros Hb. unfold __call__.
  destruct (h !! s) as [[| mn' args' kw' sg' key' | |] |] eqn:Hs; try exact Hb.
  destruct Hb as ((mn & args0 & kw & Hself) & (d & Howner & Hnd & Hkey & Hname) & Hm).
  assert (s <> owner) as Hso by (intros ->; congruence).
  assert (s <> m) as Hsm by (intros ->; congruence).
  assert (s < length h) as Hlt by (eapply lookup_lt_Some; eassumption).
  split; [| split].
  - destruct (decide (s = self)) as [-> | Hne].
    + rewrite Hself in Hs. injection Hs as <- <- <- <- <-.
      exists mn, args, kwargs. apply list_lookup_insert_eq, Hlt.
    + exists mn, args0, kw. rewrite list_lookup_insert_ne by exact Hne. exact Hself.
  - exists d. rewrite list_lookup_insert_ne by exact Hso.
    split; [exact Howner |]. split; [exact Hnd |]. split; [exact Hkey |].
    intros i Hi (mn1 & args1 & kw1 & sg1 & key1 & Hlmc). apply (Hname i Hi).
    destruct (decide (i = s)) as [-> | Hne].
    + repeat eexists. exact Hs.
    + rewrite list_lookup_insert_ne in Hlmc by auto. repeat eexists. exact Hlmc.
  - rewrite list_lookup_insert_ne by exact Hsm. exact Hm.
Qed.

(** Another singleton is given its name and its marker is bound. *)
Lemma bound_bind h s o mn' args' kw' d_o t_o :
  h !! s = Some (LazyMethodCall mn' args' kw' true None) ->
  h !! o = Some (ClassObject d_o t_o) ->
  bound h ->
  let k := format_dependency (_get_attribute_name s d_o) in
  let h1 := <[s := LazyMethodCall mn' args' kw' true (Some k)]> h in
  bound (setattr o k (PyObject (length h1)) (h1 ++ [LazyMethodCallDependency s o])).
Proof.
  intros Hs Ho ((mn & args & kw & Hself) & (d & Howner & Hnd & Hkey & Hname) & Hm) k h1.
  assert (s < length h) as Hls by (eapply lookup_lt_Some; eassumption).
  assert (o < length h) as Hlo by (eapply lookup_lt_Some; eassumption).
  assert (self < length h) as Hlself by (eapply lookup_lt_Some; eassumption).
  assert (owner < length h) as Hlowner by (eapply lookup_lt_Some; eassumption).
  assert (m < length h) as Hlm by (eapply lookup_lt_Some; eassumption).
  assert (length h1 = length h) as Hlen by apply length_insert.
  assert (s <> self) as Hsself by (intros ->; congruence).
  assert (s <> owner) as Hsowner by (intros ->; congruence).
  assert (s <> m) as Hsm by (intros ->; congruence).
  assert (s <> o) as Hso by (intros ->; congruence).
  assert (o <> self) as Hoself by (intros ->; congruence).
  assert (o <> m) as Hom by (intros ->; congruence).
  set (h2 := h1 ++ [LazyMethodCallDependency s o]).
  assert (h2 !! o = Some (ClassObject d_o t_o)) as Ho2.
  { unfold h2. rewrite lookup_app_l by lia. unfold h1.
    rewrite list_lookup_insert_ne by exact Hso. exact Ho. }
  unfold setattr. rewrite Ho2. rewrite Hlen.
  set (h3 := <[o := ClassObject (attr_set d_o k (PyObject (length h))) t_o]> h2).
  assert (forall i, i <> o -> i <> s -> i < length h -> h3 !! i = h !! i) as Hsame.
  { intros i Hio His Hi. unfold h3. rewrite list_lookup_insert_ne by auto.
    unfold h2. rewrite lookup_app_l by lia. unfold h1.
    rewrite list_lookup_insert_ne by auto. reflexivity. }
  assert (forall i, is_LazyMethodCall h3 i -> is_LazyMethodCall h i) as Hkind.
  { intros i (mn1 & args1 & kw1 & sg1 & key1 & Hlmc).
    destruct (decide (i = o)) as [-> | Hio].
    { unfold h3 in Hlmc. rewrite list_lookup_insert_eq in Hlmc
        by (unfold h2; rewrite length_app; simpl; lia). discriminate. }
    destruct (decide (i = s)) as [-> | His]; [repeat eexists; exact Hs |].
    destruct (decide (i < length h)) as [Hi | Hi].
    - rewrite (Hsame i Hio His Hi) in Hlmc. repeat eexists. exact Hlmc.
    - unfold h3 in Hlmc. rewrite list_lookup_insert_ne in Hlmc by auto.
      unfold h2 in Hlmc. rewrite lookup_app_r in Hlmc by lia.
      destruct (i - length h1) as [| n]; simpl in Hlmc; discriminate. }
  assert (h3 !! length h = Some (LazyMethodCallDependency s o)) as Hnew.
  { unfold h3. rewrite list_lookup_insert_ne by lia. unfold h2.
    rewrite lookup_app_r by lia. rewrite Hlen, Nat.sub_diag. reflexivity. }
  split; [| split].
  - exists mn, args, kw. rewrite (Hsame self) by auto. exact Hself.
  - destruct (decide (o = owner)) as [-> | Hne].
    + rewrite Howner in Ho. injection Ho as <- <-.
      exists (attr_set d k (PyObject (length h))).
      split; [unfold h3; apply list_lookup_insert_eq;
              unfold h2; rewrite length_app; simpl; lia |].
      split; [apply attr_set_NoDup, Hnd |].
      assert (k <> (a ++ "_dependency")%string) as Hk.
      { intros Heq. apply (format_dependency_same _ _ Ha) in Heq.
        apply get_attribute_name_in in Heq.
        apply (attr_get_in _ _ _ Hnd) in Heq.
        apply Hsself. apply (Hname s Heq). repeat eexists. exact Hs. }
      split.
      * rewrite LazyMoreFacts.attr_get_set_other by auto. exact Hkey.
      * intros i Hi Hlmc. destruct (decide (a = k)) as [Hak | Hak].
        -- rewrite Hak, LazyFacts.attr_get_set_same in Hi. injection Hi as <-.
           destruct Hlmc as (mn1 & args1 & kw1 & sg1 & key1 & Hlmc).
           rewrite Hnew in Hlmc. discriminate.
        -- rewrite LazyMoreFacts.attr_get_set_other in Hi by exact Hak.
           apply (Hname i Hi), Hkind, Hlmc.
    + exists d. rewrite (Hsame owner) by auto.
      split; [exact Howner |]. split; [exact Hnd |]. split; [exact Hkey |].
      intros i Hi Hlmc. apply (Hname i Hi), Hkind, Hlmc.
  - rewrite (Hsame m) by auto. exact Hm.
Qed.

(** An access through a class keeps the marker bound, whichever lazy
    method call and class it is made with and however it ends. *)
Lemma get_keeps_bound fuel :
  forall s o h, bound h -> bound (snd (__get__ invoke fuel s None o h)).
Proof.
  induction fuel as [| fuel IH]; intros s o h Hb; [exact Hb |].
  cbn [__get__].
  destruct (h !! s) as [[| mn' args' kw' sg' key' | |] |] eqn:Hs; try exact Hb.
  destruct sg'; [| apply bound_app, Hb].
  assert (forall (k : string) h',
             bound h' ->
             bound (snd (match find_in_mro h' (mro h' o) k with
                         | Some (PyObject a0) =>
                             match h' !! a0 with
                             | Some (LazyMethodCall _ _ _ _ _) =>
                                 __get__ invoke fuel a0 None o h'
                             | _ => (Ok (PyObject a0), h')
                             end
                         | Some v => (Ok v, h')
                         | None => (Err (AttributeError k), h')
                         end))) as Hcont.
  { intros k h' Hb'.
    destruct (find_in_mro h' (mro h' o) k) as [[| | | a0 |] |]; try exact Hb'.
    destruct (h' !! a0) as [[| | |] |]; try exact Hb'. apply IH, Hb'. }
  destruct key' as [k |].
  - apply Hcont, Hb.
  - destruct (h !! o) as [[d_o t_o | | |] |] eqn:Ho; try exact Hb.
    apply Hcont. exact (bound_bind h s o mn' args' kw' d_o t_o Hs Ho Hb).
Qed.

Lemma performs_keep_bound fuel (ops : list operation) :
  forall h, bound h -> bound (performs invoke fuel ops h).
Proof.
  unfold performs. induction ops as [| op ops IH]; intros h Hb; [exact Hb |].
  cbn [fold_left]. apply IH. destruct op as [s o | s args kwargs]; cbn [perform].
  - apply get_keeps_bound, Hb.
  - apply bound_call, Hb.
Qed.

(** With the marker bound, the access through the class returns it. *)
Lemma bound_get fuel h :
  bound h -> __get__ invoke (S fuel) self None owner h = (Ok (PyObject m), h).
Proof.
  intros ((mn & args & kw & Hself) & (d & Howner & Hnd & Hkey & Hname) & Hm).
  eapply LazyFacts.get_cached; [exact Hself | | exact Hm].
  exact (LazyFacts.find_in_own_dict _ _ _ _ _ _ Howner Hkey).
Qed.
End Kept.

(** X25.  Through the class that holds a singleton lazy method call in
    its own [__dict__], under a name that is not [None], the first access
    builds the marker, a new object, and binds it in the class.  From
    then on, whatever accesses through classes, to this or to other lazy
    method calls, and whatever calls were made in between, and however
    they ended, the marker is that object still, an access through the
    class returns it and leaves the heap as it is, and so does an access
    through any class that finds the attribute of the marker, as a
    subclass does that has no attribute of that name. *)
Theorem marker_survives_other_accesses fuel self owner h mn args kw d tail (a : string) :
  h !! self = Some (LazyMethodCall mn args kw true None) ->
  h !! owner = Some (ClassObject d tail) ->
  List.NoDup (map fst d) ->
  _get_attribute_name self d = Some a ->
  a <> "None" ->
  exists h1,
    __get__ invoke (S fuel) self None owner h = (Ok (PyObject (length h)), h1)
    /\ h !! length h = None
    /\ forall (ops : list operation) fuel1,
         let h2 := performs invoke fuel1 ops h1 in
         h2 !! length h = Some (LazyMethodCallDependency self owner)
         /\ (forall fuel2,
               __get__ invoke (S fuel2) self None owner h2 = (Ok (PyObject (length h)), h2))
         /\ (forall owner' fuel2,
               find_in_mro h2 (mro h2 owner') (a ++ "_dependency")
               = Some (PyObject (length h)) ->
               __get__ invoke (S fuel2) self None owner' h2
               = (Ok (PyObject (length h)), h2)).
Proof.
  intros Hself Howner Hnd Hname Ha.
  destruct (LazyFacts.get_first invoke fuel _ _ _ _ _ _ _ _ Hself Howner)
    as (Hget & Hs & Ho & Hm).
  rewrite Hname in Hget, Hs, Ho, Hm. cbn [format_dependency] in Hget, Hs, Ho, Hm.
  eexists. split; [exact Hget |]. split; [apply lookup_ge_None_2; lia |].
  intros ops fuel1 h2.
  assert (marker_bound self owner tail a (length h) h2) as Hb.
  { apply performs_keep_bound; [exact Ha |].
    split; [| split].
    - exists mn, args, kw. exact Hs.
    - eexists. split; [exact Ho |]. split; [apply attr_set_NoDup, Hnd |].
      split; [apply LazyFacts.attr_get_set_same |].
      intros i Hi _.
      rewrite LazyMoreFacts.attr_get_set_other in Hi
        by apply LazyMoreFacts.suffixed_differs.
      rewrite (attr_get_in _ _ _ Hnd (get_attribute_name_in _ _ _ Hname)) in Hi.
      injection Hi as <-. reflexivity.
    - exact Hm. }
  split; [exact (proj2 (proj2 Hb)) |]. split.
  - intros fuel2. apply (bound_get self owner tail a). exact Hb.
  - intros owner' fuel2 Hfind.
    destruct Hb as ((mn' & args' & kw' & Hself2) & _ & Hm2).
    eapply LazyFacts.get_cached; [exact Hself2 | exact Hfind | exact Hm2].
Qed.

(** X26.  An access through a class to a lazy method call that is not a
    singleton builds a marker each time: the reference returned is one
    the heap did not hold, it points to a marker for this lazy method
    call and this class, no two accesses return the same, and the
    objects the heap held are as they were. *)
Theorem plain_access_builds_a_new_marker fuel self owner h mn args kw key :
  h !! self = Some (LazyMethodCall mn args kw false key) ->
  forall n,
    let '(rs, h') := accesses invoke (S fuel) n self owner h in
    rs = map (fun i => Ok (PyObject (length h + i))) (seq 0 n)
    /\ List.NoDup rs
    /\ length h' = length h + n
    /\ (forall i, i < length h -> h' !! i = h !! i)
    /\ (forall i, i < n ->
                  h !! (length h + i) = None
                  /\ h' !! (length h + i) = Some (LazyMethodCallDependency self owner)).
Proof.
  intros Hself n. rewrite (LazyFacts.accesses_fresh invoke fuel _ _ _ _ _ _ n h Hself).
  split; [reflexivity |]. split; [| split; [| split]].
  - apply Finite.Injective_map_NoDup; [| apply List.seq_NoDup].
    intros x y [= Hxy]. lia.
  - rewrite length_app, repeat_length. reflexivity.
  - intros i Hi. apply lookup_app_l. exact Hi.
  - intros i Hi. split; [apply lookup_ge_None_2; lia |].
    rewrite lookup_app_r by lia.
    replace (length h + i - length h) with i by lia.
    clear -Hi. revert i Hi. induction n as [| n IH]; intros i Hi; [lia |].
    destruct i as [| i]; [reflexivity |]. cbn [repeat]. apply IH. lia.
Qed.
End Order.
End LazyOrderFacts.

(** * More on the proxy container *)

Module ProxyMoreFacts.
Import Proxy ProxyUse.

Section Delegation.
Context `{Hashing} {C : Type}.
Variable super_getitem : pyobj -> C -> outcome pyobj * C.

Lemma getitem_missing (d : pyobj) (self : ProxyContainer (C:=C)) :
  _missing (snd (__getitem__ super_getitem d self)) = _missing self.
Proof.
  unfold __getitem__. destruct (py_in d (_missing self)); [reflexivity |].
  destruct (super_getitem d (base self)). reflexivity.
Qed.

Lemma lookups_missing (ds : list pyobj) :
  forall self : ProxyContainer (C:=C),
    _missing (lookups super_getitem ds self) = _missing self.
Proof.
  induction ds as [| d ds IH]; intros self; [reflexivity |].
  unfold lookups in *. cbn [fold_left]. rewrite IH. apply getitem_missing.
Qed.

(** X19.  No lookup changes the missing set of a proxy.  After any
    lookups an id of the set is still refused, without the inherited
    lookup being made, and so is the id wrapped in a [Dependency]; an id
    outside the set is answered by the inherited lookup, on the container
    part of the proxy. *)
Theorem lookups_keep_the_missing_set (ds : list pyobj) (self : ProxyContainer (C:=C))
        (d : pyobj) :
  let self' := lookups super_getitem ds self in
  _missing self' = _missing self
  /\ (py_in d (_missing self) = true ->
      __getitem__ super_getitem d self' = (Err (DependencyNotFoundError d), self'))
  /\ (py_in d (_missing self) = false ->
      __getitem__ super_getitem d self'
      = (fst (super_getitem d (base self')),
         mkProxyContainer (snd (super_getitem d (base self'))) (_missing self)))
  /\ (isinstance_Dependency d = false ->
      py_in (PyDependency d) (_missing self) = py_in d (_missing self)).
Proof.
  intros self'. pose proof (lookups_missing ds self) as Hm. fold self' in Hm.
  split; [exact Hm |]. split; [| split].
  - intros Hin. unfold __getitem__. rewrite Hm, Hin. reflexivity.
  - intros Hout. unfold __getitem__. rewrite Hm, Hout.
    destruct (super_getitem d (base self')). reflexivity.
  - intros Hbare. clear Hm. unfold py_in.
    generalize (_missing self). intros l. induction l as [| s l IH]; [reflexivity |].
    cbn [existsb]. rewrite IH, (key_match_wrapped d Hbare). reflexivity.
Qed.
End Delegation.
End ProxyMoreFacts.

(** * The injector *)

Module InjectorFacts.
Import Injector.

Section Injection.
Context {CS : Type}.
Variable container_getitem : pyobj -> CS -> outcome pyobj * CS.

#[local] Abbreviation inject_each := (inject_each container_getitem).
#[local] Abbreviation _generate_args_kwargs := (_generate_args_kwargs container_getitem).

Implicit Types (e : entry) (kw : gmap string pyobj) (c : CS).

(** The loop over a list of entries is the loop over its parts, one after
    the other. *)
Lemma inject_each_app (pre post : list entry) :
  forall kw c,
    inject_each (pre ++ post) kw c
    = match inject_each pre kw c with
      | (Ok kw1, c1) => inject_each post kw1 c1
      | (Err err, c1) => (Err err, c1)
      | (OutOfFuel, c1) => (OutOfFuel, c1)
      end.
Proof.
  induction pre as [| e pre IH]; intros kw c; [reflexivity |].
  cbn [app Injector.inject_each].
  destruct (dependency_id e) as [d |]; [| apply IH].
  destruct (kw !! arg_name e); [apply IH |].
  destruct (container_getitem d c) as [[v | err |] c1]; [apply IH | | reflexivity].
  destruct err; try reflexivity. destruct (has_default e); [apply IH | reflexivity].
Qed.

Lemma inject_each_ok (entries : list entry) :
  forall kw c kw' c',
    inject_each entries kw c = (Ok kw', c') ->
    (forall n v, kw !! n = Some v -> kw' !! n = Some v)
    /\ (forall n, kw !! n = None -> is_Some (kw' !! n) ->
                  exists e, e ∈ entries /\ arg_name e = n /\ is_Some (dependency_id e))
    /\ (forall e, e ∈ entries -> is_Some (dependency_id e) -> has_default e = false ->
                  is_Some (kw' !! arg_name e)).
Proof.
  induction entries as [| e rest IH]; intros kw c kw' c' Hrun.
  - injection Hrun as <- <-. split; [auto |]. split.
    + intros n Hn [v Hv]. congruence.
    + intros e He. apply elem_of_nil in He. destruct He.
  - cbn [Injector.inject_each] in Hrun.
    assert (forall kw0 c0,
               inject_each rest kw0 c0 = (Ok kw', c') ->
               (forall n v, kw !! n = Some v -> kw0 !! n = Some v) ->
               (forall n, kw !! n = None -> is_Some (kw0 !! n) ->
                          n = arg_name e /\ is_Some (dependency_id e)) ->
               (is_Some (dependency_id e) -> has_default e = false ->
                is_Some (kw0 !! arg_name e)) ->
               (forall n v, kw !! n = Some v -> kw' !! n = Some v)
               /\ (forall n, kw !! n = None -> is_Some (kw' !! n) ->
                             exists e', e' ∈ e :: rest /\ arg_name e' = n
                                        /\ is_Some (dependency_id e'))
               /\ (forall e', e' ∈ e :: rest -> is_Some (dependency_id e') ->
                              has_default e' = false -> is_Some (kw' !! arg_name e')))
      as Hstep.
    { intros kw0 c0 Hrest Hkeep0 Hnew0 Hreq0.
      destruct (IH _ _ _ _ Hrest) as (Hkeep & Hnew & Hreq). split; [| split].
      - intros n v Hn. apply Hkeep, Hkeep0, Hn.
      - intros n Hn Hs. destruct (kw0 !! n) as [v0 |] eqn:Hk0.
        + destruct (Hnew0 n Hn) as [-> Hdep]; [rewrite Hk0; eauto |].
          exists e. split; [apply elem_of_cons; left; reflexivity |]. auto.
        + destruct (Hnew n Hk0 Hs) as (e' & He' & Hname & Hdep).
          exists e'. split; [apply elem_of_cons; right; exact He' |]. auto.
      - intros e' He' Hdep Hdef. apply elem_of_cons in He' as [-> | He'].
        + destruct (Hreq0 Hdep Hdef) as [v Hv]. exists v. apply Hkeep, Hv.
        + apply Hreq; assumption. }
    destruct (dependency_id e) as [d |] eqn:Hd.
    + destruct (kw !! arg_name e) as [v0 |] eqn:Hk.
      * apply (Hstep _ _ Hrun); [auto | |].
        -- intros n Hn [v Hv]. congruence.
        -- intros _ _. rewrite Hk. eauto.
      * destruct (container_getitem d c) as [[v | err |] c1] eqn:Hget;
          [| | discriminate].
        -- apply (Hstep _ _ Hrun).
           ++ intros n v' Hn. rewrite lookup_insert_ne; [exact Hn |].
              intros <-. congruence.
           ++ intros n Hn Hs. destruct (decide (n = arg_name e)) as [-> | Hne];
                [eauto |].
              rewrite lookup_insert_ne in Hs by congruence.
              destruct Hs as [v' Hv']. congruence.
           ++ intros _ _. rewrite lookup_insert_eq. eauto.
        -- destruct err; try discriminate.
           destruct (has_default e) eqn:Hhd; [| discriminate].
           apply (Hstep _ _ Hrun); [auto | |].
           ++ intros n Hn [v Hv]. congruence.
           ++ intros _ Hdef. discriminate.
    + apply (Hstep _ _ Hrun); [auto | |].
      * intros n Hn [v Hv]. congruence.
      * intros [x Hx]. discriminate.
Qed.

(** X20.  What is given explicitly is never replaced by an injection.
    When [_generate_args_kwargs] returns, the positional arguments are
    the ones given and every keyword argument given is there with its
    value; a keyword argument is added only for a parameter that comes
    after the positional ones and has a dependency id; and every such
    parameter without a default has got its argument. *)
Theorem explicit_arguments_are_kept (args : list pyobj) kw (blueprint : list entry)
        c args' kw' c' :
  _generate_args_kwargs args kw blueprint c = (Ok (args', kw'), c') ->
  args' = args
  /\ (forall n v, kw !! n = Some v -> kw' !! n = Some v)
  /\ (forall n, kw !! n = None -> is_Some (kw' !! n) ->
                exists e, e ∈ drop (length args) blueprint
                          /\ arg_name e = n /\ is_Some (dependency_id e))
  /\ (forall e, e ∈ drop (length args) blueprint ->
                is_Some (dependency_id e) -> has_default e = false ->
                is_Some (kw' !! arg_name e)).
Proof.
  unfold Injector._generate_args_kwargs.
  destruct (inject_each (drop (length args) blueprint) kw c) as [[kw1 | err |] c1] eqn:Hrun;
    try discriminate.
  intros [= <- <- <-]. split; [reflexivity |]. exact (inject_each_ok _ _ _ _ _ Hrun).
Qed.

(** X21.  Only [DependencyNotFoundError], and only for a parameter with
    a default, is forgiven.  When the lookup for a parameter raises, the
    injection raises the same exception, whatever the default, unless
    the exception is [DependencyNotFoundError] and the parameter has a
    default: then the call goes on as if the parameter was not in the
    blueprint, in the container the lookup left. *)
Theorem only_not_found_is_forgiven (args : list pyobj) kw (blueprint : list entry) c
        (pre rest : list entry) e d kw1 c1 err c2 :
  drop (length args) blueprint = pre ++ e :: rest ->
  inject_each pre kw c = (Ok kw1, c1) ->
  dependency_id e = Some d ->
  kw1 !! arg_name e = None ->
  container_getitem d c1 = (Err err, c2) ->
  (has_default e = false \/ (forall x, err <> DependencyNotFoundError x) ->
   _generate_args_kwargs args kw blueprint c = (Err err, c2))
  /\ (has_default e = true -> (exists x, err = DependencyNotFoundError x) ->
      _generate_args_kwargs args kw blueprint c
      = _generate_args_kwargs args kw1 (take (length args) blueprint ++ rest) c2).
Proof.
  intros Hsplit Hpre Hd Hk Hget.
  assert (length args <= length blueprint) as Hlen.
  { destruct (decide (length args <= length blueprint)) as [Hle | Hgt]; [exact Hle |].
    rewrite drop_ge in Hsplit by lia. destruct pre; discriminate. }
  assert (inject_each (drop (length args) blueprint) kw c
          = match err with
            | DependencyNotFoundError x =>
                if has_default e then inject_each rest kw1 c2
                else (Err (DependencyNotFoundError x), c2)
            | _ => (Err err, c2)
            end) as Hrun.
  { rewrite Hsplit, inject_each_app, Hpre. cbn [Injector.inject_each].
    rewrite Hd, Hk, Hget. destruct err; reflexivity. }
  split.
  - intros Hwhy. unfold Injector._generate_args_kwargs. rewrite Hrun.
    destruct Hwhy as [Hnodef | Hother].
    + rewrite Hnodef. destruct err; reflexivity.
    + destruct err; try reflexivity. destruct (Hother dependency eq_refl).
  - intros Hdef [x ->]. unfold Injector._generate_args_kwargs. rewrite Hrun, Hdef.
    rewrite drop_app_length'; [reflexivity |]. rewrite length_take. lia.
Qed.
End Injection.

(** ** Blueprints *)

Section Blueprint.
Implicit Types (f : func) (mapping : gmap string pyobj).

(** The dependency id the injector asks for the parameter [n]: what the
    mapping says, else the annotation, else the name when
    [use_arg_name]. *)
Lemma blueprint_entries f use_arg_name mapping :
  _generate_injection_blueprint f use_arg_name mapping
  = map (fun p =>
           mkEntry (parameter_name p)
                   (match mapping !! parameter_name p with
                    | Some d => Some d
                    | None =>
                        match (if String.eqb (parameter_name p) "return" then None
                               else default ∅ (__annotations__ f) !! parameter_name p) with
                        | Some d => Some d
                        | None =>
                            if use_arg_name then Some (PyStr (parameter_name p)) else None
                        end
                    end)
                   (match parameter_default p with Some _ => true | None => false end))
        (signature f).
Proof.
  unfold _generate_injection_blueprint, _get_arguments_specification.
  rewrite map_map. apply map_ext. intros p. cbn beta iota.
  f_equal. rewrite lookup_union.
  destruct (mapping !! parameter_name p) as [d |] eqn:Hm.
  - destruct (delete "return" (default ∅ (__annotations__ f)) !! parameter_name p);
      reflexivity.
  - destruct (String.eqb_spec (parameter_name p) "return") as [-> | Hne].
    + rewrite lookup_delete_eq. reflexivity.
    + rewrite lookup_delete_ne by congruence.
      destruct (default ∅ (__annotations__ f) !! parameter_name p); reflexivity.
Qed.
Lemma blueprint_wanted f use_arg_name mapping :
  _generate_injection_blueprint f use_arg_name mapping
  = map (fun p =>
           mkEntry (parameter_name p)
                   (InjectorUse.wanted f use_arg_name mapping (parameter_name p))
                   (match parameter_default p with Some _ => true | None => false end))
        (signature f).
Proof. apply blueprint_entries. Qed.
End Blueprint.

(** ** With a container that is only read *)

Section ReadOnly.
Context {CS : Type}.
Variable get : pyobj -> outcome pyobj.
Variable w : string -> option pyobj.

Lemma inject_each_read_only (entries : list entry) :
  Forall (fun e => dependency_id e = w (arg_name e)) entries ->
  forall (kw : gmap string pyobj) (c : CS) kw' c',
    inject_each (fun d c => (get d, c)) entries kw c = (Ok kw', c') ->
    c' = c
    /\ forall n,
        kw' !! n
        = match kw !! n with
          | Some v => Some v
          | None =>
              if bool_decide (n ∈ map arg_name entries)
              then match w n with
                   | Some d => match get d with Ok v => Some v | _ => None end
                   | None => None
                   end
              else None
          end.
Proof.
  induction entries as [| e rest IH]; intros Hall kw c kw' c' Hrun.
  - injection Hrun as <- <-. split; [reflexivity |]. intros n.
    destruct (kw !! n); reflexivity.
  - apply Forall_cons in Hall as [He Hall]. cbn [inject_each] in Hrun.
    assert (forall n, n <> arg_name e ->
                      bool_decide (n ∈ map arg_name (e :: rest))
                      = bool_decide (n ∈ map arg_name rest)) as Hother.
    { intros n Hn. apply bool_decide_ext. cbn [map]. rewrite elem_of_cons. tauto. }
    assert (bool_decide (arg_name e ∈ map arg_name (e :: rest)) = true) as Hhere.
    { apply bool_decide_eq_true_2. cbn [map]. apply elem_of_cons. left. reflexivity. }
    destruct (dependency_id e) as [d |] eqn:Hd.
    + destruct (kw !! arg_name e) as [v0 |] eqn:Hk.
      * destruct (IH Hall _ _ _ _ Hrun) as [-> Hkw]. split; [reflexivity |].
        intros n. rewrite Hkw. destruct (decide (n = arg_name e)) as [-> | Hn].
        -- rewrite Hk. reflexivity.
        -- rewrite (Hother n Hn). reflexivity.
      * destruct (get d) as [v | err |] eqn:Hget; [| | discriminate].
        -- destruct (IH Hall _ _ _ _ Hrun) as [-> Hkw]. split; [reflexivity |].
           intros n. rewrite Hkw. destruct (decide (n = arg_name e)) as [-> | Hn].
           ++ rewrite lookup_insert_eq, Hk, Hhere, <- He, Hget. reflexivity.
           ++ rewrite lookup_insert_ne by congruence. rewrite (Hother n Hn).
              reflexivity.
        -- destruct err; try discriminate.
           destruct (has_default e); [| discriminate].
           destruct (IH Hall _ _ _ _ Hrun) as [-> Hkw]. split; [reflexivity |].
           intros n. rewrite Hkw. destruct (decide (n = arg_name e)) as [-> | Hn].
           ++ rewrite Hk, Hhere, <- He, Hget.
              destruct (bool_decide (arg_name e ∈ map arg_name rest)); reflexivity.
           ++ rewrite (Hother n Hn). reflexivity.
    + destruct (IH Hall _ _ _ _ Hrun) as [-> Hkw]. split; [reflexivity |].
      intros n. rewrite Hkw. destruct (decide (n = arg_name e)) as [-> | Hn].
      * rewrite Hhere, <- He.
        destruct (kw !! arg_name e); [reflexivity |].
        destruct (bool_decide (arg_name e ∈ map arg_name rest)); reflexivity.
      * rewrite (Hother n Hn). reflexivity.
Qed.
End ReadOnly.

(** X22.  With a container that lookups do not change, what [prepare]
    binds is told by the names alone.  The partial holds the function and
    the positional arguments given; a keyword argument given keeps its
    value; any other parameter that comes after the positional arguments
    is bound to what the container has for its dependency id, which is
    the one of the mapping, else the annotation, the one of ['return']
    not counting, else the name under [use_arg_name]; and nothing else is
    bound. *)
Theorem prepare_binds_by_name {CS : Type} (get : pyobj -> outcome pyobj)
        (f : func) (use_arg_name : bool) (mapping : option (gmap string pyobj))
        (args : option (list pyobj)) (kwargs : option (gmap string pyobj))
        (c : CS) (p : partial) (c' : CS) :
  prepare (fun d c => (get d, c)) f use_arg_name mapping args kwargs c = (Ok p, c') ->
  c' = c
  /\ partial_func p = f
  /\ partial_args p = default [] args
  /\ forall n,
      partial_keywords p !! n
      = match default ∅ kwargs !! n with
        | Some v => Some v
        | None =>
            if bool_decide
                 (n ∈ map parameter_name (drop (length (default [] args)) (signature f)))
            then match InjectorUse.wanted f use_arg_name (default ∅ mapping) n with
                 | Some d => match get d with Ok v => Some v | _ => None end
                 | None => None
                 end
            else None
        end.
Proof.
  unfold prepare, _generate_args_kwargs. rewrite blueprint_wanted.
  destruct (inject_each _ _ _ c) as [[kw' | err |] c1] eqn:Hrun; try discriminate.
  intros [= <- <-].
  apply (inject_each_read_only get
           (InjectorUse.wanted f use_arg_name (default ∅ mapping))) in Hrun.
  - destruct Hrun as [-> Hkw]. repeat (split; [reflexivity |]).
    intros n. cbn [partial_keywords]. rewrite Hkw.
    rewrite List.skipn_map, map_map. cbn [arg_name]. reflexivity.
  - rewrite List.skipn_map. apply List.Forall_map. apply Forall_true. intros q.
    reflexivity.
Qed.

(** ** The decorator *)

Section Decorator.
Context {CS : Type}.
Variable container_getitem : pyobj -> CS -> outcome pyobj * CS.
Variable call : func -> list pyobj -> gmap string pyobj -> CS -> outcome pyobj * CS.

Lemma fast_inject_cell mapping use_arg_name cell wrapped args kwargs (c : CS) :
  snd (fst (fast_inject container_getitem call mapping use_arg_name
                        cell wrapped args kwargs c))
  = Some (default (_generate_injection_blueprint wrapped use_arg_name (default ∅ mapping))
                  cell).
Proof.
  unfold fast_inject.
  destruct (Injector._generate_args_kwargs _ _ _ _ c) as [[[a k] | err |] c1].
  - destruct (call wrapped a k c1). destruct cell; reflexivity.
  - destruct cell; reflexivity.
  - destruct cell; reflexivity.
Qed.

Lemma decorated_calls_cell mapping use_arg_name
      (calls : list (func * list pyobj * gmap string pyobj)) :
  forall blueprint (c : CS),
    fst (InjectorUse.decorated_calls container_getitem call mapping use_arg_name
                                     calls (Some blueprint) c)
    = Some blueprint.
Proof.
  unfold InjectorUse.decorated_calls.
  induction calls as [| [[g a] k] calls IH]; intros blueprint c; [reflexivity |].
  cbn [fold_left fst snd].
  pose proof (fast_inject_cell mapping use_arg_name (Some blueprint) g a k c) as Hcell.
  destruct (fast_inject _ _ _ _ _ g a k c) as [[r cell] c1]. cbn in Hcell.
  rewrite Hcell. apply IH.
Qed.

(** X23.  A decorator made by [inject] builds its blueprint once, from
    the function that is called first, and keeps it whatever that call
    and the later ones do.  Every later call through the decorator is
    injected by this blueprint, also the call of another function the
    decorator wraps. *)
Theorem decorator_keeps_the_first_blueprint mapping use_arg_name
        (first : func) (args : list pyobj) (kwargs : gmap string pyobj)
        (calls : list (func * list pyobj * gmap string pyobj)) (c : CS) :
  let blueprint := _generate_injection_blueprint first use_arg_name (default ∅ mapping) in
  fst (InjectorUse.decorated_calls container_getitem call mapping use_arg_name
                                   ((first, args, kwargs) :: calls) None c)
  = Some blueprint
  /\ forall (other : func) args' kwargs' (c' : CS),
       fast_inject container_getitem call mapping use_arg_name
                   (Some blueprint) other args' kwargs' c'
       = match Injector._generate_args_kwargs container_getitem args' kwargs' blueprint c'
         with
         | (Ok (a, k), c1) => let '(r, c2) := call other a k c1 in (r, Some blueprint, c2)
         | (Err err, c1) => (Err err, Some blueprint, c1)
         | (OutOfFuel, c1) => (OutOfFuel, Some blueprint, c1)
         end.
Proof.
  intros blueprint. split; [| reflexivity].
  unfold InjectorUse.decorated_calls. cbn [fold_left fst snd].
  pose proof (fast_inject_cell mapping use_arg_name None first args kwargs c) as Hcell.
  destruct (fast_inject _ _ _ _ _ first args kwargs c) as [[r cell] c1]. cbn in Hcell.
  rewrite Hcell. apply decorated_calls_cell.
Qed.
End Decorator.

(** ** The specification of the arguments under Python 2 *)

Section Python2.

Lemma py2_lookup (args : list string) (defaults : option (list pyobj))
      (ismethod : bool) (i : nat) :
  let listed := if ismethod then drop 1 args else args in
  _get_arguments_specification_py2 (Some (mkArgspec args defaults)) ismethod !! i
  = (fun name =>
       (name, bool_decide (length listed <= i + length (default [] defaults))))
      <$> listed !! i.
Proof.
  intros listed. unfold _get_arguments_specification_py2.
  cbn [argspec_args argspec_defaults].
  destruct ismethod; cbn iota beta; rewrite list_lookup_imap; subst listed;
    destruct (_ !! i) as [name |] eqn:Hi; cbn; try reflexivity.
  - apply lookup_lt_Some in Hi. rewrite length_drop in *. f_equal. f_equal.
    destruct (Z.leb_spec
                (Z.of_nat (length args) - Z.of_nat (length (default [] defaults)) - 1)
                (Z.of_nat i)).
    + symmetry. apply bool_decide_eq_true_2. lia.
    + symmetry. apply bool_decide_eq_false_2. lia.
  - f_equal. f_equal.
    destruct (Z.leb_spec
                (Z.of_nat (length args) - Z.of_nat (length (default [] defaults)))
                (Z.of_nat i)).
    + symmetry. apply bool_decide_eq_true_2. lia.
    + symmetry. apply bool_decide_eq_false_2. lia.
Qed.

(** X24.  Under Python 2 the specification lists the arguments that
    [getargspec] names, in order and without the first one for a method,
    and marks as having a default exactly the last ones, as many as there
    are defaults: all of them when there are more defaults than
    arguments listed.  It is empty when [getargspec] raises
    [TypeError]. *)
Theorem py2_marks_the_last_arguments (args : list string) (defaults : option (list pyobj))
        (ismethod : bool) :
  let listed := if ismethod then drop 1 args else args in
  let spec := _get_arguments_specification_py2 (Some (mkArgspec args defaults)) ismethod in
  map fst spec = listed
  /\ (forall i name,
        listed !! i = Some name ->
        spec !! i
        = Some (name, bool_decide (length listed <= i + length (default [] defaults))))
  /\ length (filter (fun entry => snd entry = true) spec)
     = length listed `min` length (default [] defaults)
  /\ _get_arguments_specification_py2 None ismethod = [].
Proof.
  intros listed spec.
  assert (map fst spec = listed) as Hnames.
  { apply list_eq. intros i. rewrite list_lookup_fmap. unfold spec.
    rewrite py2_lookup. fold listed. destruct (listed !! i); reflexivity. }
  assert (forall i name,
             listed !! i = Some name ->
             spec !! i
             = Some (name, bool_decide (length listed <= i + length (default [] defaults))))
    as Hflags.
  { intros i name Hi. unfold spec. rewrite py2_lookup. fold listed. rewrite Hi.
    reflexivity. }
  split; [exact Hnames |]. split; [exact Hflags |]. split; [| reflexivity].
  assert (spec = imap (fun i name =>
                         (name, bool_decide (length listed
                                             <= i + length (default [] defaults))))
                      listed) as ->.
  { apply list_eq. intros i. rewrite list_lookup_imap. unfold spec.
    rewrite py2_lookup. fold listed. reflexivity. }
  generalize (length (default [] defaults)). intros nd.
  assert (forall (l : list string) (m k : nat),
             m = length l + k ->
             length (filter (fun entry : string * bool => snd entry = true)
                       (imap (fun i name => (name, bool_decide (m <= k + i + nd))) l))
             = length l `min` nd) as Hgen.
  { induction l as [| x l IH]; intros m k Hm; [reflexivity |].
    cbn [imap]. rewrite filter_cons. cbn [snd].
    rewrite (imap_ext _ (fun i name => (name, bool_decide (m <= S k + i + nd))))
      by (intros i y _; cbn; do 2 f_equal; apply bool_decide_ext; lia).
    specialize (IH m (S k) ltac:(simpl in Hm; lia)). simpl in Hm.
    destruct (decide (bool_decide (m <= k + 0 + nd) = true)) as [Ht | Hf].
    - cbn [length]. rewrite IH. apply bool_decide_eq_true in Ht. lia.
    - rewrite IH. assert (~ m <= k + 0 + nd) as Hnot.
      { intros Hle. apply Hf, bool_decide_eq_true_2, Hle. }
      cbn [length]. lia. }
  rewrite (imap_ext _ (fun i name => (name, bool_decide (length listed <= 0 + i + nd))))
    by (intros i y _; reflexivity).
  apply (Hgen listed (length listed) 0). lia.
Qed.
End Python2.
End InjectorFacts.

(** * The further properties on concrete inputs *)

Module ContainerExamples.
Import Base BaseUse Inputs MoreInputs.
#[local] Existing Instance sample_hashing.

(** A value set by hand stays, whatever is looked up afterwards. *)
Lemma cache_entries_persist_witness :
  dict_get
    (singletons (snd (__getitem__ 1 [factory true] (PyStr "b")
                        (mkWorld [(PyStr "a", PyInt 7)] 0 [] 0))))
    (PyStr "a")
  = Some (PyInt 7)
  /\ fst (__getitem__ 1 [factory true] (PyStr "a")
            (lookups 1 [factory true] [PyStr "b"; PyStr "c"]
               (mkWorld [(PyStr "a", PyInt 7)] 0 [] 0)))
     = Ok (PyInt 7).
Proof.
  destruct (ContainerFacts.cache_entries_persist
              (H:=sample_hashing) 1 [factory true] (PyStr "a") (PyInt 7)
              (mkWorld [(PyStr "a", PyInt 7)] 0 [] 0) eq_refl) as [Hone Hmany].
  split; [exact (Hone (PyStr "b")) |].
  exact (f_equal fst (Hmany [PyStr "b"; PyStr "c"] 0)).
Defined.

(** The id that needs a missing one is not cached by the failure. *)
Lemma failed_lookup_caches_nothing_witness :
  __getitem__ 2 [requiring (PyStr "x") (PyStr "z")] (PyStr "x") empty_world
  = (Err (DependencyInstantiationError (PyStr "x") (DependencyNotFoundError (PyStr "z"))),
     empty_world)
  /\ dict_get (singletons empty_world) (PyStr "x") = None.
Proof.
  split; [reflexivity |].
  exact (ContainerFacts.failed_lookup_caches_nothing (H:=sample_hashing)
           2 [requiring (PyStr "x") (PyStr "z")] (PyStr "x") empty_world _ _
           eq_refl eq_refl).
Defined.

Lemma lookup_raises_its_own_errors_witness :
  (exists path,
      DependencyInstantiationError (PyStr "x") (RaisedException "KeyError")
      = DependencyCycleError path)
  \/ (exists cause,
         DependencyInstantiationError (PyStr "x") (RaisedException "KeyError")
         = DependencyInstantiationError (PyStr "x") cause)
  \/ DependencyInstantiationError (PyStr "x") (RaisedException "KeyError")
     = DependencyNotFoundError (PyStr "x")
  \/ is_Exception (DependencyInstantiationError (PyStr "x") (RaisedException "KeyError"))
     = false.
Proof.
  exact (ContainerFacts.lookup_raises_its_own_errors (H:=sample_hashing)
           1 [raises (RaisedException "KeyError")] (PyStr "x") empty_world _ _ eq_refl).
Defined.

(** ['x'] is built from ['z'], which no provider has. *)
Lemma nested_failure_is_wrapped_witness :
  __getitem__ 1 [requiring (PyStr "x") (PyStr "z")] (PyStr "z")
    (push (PyStr "x") (acquire empty_world))
  = (Err (DependencyNotFoundError (PyStr "z")), push (PyStr "x") (acquire empty_world))
  /\ forall fuel', 1 <= fuel' ->
       __getitem__ (S fuel') [requiring (PyStr "x") (PyStr "z")] (PyStr "x") empty_world
       = (Err (DependencyInstantiationError (PyStr "x")
                 (DependencyNotFoundError (PyStr "z"))),
          empty_world).
Proof.
  split; [reflexivity |].
  exact (ContainerFacts.nested_failure_is_wrapped (H:=sample_hashing)
           1 [] (requiring (PyStr "x") (PyStr "z")) [] (PyStr "x") (PyStr "z")
           empty_world _ _ _ eq_refl eq_refl eq_refl eq_refl eq_refl
           (or_introl eq_refl)).
Defined.

(** Assignment, then lookup through the wrapper. *)
Example assigned_then_asked_wrapped :
  fst (__getitem__ 1 [] (PyDependency (PyStr "a"))
         (__setitem__ (PyStr "a") (PyInt 1) empty_world))
  = Ok (PyInt 1).
Proof. reflexivity. Qed.

(** An assignment made while the id is being resolved: the singleton
    answer of the provider is stored over the value assigned. *)
Example assigned_while_resolved_is_replaced :
  let w := __setitem__ (PyStr "a") (PyInt 7) (push (PyStr "a") (acquire empty_world)) in
  dict_get (singletons w) (PyStr "a") = Some (PyInt 7)
  /\ fst (consult (__getitem__ 0 [factory true]) [factory true] (PyStr "a") w)
     = Ok (Some (PyObject 0))
  /\ dict_get (singletons (snd (consult (__getitem__ 0 [factory true]) [factory true]
                                  (PyStr "a") w)))
              (PyStr "a")
     = Some (PyObject 0).
Proof. repeat split; reflexivity. Qed.
End ContainerExamples.

Module TagMoreExamples.
Import TagProv TagUse TagIter Inputs MoreInputs.
#[local] Existing Instance sample_hashing.

(** ['a'] has the tag ['t']: the call stops there, and ['u'] stays. *)
Lemma register_keeps_what_it_did_witness :
  exists ts1 t ts2,
    [TagStr "u"; TagStr "t"; TagStr "v"] = ts1 ++ t :: ts2
    /\ register (PyStr "a") ts1 one_tagged
       = (Ok tt,
          snd (register (PyStr "a") [TagStr "u"; TagStr "t"; TagStr "v"] one_tagged))
    /\ ((exists n,
            name_of t = Some n
            /\ registered
                 (snd (register (PyStr "a") [TagStr "u"; TagStr "t"; TagStr "v"] one_tagged))
                 n (PyStr "a") = true
            /\ DuplicateTagError "t" = DuplicateTagError n)
        \/ (name_of t = None /\ exists msg, DuplicateTagError "t" = ValueError msg)).
Proof.
  exact (TagMoreFacts.register_keeps_what_it_did (H:=sample_hashing)
           (PyStr "a") [TagStr "u"; TagStr "t"; TagStr "v"] one_tagged
           (DuplicateTagError "t") _ eq_refl).
Defined.

Example tags_of_a_failed_call_stay :
  let s := snd (register (PyStr "a") [TagStr "u"; TagStr "t"; TagStr "v"] one_tagged) in
  (registered s "u" (PyStr "a"), registered s "v" (PyStr "a")) = (true, false).
Proof. reflexivity. Qed.

(** A loop over three dependencies, and over three of which the second
    is not provided. *)
Lemma iteration_builds_what_is_left_witness :
  consume counting 4 instances three []
  = ([PyInt 10; PyInt 20; PyInt 30], Exhausted,
     with_instances three [PyInt 10; PyInt 20; PyInt 30],
     [PyInt 1; PyInt 2; PyInt 3])
  /\ consume counting 4 instances broken []
     = ([PyInt 10], Failed (DependencyNotFoundError (PyStr "b")),
        with_instances broken [PyInt 10], [PyInt 1; PyStr "b"]).
Proof.
  split.
  - exact (proj1 (TagIterFacts.iteration_builds_what_is_left
                    counting three [] 4 (conj eq_refl (le_0_n 3)) (le_n 4))).
  - exact (proj1 (TagIterFacts.iteration_builds_what_is_left
                    counting broken [] 4 (conj eq_refl (le_0_n 3)) (le_n 4))).
Defined.

(** The first two of three instances. *)
Lemma instances_are_built_on_demand_witness :
  exists g',
    consume counting 2 instances three []
    = ([PyInt 10; PyInt 20], Suspended g', with_instances three [PyInt 10; PyInt 20],
       [PyInt 1; PyInt 2])
    /\ length [PyInt 10; PyInt 20] = 0 `max` 2.
Proof.
  exact (proj1 (TagIterFacts.instances_are_built_on_demand
                  counting three [] 2 (conj eq_refl (le_0_n 3)) (le_S _ _ (le_n 2)))
               [PyInt 10; PyInt 20] tt [PyInt 1; PyInt 2] eq_refl).
Defined.

(** One generator is left after the first instance, another one is run
    to its end, and the first one goes on. *)
Lemma generators_share_the_instances_witness :
  consume counting 4 (InWhile 0) (with_instances three [PyInt 10; PyInt 20; PyInt 30])
          [PyInt 1; PyInt 2; PyInt 3]
  = ([PyInt 20; PyInt 30], Exhausted,
     with_instances three [PyInt 10; PyInt 20; PyInt 30], [PyInt 1; PyInt 2; PyInt 3])
  /\ [PyInt 10] = take 1 [PyInt 10; PyInt 20; PyInt 30]
  /\ _instances (with_instances three [PyInt 10; PyInt 20; PyInt 30])
     = [PyInt 10; PyInt 20; PyInt 30].
Proof.
  exact (TagIterFacts.generators_share_the_instances
           counting three [] 1 4 [PyInt 10] (InWhile 0)
           (with_instances three [PyInt 10]) [PyInt 1]
           [PyInt 10; PyInt 20; PyInt 30]
           (with_instances three [PyInt 10; PyInt 20; PyInt 30])
           [PyInt 1; PyInt 2; PyInt 3]
           (conj eq_refl (le_0_n 3)) (le_n 4) eq_refl eq_refl).
Defined.

Example second_loop_asks_nothing :
  let '(_, _, self, c) := consume counting 4 instances three [] in
  consume counting 4 instances self c
  = ([PyInt 10; PyInt 20; PyInt 30], Exhausted, self, [PyInt 1; PyInt 2; PyInt 3]).
Proof. reflexivity. Qed.
End TagMoreExamples.

Module LazyMoreExamples.
Import Lazy Inputs MoreInputs.

(** The class [A] holds the descriptor under ['x']. *)
Lemma marker_is_bound_beside_the_descriptor_witness :
  exists h' d',
    __get__ no_call 1 1 None 0 class_heap = (Ok (PyObject 4), h')
    /\ h' !! 0 = Some (ClassObject d' [])
    /\ attr_get d' "x_dependency" = Some (PyObject 4)
    /\ attr_get d' "x" = Some (PyObject 1)
    /\ attr_get d' "y" = Some (PyObject 2)
    /\ h' !! 4 = Some (LazyMethodCallDependency 1 0)
    /\ h' !! 2 = class_heap !! 2.
Proof.
  destruct (LazyMoreFacts.marker_is_bound_beside_the_descriptor
              no_call 0 1 0 class_heap "get" [] []
              [("x", PyObject 1); ("y", PyObject 2)] [] "x" eq_refl eq_refl eq_refl)
    as (h' & d' & Hget & Ho & Hkey & Hrest & Hx & _ & Hm & _ & Hothers).
  exists h', d'. split; [exact Hget |]. split; [exact Ho |]. split; [exact Hkey |].
  split; [exact Hx |]. split; [exact (Hrest "y" ltac:(discriminate)) |].
  split; [exact Hm |].
  exact (Hothers 2 ltac:(discriminate) ltac:(discriminate) ltac:(simpl; lia)).
Defined.


Lemma call_replaces_the_arguments_witness :
  let h2 := __call__ 1 [PyInt 2] [] (__call__ 1 [PyInt 1] [] class_heap) in
  h2 !! 1 = Some (LazyMethodCall "get" [PyInt 2] [] true None)
  /\ __get__ first_argument 1 1 (Some (PyObject 9)) 0 h2 = (Ok (PyInt 2), h2).
Proof.
  destruct (LazyMoreFacts.call_replaces_the_arguments
              first_argument 0 1 0 class_heap "get" [] [] true None
              [PyInt 1] [] [PyInt 2] [] eq_refl)
    as (_ & Hself & _ & Hcall & _).
  split; [exact Hself | exact (Hcall (PyObject 9))].
Defined.

(** The class [A] of [two_singletons] holds two singleton lazy method
    calls, under ['x'] and ['z'].  After [A.x]: [A.z], a call of the
    first one, then [B.z] and [B.x] through the subclass [B]; [A.x] and
    [B.x] give the first marker again. *)
Lemma marker_survives_other_accesses_witness :
  exists h1,
    __get__ no_call 1 1 None 0 two_singletons = (Ok (PyObject 4), h1)
    /\ let h2 := LazyUse.performs no_call 1
                   [LazyUse.ClassAccess 2 0; LazyUse.Call 1 [PyInt 1] [];
                    LazyUse.ClassAccess 2 3; LazyUse.ClassAccess 1 3] h1 in
       h2 !! 4 = Some (LazyMethodCallDependency 1 0)
       /\ __get__ no_call 1 1 None 0 h2 = (Ok (PyObject 4), h2)
       /\ __get__ no_call 1 1 None 3 h2 = (Ok (PyObject 4), h2)
       /\ __get__ no_call 1 2 None 0 h2 = (Ok (PyObject 5), h2).
Proof.
  destruct (LazyOrderFacts.marker_survives_other_accesses
              no_call 0 1 0 two_singletons "get" [] []
              [("x", PyObject 1); ("z", PyObject 2)] [] "x"
              eq_refl eq_refl
              ltac:(repeat constructor; simpl; intuition discriminate)
              eq_refl ltac:(discriminate))
    as (h1 & Hget & _ & Hlater).
  exists h1. split; [exact Hget |].
  destruct (Hlater [LazyUse.ClassAccess 2 0; LazyUse.Call 1 [PyInt 1] [];
                    LazyUse.ClassAccess 2 3; LazyUse.ClassAccess 1 3] 1)
    as (Hm & Hsame & Hseen).
  injection Hget as <-.
  split; [exact Hm |]. split; [exact (Hsame 0) |].
  split; [exact (Hseen 3 0 eq_refl) |]. reflexivity.
Defined.

(** [A.y] of [class_heap] is not a singleton: three accesses, three
    markers. *)
Lemma plain_access_builds_a_new_marker_witness :
  accesses no_call 1 3 2 0 class_heap
  = ([Ok (PyObject 4); Ok (PyObject 5); Ok (PyObject 6)],
     class_heap ++ [LazyMethodCallDependency 2 0; LazyMethodCallDependency 2 0;
                    LazyMethodCallDependency 2 0])
  /\ (let '(rs, h') := accesses no_call 1 3 2 0 class_heap in
      List.NoDup rs /\ length h' = 7 /\ h' !! 1 = class_heap !! 1).
Proof.
  split; [reflexivity |].
  pose proof (LazyOrderFacts.plain_access_builds_a_new_marker
                no_call 0 2 0 class_heap "get" [] [] None eq_refl 3) as Hthree.
  destruct (accesses no_call 1 3 2 0 class_heap) as [rs h'].
  destruct Hthree as (_ & Hnd & Hlen & Hold & _).
  split; [exact Hnd |]. split; [exact Hlen |].
  exact (Hold 1 ltac:(simpl; lia)).
Defined.

(** C9.  The class [A] of [two_singletons] has two singleton lazy method
    calls, [x] and [z], and [B] is a subclass of [A] with no attribute of
    its own.  [B.x] builds the marker of [x], [B.z] builds the marker of
    [z], and the next [B.x] returns the marker of [z], not the one the
    first access built: neither lazy method call is in the [__dict__] of
    [B], so both markers are bound under the one name [None_dependency].
    Through [A], which holds both, the same three accesses return the
    marker of [x] again. *)
Lemma inherited_singletons_share_one_marker :
  let '(r1, h1) := __get__ no_call 1 1 None 3 two_singletons in
  let '(r2, h2) := __get__ no_call 1 2 None 3 h1 in
  let '(r3, h3) := __get__ no_call 1 1 None 3 h2 in
  (r1, r2, r3) = (Ok (PyObject 4), Ok (PyObject 5), Ok (PyObject 5))
  /\ h3 !! 4 = Some (LazyMethodCallDependency 1 3)
  /\ h3 !! 5 = Some (LazyMethodCallDependency 2 3)
  /\ h3 !! 1 = Some (LazyMethodCall "get" [] [] true (Some "None_dependency"))
  /\ h3 !! 2 = Some (LazyMethodCall "other" [] [] true (Some "None_dependency"))
  /\ h3 !! 3 = Some (ClassObject [("None_dependency", PyObject 5)] [0])
  /\ (let '(a1, g1) := __get__ no_call 1 1 None 0 two_singletons in
      let '(a2, g2) := __get__ no_call 1 2 None 0 g1 in
      let '(a3, g3) := __get__ no_call 1 1 None 0 g2 in
      (a1, a2, a3) = (Ok (PyObject 4), Ok (PyObject 5), Ok (PyObject 4))
      /\ g3 !! 4 = Some (LazyMethodCallDependency 1 0)).
Proof. vm_compute. repeat split; reflexivity. Qed.
End LazyMoreExamples.

Module InjectorExamples.
Import Injector InjectorUse MoreInputs.

(** [f(5)] with the annotations of [f]: ['b'] is injected. *)
Lemma explicit_arguments_are_kept_witness :
  _generate_args_kwargs
    (counted_lookup {[ "service" := PyInt 1 ]}) [PyInt 5] {[ "d" := PyInt 0 ]}
    (_generate_injection_blueprint sample_func false ∅) 0
  = (Ok ([PyInt 5], {[ "b" := PyInt 1; "d" := PyInt 0 ]}), 1)
  /\ ({[ "b" := PyInt 1; "d" := PyInt 0 ]} : gmap string pyobj) !! "d" = Some (PyInt 0)
  /\ is_Some (({[ "b" := PyInt 1; "d" := PyInt 0 ]} : gmap string pyobj) !! "b").
Proof.
  assert (_generate_args_kwargs
            (counted_lookup {[ "service" := PyInt 1 ]}) [PyInt 5] {[ "d" := PyInt 0 ]}
            (_generate_injection_blueprint sample_func false ∅) 0
          = (Ok ([PyInt 5], {[ "b" := PyInt 1; "d" := PyInt 0 ]}), 1)) as Hrun
      by (vm_compute; reflexivity).
  destruct (InjectorFacts.explicit_arguments_are_kept
              (counted_lookup {[ "service" := PyInt 1 ]}) [PyInt 5] {[ "d" := PyInt 0 ]}
              (_generate_injection_blueprint sample_func false ∅) 0 _ _ _ Hrun)
    as (_ & Hkeep & _ & Hreq).
  split; [exact Hrun |]. split; [exact (Hkeep "d" (PyInt 0) eq_refl) |].
  apply (Hreq (mkEntry "b" (Some (PyStr "service")) false)); [| eauto | reflexivity].
  assert (drop (length [PyInt 5]) (_generate_injection_blueprint sample_func false ∅)
          = [mkEntry "b" (Some (PyStr "service")) false;
             mkEntry "c" None true; mkEntry "d" None true]) as ->
      by (vm_compute; reflexivity).
  apply elem_of_cons. left. reflexivity.
Defined.

(** By name: ['a'] and ['service'] are there, ['c'] and ['d'] are not.
    Without ['a'] the call raises; ['c'] is passed over. *)
Lemma only_not_found_is_forgiven_witness :
  _generate_args_kwargs (counted_lookup {[ "service" := PyInt 1 ]}) [] ∅
    (_generate_injection_blueprint sample_func true ∅) 0
  = (Err (DependencyNotFoundError (PyStr "a")), 1)
  /\ _generate_args_kwargs
       (counted_lookup {[ "a" := PyInt 0; "service" := PyInt 1 ]}) [] ∅
       (_generate_injection_blueprint sample_func true ∅) 0
     = _generate_args_kwargs
         (counted_lookup {[ "a" := PyInt 0; "service" := PyInt 1 ]}) []
         {[ "a" := PyInt 0; "b" := PyInt 1 ]}
         [mkEntry "d" (Some (PyStr "d")) true] 3.
Proof.
  split.
  - refine (proj1 (InjectorFacts.only_not_found_is_forgiven
                     (counted_lookup {[ "service" := PyInt 1 ]}) [] ∅
                     (_generate_injection_blueprint sample_func true ∅) 0
                     [] _ (mkEntry "a" (Some (PyStr "a")) false) (PyStr "a") ∅ 0
                     (DependencyNotFoundError (PyStr "a")) 1
                     _ eq_refl eq_refl eq_refl eq_refl)
                  (or_introl eq_refl)).
    vm_compute. reflexivity.
  - refine (proj2 (InjectorFacts.only_not_found_is_forgiven
                     (counted_lookup {[ "a" := PyInt 0; "service" := PyInt 1 ]}) [] ∅
                     (_generate_injection_blueprint sample_func true ∅) 0
                     [mkEntry "a" (Some (PyStr "a")) false;
                      mkEntry "b" (Some (PyStr "service")) false]
                     [mkEntry "d" (Some (PyStr "d")) true]
                     (mkEntry "c" (Some (PyStr "c")) true) (PyStr "c")
                     {[ "a" := PyInt 0; "b" := PyInt 1 ]} 2
                     (DependencyNotFoundError (PyStr "c")) 3
                     _ _ eq_refl _ eq_refl)
                  eq_refl (ex_intro _ (PyStr "c") eq_refl)).
    + vm_compute. reflexivity.
    + vm_compute. reflexivity.
    + vm_compute. reflexivity.
Defined.

(** [prepare(f, mapping={'a': 'service'}, kwargs={'c': 3})] on a
    container that has ['service'] only. *)
Lemma prepare_binds_by_name_witness :
  let p := mkPartial sample_func [] {[ "a" := PyInt 1; "b" := PyInt 1; "c" := PyInt 3 ]} in
  prepare (fun d c => (lookup_in {[ "service" := PyInt 1 ]} d, c))
          sample_func true (Some {[ "a" := PyStr "service" ]}) None
          (Some {[ "c" := PyInt 3 ]}) tt
  = (Ok p, tt)
  /\ partial_keywords p !! "a"
     = match lookup_in {[ "service" := PyInt 1 ]} (PyStr "service") with
       | Ok v => Some v
       | _ => None
       end
  /\ partial_keywords p !! "d" = None.
Proof.
  intros p.
  assert (prepare (fun d c => (lookup_in {[ "service" := PyInt 1 ]} d, c))
                  sample_func true (Some {[ "a" := PyStr "service" ]}) None
                  (Some {[ "c" := PyInt 3 ]}) tt
          = (Ok p, tt)) as Hrun by (vm_compute; reflexivity).
  destruct (InjectorFacts.prepare_binds_by_name _ _ _ _ _ _ _ _ _ Hrun)
    as (_ & _ & _ & Hkw).
  split; [exact Hrun |]. split.
  - rewrite (Hkw "a"). reflexivity.
  - rewrite (Hkw "d"). reflexivity.
Defined.

(** One decorator around [f] and [g]: called first, [g] is given its
    ['service']; called after [f], it fails for the ['a'] of [f]. *)
Example shared_decorator :
  let inject := fast_inject (counted_lookup {[ "service" := PyInt 1 ]})
                            returns_service None true in
  fst (fst (inject None other_func [] ∅ 0)) = Ok (PyInt 1)
  /\ (let '(_, cell, c) := inject None sample_func [PyInt 0; PyInt 0] ∅ 0 in
      fst (fst (inject cell other_func [] ∅ c)))
     = Err (DependencyNotFoundError (PyStr "a")).
Proof. split; vm_compute; reflexivity. Qed.

Example python2_specification :
  _get_arguments_specification_py2
    (Some (mkArgspec ["self"; "a"; "b"] (Some [PyInt 1]))) true
  = [("a", false); ("b", true)]
  /\ _get_arguments_specification_py2 None false = [].
Proof. split; reflexivity. Qed.
End InjectorExamples.
